(** * Simple-AI-Agent: review analytics tools, mail tool and request routing

    A shallow embedding of [src/tools.py] and [src/main.py].

    Python values are modelled as follows.
    - [str] is [string].  The methods of [str] that look characters up in
      the Unicode tables ([lower], [capitalize], [isalpha], [strip], [split],
      and the digits and whitespace of [int] and [strptime]) are modelled on
      ASCII text, the texts for which [isascii] holds, where they are
      Python's; the statements that depend on what one of them does to a
      text are made for ASCII text.  Concatenation, comparison, [in] and
      [join] are modelled on every text.
    - [int] is [Z] (unbounded, as in Python).
    - [float] is an IEEE-754 binary64 number kept as sign, integer mantissa
      and binary exponent; [int / int] is the correctly rounded quotient and
      fixed-point formatting is the correctly rounded decimal, both as
      CPython computes them.
    - a row produced by [csv.DictReader] is a finite map from column names
      to [Some text] or [None] (a short line leaves its last columns at
      [None]).
    - an exception is a value of [exn]; a computation that may raise returns
      a [result]; a function that reads or writes module-level or external
      state is a function on [world]. *)

From stdpp Require Import gmap strings list fin_maps pretty sorting.
From Stdlib Require Import ZArith Lia Ascii.

Local Open Scope Z_scope.

(* ================================================================== *)
(** * Part I: definitions *)
(* ================================================================== *)

(** ** Exceptions and results *)

Inductive exn : Type :=
  | KeyError (key : string)
  | AttributeError (msg : string)
  | TypeError (msg : string)
  | ValueError (msg : string)
  | ZeroDivisionError (msg : string)
  | OverflowError (msg : string)
  | LibraryError (cls msg : string)
  | HTTPException (status_code : Z) (detail : string).

(** [str(e)]: the message; for a [KeyError] the [repr] of the key (the
    keys looked up in this program are plain identifiers, whose [repr] is
    the key between single quotes); for an [HTTPException] the status code,
    a colon and the detail. *)
Definition str_exn (e : exn) : string :=
  match e with
  | KeyError k => "'" +:+ k +:+ "'"
  | AttributeError m | TypeError m | ValueError m
  | ZeroDivisionError m | OverflowError m => m
  | LibraryError _ m => m
  | HTTPException status_code d => pretty status_code +:+ ": " +:+ d
  end.

Inductive result (A : Type) : Type :=
  | Ok (a : A)
  | Raise (e : exn).
Arguments Ok {A} a.
Arguments Raise {A} e.

Definition result_bind {A B} (r : result A) (k : A → result B) : result B :=
  match r with
  | Ok a => k a
  | Raise e => Raise e
  end.

#[global] Instance result_ret : MRet result := λ A a, Ok a.
#[global] Instance result_mbind : MBind result := λ A B k r, result_bind r k.
#[global] Instance result_fmap : FMap result := λ A B f r,
  match r with Ok a => Ok (f a) | Raise e => Raise e end.

(** ** Characters *)

Definition code (c : ascii) : Z := Z.of_N (N_of_ascii c).
Definition chr (n : Z) : ascii := ascii_of_N (Z.to_N n).

Definition char_between (lo hi : Z) (c : ascii) : bool :=
  (lo <=? code c) && (code c <=? hi).

(** An ASCII character: its code is below 128. *)
Definition is_ascii (c : ascii) : bool := code c <? 128.

Definition is_upper (c : ascii) : bool := char_between 65 90 c.
Definition is_lower (c : ascii) : bool := char_between 97 122 c.
Definition is_alpha (c : ascii) : bool := is_upper c || is_lower c.
Definition is_digit (c : ascii) : bool := char_between 48 57 c.

(** Python's [str.isspace] on one ASCII character: TAB, LF, VT, FF, CR, the
    four separators FS, GS, RS, US and the space. *)
Definition is_space (c : ascii) : bool :=
  char_between 9 13 c || char_between 28 32 c.

Definition lower_char (c : ascii) : ascii :=
  if is_upper c then chr (code c + 32) else c.
Definition upper_char (c : ascii) : ascii :=
  if is_lower c then chr (code c - 32) else c.

Definition newline : string := String "010" "".
Definition dquote : string := String "034" "".

(** ** [str] methods *)

Fixpoint string_map (f : ascii → ascii) (s : string) : string :=
  match s with
  | EmptyString => EmptyString
  | String c s' => String (f c) (string_map f s')
  end.

Fixpoint string_forall (p : ascii → bool) (s : string) : bool :=
  match s with
  | EmptyString => true
  | String c s' => p c && string_forall p s'
  end.

Definition is_empty (s : string) : bool :=
  match s with EmptyString => true | String _ _ => false end.

(** [s.isascii()]: every character of [s] is ASCII.  The methods below are
    Python's on the texts for which it holds. *)
Definition py_isascii (s : string) : bool := string_forall is_ascii s.

(** [s.lower()], for ASCII [s] *)
Definition py_lower (s : string) : string := string_map lower_char s.

(** [s.capitalize()], for ASCII [s] *)
Definition py_capitalize (s : string) : string :=
  match s with
  | EmptyString => EmptyString
  | String c s' => String (upper_char c) (py_lower s')
  end.

(** [s.isalpha()], for ASCII [s]: at least one character and all of them
    letters. *)
Definition py_isalpha (s : string) : bool :=
  negb (is_empty s) && string_forall is_alpha s.

Fixpoint lstrip_with (p : ascii → bool) (s : string) : string :=
  match s with
  | EmptyString => EmptyString
  | String c s' => if p c then lstrip_with p s' else s
  end.

Fixpoint rstrip_with (p : ascii → bool) (s : string) : string :=
  match s with
  | EmptyString => EmptyString
  | String c s' =>
      let r := rstrip_with p s' in
      if p c && is_empty r then EmptyString else String c r
  end.

Definition strip_with (p : ascii → bool) (s : string) : string :=
  lstrip_with p (rstrip_with p s).

(** [s.strip()], for ASCII [s] *)
Definition py_strip (s : string) : string := strip_with is_space s.

Fixpoint char_in (chars : string) (c : ascii) : bool :=
  match chars with
  | EmptyString => false
  | String d chars' => bool_decide (c = d) || char_in chars' c
  end.

(** [s.strip(chars)] *)
Definition py_strip_chars (chars s : string) : string :=
  strip_with (char_in chars) s.

(** [split_words s] is the word that starts at the head of [s] (empty when
    [s] starts with whitespace or is empty) and the words after it. *)
Fixpoint split_words (s : string) : string * list string :=
  match s with
  | EmptyString => (EmptyString, [])
  | String c s' =>
      let '(w, ws) := split_words s' in
      if is_space c then (EmptyString, if is_empty w then ws else w :: ws)
      else (String c w, ws)
  end.

(** [s.split()], for ASCII [s]: the maximal runs of non-whitespace
    characters. *)
Definition py_split (s : string) : list string :=
  let '(w, ws) := split_words s in
  if is_empty w then ws else w :: ws.

(** [needle in hay] *)
Fixpoint py_contains (needle hay : string) : bool :=
  String.prefix needle hay ||
  match hay with
  | EmptyString => false
  | String _ hay' => py_contains needle hay'
  end.

(** [sep.join(parts)] *)
Fixpoint py_join (sep : string) (parts : list string) : string :=
  match parts with
  | [] => EmptyString
  | [p] => p
  | p :: ps => p +:+ sep +:+ py_join sep ps
  end.

(** [l[:n]] *)
Definition py_slice_to {A} (n : Z) (l : list A) : list A :=
  if 0 <=? n then take (Z.to_nat n) l
  else take (length l - Z.to_nat (- n))%nat l.

(** ** [int(s)] and [str(n)] *)

Definition digit_value (c : ascii) : option Z :=
  if is_digit c then Some (code c - 48) else None.

(** Digits with single underscores between them; [prev_us] tells that the
    previous character was an underscore. *)
Fixpoint parse_digits (s : string) (acc : Z) (prev_us : bool) : option Z :=
  match s with
  | EmptyString => if prev_us then None else Some acc
  | String c s' =>
      if bool_decide (c = "_"%char) then
        if prev_us then None else parse_digits s' acc true
      else
        match digit_value c with
        | Some d => parse_digits s' (10 * acc + d) false
        | None => None
        end
  end.

Definition split_sign (s : string) : bool * string :=
  match s with
  | String c s' =>
      if bool_decide (c = "-"%char) then (true, s')
      else if bool_decide (c = "+"%char) then (false, s')
      else (false, s)
  | EmptyString => (false, s)
  end.

Definition parse_int_literal (s : string) : option Z :=
  let '(neg, body) := split_sign s in
  match body with
  | EmptyString => None
  | String c _ =>
      if bool_decide (c = "_"%char) then None
      else z ← parse_digits body 0 false; Some (if neg then - z else z)
  end.

(** The whitespace [int] skips around the digits of an ASCII [str]: TAB,
    LF, VT, FF, CR and the space.  The separators FS, GS, RS, US, which
    [str.strip] and [str.split] also treat as whitespace, are not skipped. *)
Definition is_c_space (c : ascii) : bool :=
  char_between 9 13 c || bool_decide (c = " "%char).

(** The most digits a decimal text may have for [int] to convert it: the
    interpreter's default for [sys.get_int_max_str_digits()]. *)
Definition int_max_str_digits : Z := 4300.

(** The number of digits in a text. *)
Fixpoint count_digits (s : string) : Z :=
  match s with
  | EmptyString => 0
  | String c s' => (if is_digit c then 1 else 0) + count_digits s'
  end.

(** [int(s)] for an ASCII [str], [None] where it raises [ValueError]:
    surrounding whitespace is ignored, then come an optional sign and decimal
    digits, at most [int_max_str_digits] of them, leading zeros included. *)
Definition py_int (s : string) : option Z :=
  let literal := strip_with is_c_space s in
  if int_max_str_digits <? count_digits literal then None
  else parse_int_literal literal.

(** [str(n)] for an [int]. *)
Definition str_int (n : Z) : string := pretty n.

(** ** [float]: IEEE-754 binary64 *)

(** The number [(-1)^fneg * fmant * 2^fexp], with [0 <= fmant <= 2^53]. *)
Record pyfloat : Type := PyFloat { fneg : bool; fmant : Z; fexp : Z }.

(** [n / d] rounded to the nearest integer, ties to even ([0 <= n], [0 < d]). *)
Definition rne_div (n d : Z) : Z :=
  let q := n / d in
  let r := n mod d in
  if 2 * r <? d then q
  else if d <? 2 * r then q + 1
  else if Z.even q then q else q + 1.

(** [n / (d * 2^e)] rounded to the nearest integer, ties to even. *)
Definition scaled_rne (n d e : Z) : Z :=
  if 0 <=? e then rne_div n (d * 2 ^ e) else rne_div (n * 2 ^ (- e)) d.

(** [floor (log2 (n / d))] for positive [n] and [d]. *)
Definition quotient_log2 (n d : Z) : Z :=
  let k := Z.log2 n - Z.log2 d in
  if (if 0 <=? k then d * 2 ^ k <=? n else d <=? n * 2 ^ (- k)) then k
  else k - 1.

(** [a / b] on two [int]s: the quotient correctly rounded to binary64
    (53 significant bits, exponent of the last bit at least -1074). *)
Definition int_true_divide (a b : Z) : result pyfloat :=
  if b =? 0 then Raise (ZeroDivisionError "division by zero")
  else
    let neg := xorb (a <? 0) (b <? 0) in
    if a =? 0 then Ok (PyFloat neg 0 0)
    else
      let n := Z.abs a in
      let d := Z.abs b in
      let e := Z.max (quotient_log2 n d - 52) (-1074) in
      let m := scaled_rne n d e in
      if 2 ^ 1024 <=? m * 2 ^ e
      then Raise (OverflowError "integer division result too large for a float")
      else Ok (PyFloat neg m e).

Fixpoint zeros (n : nat) : string :=
  match n with O => EmptyString | S n' => String "0" (zeros n') end.

Definition zero_pad (width : nat) (n : Z) : string :=
  let s := str_int n in zeros (width - String.length s) +:+ s.

(** The decimal [r / 10^p] written with [p] digits after the point. *)
Definition render_fixed (p : nat) (neg : bool) (r : Z) : string :=
  (if neg then "-" else "") +:+ str_int (r / 10 ^ Z.of_nat p) +:+ "." +:+
  zero_pad p (r mod 10 ^ Z.of_nat p).

(** [format(x, ".pf")] for a float: the decimal with [p] digits after the
    point nearest to the exact value of [x], ties to even. *)
Definition format_float (p : nat) (x : pyfloat) : string :=
  render_fixed p (fneg x) (scaled_rne (fmant x * 10 ^ Z.of_nat p) 1 (- fexp x)).

(** A number that is either an [int] or a [float]. *)
Inductive pynumber : Type :=
  | PyInt (z : Z)
  | PyFloatV (x : pyfloat).

(** [format(v, ".pf")]; an [int] is first converted to [float] (exact for
    the only [int] formatted this way here, [0]). *)
Definition format_f (p : nat) (v : pynumber) : string :=
  match v with
  | PyInt z => render_fixed p (z <? 0) (Z.abs z * 10 ^ Z.of_nat p)
  | PyFloatV x => format_float p x
  end.

(** ** [datetime.strptime(s, "%Y-%m-%d")] and [strftime("%Y-%m")] *)

Definition digit_of (c : ascii) : Z := code c - 48.

(** [%Y] in an ASCII text: exactly four digits. *)
Definition parse_year (s : string) : option (Z * string) :=
  match s with
  | String a (String b (String c (String d rest))) =>
      if is_digit a && is_digit b && is_digit c && is_digit d
      then Some (1000 * digit_of a + 100 * digit_of b + 10 * digit_of c + digit_of d, rest)
      else None
  | _ => None
  end.

Definition expect_char (c : ascii) (s : string) : option string :=
  match s with
  | String c' rest => if bool_decide (c' = c) then Some rest else None
  | EmptyString => None
  end.

(** [%m]: the alternatives [1[0-2]], [0[1-9]], [[1-9]], tried in this order. *)
Definition parse_month (s : string) : option (Z * string) :=
  match s with
  | String c1 (String c2 rest) =>
      if bool_decide (c1 = "1"%char) && char_between 48 50 c2
         || bool_decide (c1 = "0"%char) && char_between 49 57 c2
      then Some (10 * digit_of c1 + digit_of c2, rest)
      else if char_between 49 57 c1 then Some (digit_of c1, String c2 rest)
      else None
  | String c1 EmptyString =>
      if char_between 49 57 c1 then Some (digit_of c1, EmptyString) else None
  | EmptyString => None
  end.

(** [%d]: the alternatives [3[0-1]], [[1-2]\d], [0[1-9]], [[1-9]] and a
    space followed by [[1-9]], tried in this order. *)
Definition parse_day (s : string) : option (Z * string) :=
  match s with
  | String c1 (String c2 rest) =>
      if bool_decide (c1 = "3"%char) && char_between 48 49 c2
         || char_between 49 50 c1 && is_digit c2
         || bool_decide (c1 = "0"%char) && char_between 49 57 c2
      then Some (10 * digit_of c1 + digit_of c2, rest)
      else if char_between 49 57 c1 then Some (digit_of c1, String c2 rest)
      else if bool_decide (c1 = " "%char) && char_between 49 57 c2
      then Some (digit_of c2, rest)
      else None
  | String c1 EmptyString =>
      if char_between 49 57 c1 then Some (digit_of c1, EmptyString) else None
  | EmptyString => None
  end.

Definition is_leap (y : Z) : bool :=
  (y mod 4 =? 0) && (negb (y mod 100 =? 0) || (y mod 400 =? 0)).

Definition days_in_month (y m : Z) : Z :=
  if m =? 2 then (if is_leap y then 29 else 28)
  else if (m =? 4) || (m =? 6) || (m =? 9) || (m =? 11) then 30
  else 31.

(** The date [(year, month, day)] that [strptime(s, "%Y-%m-%d")] returns
    for an ASCII [s], or [None] where it raises [ValueError]: the text must
    match the three fields with nothing left over and name a day of the
    calendar. *)
Definition strptime_ymd (s : string) : option (Z * Z * Z) :=
  '(y, s1) ← parse_year s;
  s2 ← expect_char "-" s1;
  '(m, s3) ← parse_month s2;
  s4 ← expect_char "-" s3;
  '(d, s5) ← parse_day s4;
  if is_empty s5 && (1 <=? y) && (d <=? days_in_month y m)
  then Some (y, m, d) else None.

Definition digit_char (d : Z) : ascii := chr (48 + d).

Definition four_digits (y : Z) : string :=
  String (digit_char (y / 1000 mod 10)) (String (digit_char (y / 100 mod 10))
    (String (digit_char (y / 10 mod 10)) (String (digit_char (y mod 10))
      EmptyString))).

Definition two_digits (m : Z) : string :=
  String (digit_char (m / 10 mod 10)) (String (digit_char (m mod 10)) EmptyString).

(** [%Y] of [strftime] for a year from 1 to 9999.  The C library decides
    how a year below 1000 is written: on four digits ([pads], as Python
    documents it and as it does from 3.13 on, and on macOS and Windows) or
    without leading zeros (glibc under earlier versions). *)
Definition year_text (pads : bool) (y : Z) : string :=
  if pads then four_digits y
  else lstrip_with (λ c, bool_decide (c = "0"%char)) (four_digits y).

(** The key of a month: the year, a dash, the month on two digits. *)
Definition month_key (pads : bool) (y m : Z) : string :=
  year_text pads y +:+ "-" +:+ two_digits m.

(** [date.strftime("%Y-%m")] *)
Definition strftime_ym (pads : bool) (date : Z * Z * Z) : string :=
  let '(y, m, _) := date in month_key pads y m.

(** ** Sorting *)

(** [sorted(keys)] on strings: ascending by character code. *)
Definition py_sorted (l : list string) : list string :=
  merge_sort String.le l.

(** [sorted(items, key=lambda x: x[1], reverse=True)]: descending by count;
    the sort is stable, entries of equal count keep their order. *)
Fixpoint insert_desc (x : string * Z) (l : list (string * Z)) : list (string * Z) :=
  match l with
  | [] => [x]
  | y :: l' => if x.2 <? y.2 then y :: insert_desc x l' else x :: l
  end.

Definition sorted_by_count_desc (l : list (string * Z)) : list (string * Z) :=
  foldr insert_desc [] l.

(** [max(items, key=lambda x: x[1])]: the first entry of greatest count. *)
Definition max_by_count (first : string * Z) (others : list (string * Z)) : string * Z :=
  fold_left (λ best x, if best.2 <? x.2 then x else best) others first.

(** ** Rows, JSON values and messages *)

(** One row of [csv.DictReader]: column name to text, [None] for a column
    the line is too short to fill. *)
Abbreviation row := (gmap string (option string)).

(** [review[key]] *)
Definition getitem (review : row) (key : string) : result (option string) :=
  match review !! key with
  | Some v => Ok v
  | None => Raise (KeyError key)
  end.

(** [review.get(key, default)] *)
Definition dict_get (review : row) (key : string) (fallback : option string) : option string :=
  match review !! key with
  | Some v => v
  | None => fallback
  end.

(** [str(v)], also what an f-string writes for [v]. *)
Definition str_value (v : option string) : string :=
  match v with
  | Some s => s
  | None => "None"
  end.

Definition no_attribute (attr : string) : exn :=
  AttributeError ("'NoneType' object has no attribute '" +:+ attr +:+ "'").

(** [v.lower()] and [v.strip()] on a value that may be [None]. *)
Definition value_lower (v : option string) : result string :=
  match v with
  | Some s => Ok (py_lower s)
  | None => Raise (no_attribute "lower")
  end.

Definition value_strip (v : option string) : result string :=
  match v with
  | Some s => Ok (py_strip s)
  | None => Raise (no_attribute "strip")
  end.

(** [int(v)].  (The texts of these two exceptions and of those of
    [strptime] below are never shown: every call is inside a [try] whose
    handler discards the exception.) *)
Definition value_int (v : option string) : result Z :=
  match v with
  | Some s =>
      match py_int s with
      | Some z => Ok z
      | None => Raise (ValueError ("invalid literal for int() with base 10: '" +:+ s +:+ "'"))
      end
  | None =>
      Raise (TypeError "int() argument must be a string, a bytes-like object or a real number, not 'NoneType'")
  end.

(** [datetime.strptime(v, "%Y-%m-%d")] *)
Definition value_strptime (v : option string) : result (Z * Z * Z) :=
  match v with
  | Some s =>
      match strptime_ymd s with
      | Some d => Ok d
      | None => Raise (ValueError ("time data '" +:+ s +:+ "' does not match format '%Y-%m-%d'"))
      end
  | None => Raise (TypeError "strptime() argument 1 must be str, not None")
  end.

(** What [json.loads] returns. *)
#[warnings="-register-all"]
Inductive json : Type :=
  | JNull
  | JBool (b : bool)
  | JInt (z : Z)
  | JFloat (repr : string)
  | JStr (s : string)
  | JList (l : list json)
  | JDict (d : gmap string json).

(** An [EmailMessage] as [send_mail_tool] fills it. *)
Record EmailMessage : Type := {
  msg_from : option string;
  msg_to : json;
  msg_subject : json;
  msg_content : json;
}.

(** ** The world: module-level state and the outside *)

Record world : Type := World {
  reviews_data : list row;          (* the module-level list of [tools.py] *)
  stdout : list string;             (* lines written by [print] *)
  outbox : list EmailMessage;       (* messages accepted by the mail relay *)
  agent_runs : list (string * string); (* executor runs: which agent, on what input *)
}.

(** A computation that may read and write the world and may raise; an
    exception leaves the world as it was when raised. *)
Definition M (A : Type) : Type := world → result A * world.

#[global] Instance M_ret : MRet M := λ A a w, (Ok a, w).
#[global] Instance M_bind : MBind M := λ A B k m w,
  match m w with
  | (Ok a, w') => k a w'
  | (Raise e, w') => (Raise e, w')
  end.

Definition lift {A} (r : result A) : M A := λ w, (r, w).
Definition raise {A} (e : exn) : M A := lift (Raise e).

(** [try: body except Exception as e: handler(e)] *)
Definition try_except {A} (body : M A) (handler : exn → M A) : M A := λ w,
  match body w with
  | (Ok a, w') => (Ok a, w')
  | (Raise e, w') => handler e w'
  end.

(** [with cm: body], for a context manager whose [__exit__] does not
    swallow exceptions: [leave] runs on both paths and what it raises
    replaces what [body] raised. *)
Definition with_exit {A} (body : M A) (leave : M unit) : M A := λ w,
  match body w with
  | (r, w') =>
      match leave w' with
      | (Ok _, w'') => (r, w'')
      | (Raise e, w'') => (Raise e, w'')
      end
  end.

Definition get_reviews : M (list row) := λ w, (Ok (reviews_data w), w).

Definition print (line : string) : M unit := λ w,
  (Ok (), World (reviews_data w) (stdout w ++ [line]) (outbox w) (agent_runs w)).

Definition deliver (msg : EmailMessage) : M unit := λ w,
  (Ok (), World (reviews_data w) (stdout w) (outbox w ++ [msg]) (agent_runs w)).

Definition extend_reviews (rows : list row) : M unit := λ w,
  (Ok (), World (reviews_data w ++ rows) (stdout w) (outbox w) (agent_runs w)).

Definition log_run (agent input : string) : M unit := λ w,
  (Ok (), World (reviews_data w) (stdout w) (outbox w) (agent_runs w ++ [(agent, input)])).

Definition returned {A} (r : result A * world) : result A := r.1.
Definition world_after {A} (r : result A * world) : world := r.2.

(** What the program uses and does not define: the process environment,
    the [csv], [json], [email] and [smtplib] modules, the language model
    and the two agent executors. *)
Class Services : Type := {
  read_csv : string → result (list row);
  gmail_user : option string;
  gmail_password : option string;
  json_loads : string → result json;
  (** [str(v)] for a JSON value that is not a string *)
  json_repr : json → string;
  (** header assignment and [set_content] of [EmailMessage] *)
  email_accepts : EmailMessage → result ();
  smtp_connect : result ();
  smtp_login : option string → option string → result ();
  smtp_send_message : EmailMessage → result ();
  smtp_quit : result ();
  (** [intent_classifier_llm.apredict] *)
  apredict : string → result string;
  (** whether [strftime] writes a year below 1000 on four digits *)
  strftime_pads_year : bool;
  (** [AgentExecutor.run] of the review agent and of the mail agent, once
      the run is recorded *)
  agent_executor_run : string → M string;
  mail_agent_executor_run : string → M string;
}.

(** ** [tools.py] *)

Section Tools.
Context `{Services}.

(** [load_reviews_from_csv]: every row of the file is appended to
    [reviews_data]. *)
Definition load_reviews_from_csv (file_path : string) : M () :=
  rows ← lift (read_csv file_path);
  extend_reviews rows.

(** The [try] block of the loop of [rating_summary_tool]. *)
Definition try_rating (review : row) : result Z :=
  v ← getitem review "Rating"; value_int v.

(** The loop of [rating_summary_tool]: [(total_rating, count)]. *)
Definition rating_totals (reviews : list row) : Z * Z :=
  fold_left
    (λ '(total_rating, count) review,
       match try_rating review with
       | Ok r => (total_rating + r, count + 1)
       | Raise _ => (total_rating, count)
       end)
    reviews (0, 0).

Definition rating_summary_tool (_input : string) : M string :=
  print "Called rating_summary_tool";;
  reviews ← get_reviews;
  let '(total_rating, count) := rating_totals reviews in
  avg_rating ← lift (if count =? 0 then Ok (PyInt 0)
                     else PyFloatV <$> int_true_divide total_rating count);
  mret ("There are " +:+ str_int count +:+ " reviews with an average rating of "
        +:+ format_f 1 avg_rating +:+ " stars.").

(** [f"{review['Title']} ({review['Date']}): {review['Review']}"] *)
Definition format_review (review : row) : result string :=
  title ← getitem review "Title";
  date ← getitem review "Date";
  body ← getitem review "Review";
  mret (str_value title +:+ " (" +:+ str_value date +:+ "): " +:+ str_value body).

(** The loop of [search_reviews_tool], [results] being the list so far. *)
Fixpoint search_loop (query : string) (reviews : list row) (results : list string)
    : result (list string) :=
  match reviews with
  | [] => Ok results
  | review :: rest =>
      body ← getitem review "Review";
      lowered ← value_lower body;
      if py_contains (py_lower query) lowered then
        line ← format_review review;
        search_loop query rest (results ++ [line])
      else search_loop query rest results
  end.

Definition search_reviews_tool (query : string) : M string :=
  print ("Called search_reviews_tool with query: " +:+ query);;
  reviews ← get_reviews;
  results ← lift (search_loop query reviews []);
  if bool_decide (results = []) then mret "No reviews found matching your query."
  else mret (py_join (newline +:+ newline) (take 3 results)).

(** [str(review.get("Rating", "")).strip()] *)
Definition rating_text (review : row) : string :=
  py_strip (str_value (dict_get review "Rating" (Some ""))).

Definition count_rating_tool (rating_str : string) : M string :=
  match py_int (py_strip rating_str) with
  | None => mret "Invalid input. Please provide a number like '5'."
  | Some rating =>
      reviews ← get_reviews;
      let count :=
        length (filter (λ review, rating_text review = str_int rating) reviews) in
      mret (str_int (Z.of_nat count) +:+ " customers gave a " +:+ str_int rating
            +:+ "-star rating.")
  end.

Fixpoint map_result {A B} (f : A → result B) (l : list A) : result (list B) :=
  match l with
  | [] => Ok []
  | x :: l' => y ← f x; ys ← map_result f l'; mret (y :: ys)
  end.

Definition top_rated_comments_tool (n : string) : M string :=
  match py_int n with
  | None => mret "Please provide a number like '3' to get top rated comments."
  | Some n =>
      reviews ← get_reviews;
      let top_reviews := filter (λ review, rating_text review = "5") reviews in
      let top_reviews := py_slice_to n top_reviews in
      if bool_decide (top_reviews = []) then mret "No top rated reviews found."
      else
        lines ← lift (map_result format_review top_reviews);
        mret (py_join (newline +:+ newline) lines)
  end.

(** [keywords[word] = keywords.get(word, 0) + 1] on a [dict] kept as the
    list of its items in insertion order: a known word keeps its place, a
    new one goes last. *)
Fixpoint bump (word : string) (keywords : list (string * Z)) : list (string * Z) :=
  match keywords with
  | [] => [(word, 1)]
  | (w, c) :: rest =>
      if bool_decide (w = word) then (w, c + 1) :: rest
      else (w, c) :: bump word rest
  end.

(** The words of one review body, as both word counters read them. *)
Definition body_words (lowered : string) : list string :=
  map (py_strip_chars ".,!?()") (py_split lowered).

(** The loop of [low_rated_reasons_tool]. *)
Fixpoint low_rated_loop (reviews : list row) (keywords : list (string * Z))
    : result (list (string * Z)) :=
  match reviews with
  | [] => Ok keywords
  | review :: rest =>
      rating ← value_strip (dict_get review "Rating" (Some ""));
      if bool_decide (rating ∈ ["1"; "2"]) then
        body ← getitem review "Review";
        lowered ← value_lower body;
        low_rated_loop rest
          (fold_left (λ kw word, if py_isalpha word then bump word kw else kw)
             (body_words lowered) keywords)
      else low_rated_loop rest keywords
  end.

Definition low_rated_reasons_tool (_input : string) : M string :=
  reviews ← get_reviews;
  keywords ← lift (low_rated_loop reviews []);
  let sorted_keywords := take 5 (sorted_by_count_desc keywords) in
  mret ("Common keywords in low-rated reviews: "
        +:+ py_join ", " (map fst sorted_keywords)).

Definition review_count_by_date_tool (date : string) : M string :=
  reviews ← get_reviews;
  let count :=
    length (filter (λ review : row, dict_get review "Date" None = Some date) reviews) in
  mret (str_int (Z.of_nat count) +:+ " reviews were posted on " +:+ date +:+ ".").

(** The loop of [most_mentioned_dish_tool]. *)
Fixpoint most_mentioned_loop (reviews : list row) (word_freq : list (string * Z))
    : result (list (string * Z)) :=
  match reviews with
  | [] => Ok word_freq
  | review :: rest =>
      body ← getitem review "Review";
      lowered ← value_lower body;
      most_mentioned_loop rest
        (fold_left
           (λ wf word,
              if py_isalpha word && (3 <? Z.of_nat (String.length word))
              then bump word wf else wf)
           (body_words lowered) word_freq)
  end.

Definition most_mentioned_dish_tool (_input : string) : M string :=
  reviews ← get_reviews;
  word_freq ← lift (most_mentioned_loop reviews []);
  match word_freq with
  | [] => mret "No mentions found."
  | first :: others =>
      let top_word := max_by_count first others in
      mret ("The most mentioned term in reviews is '" +:+ top_word.1 +:+ "' with "
            +:+ str_int top_word.2 +:+ " mentions.")
  end.

(** The [try] block of the loop of [sentiment_trend_tool]: the month and the
    rating of a review. *)
Definition try_month_rating (review : row) : result (string * Z) :=
  date ← getitem review "Date";
  date_obj ← value_strptime date;
  let month := strftime_ym strftime_pads_year date_obj in
  v ← getitem review "Rating";
  rating ← value_int v;
  mret (month, rating).

(** [ratings_by_month[month].append(rating)] on a [defaultdict(list)] *)
Definition append_rating (month : string) (rating : Z)
    (ratings_by_month : gmap string (list Z)) : gmap string (list Z) :=
  <[month := default [] (ratings_by_month !! month) ++ [rating]]> ratings_by_month.

(** The loop of [sentiment_trend_tool]. *)
Definition ratings_by_month (reviews : list row) : gmap string (list Z) :=
  fold_left
    (λ acc review,
       match try_month_rating review with
       | Ok (month, rating) => append_rating month rating acc
       | Raise _ => acc
       end)
    reviews ∅.

Definition sum_list (l : list Z) : Z := fold_left Z.add l 0.

(** [f"{month}: {sum(ratings) / len(ratings):.2f}"] *)
Definition trend_line (by_month : gmap string (list Z)) (month : string) : result string :=
  let ratings := default [] (by_month !! month) in
  avg ← int_true_divide (sum_list ratings) (Z.of_nat (length ratings));
  mret (month +:+ ": " +:+ format_float 2 avg).

Definition sentiment_trend_tool (_input : string) : M string :=
  reviews ← get_reviews;
  let by_month := ratings_by_month reviews in
  let sorted_months := py_sorted (map fst (map_to_list by_month)) in
  trend ← lift (map_result (trend_line by_month) sorted_months);
  mret ("Sentiment trend by month:" +:+ newline +:+ py_join newline trend).

Definition json_type_name (v : json) : string :=
  match v with
  | JNull => "NoneType"
  | JBool _ => "bool"
  | JInt _ => "int"
  | JFloat _ => "float"
  | JStr _ => "str"
  | JList _ => "list"
  | JDict _ => "dict"
  end.

(** [data[key]] on what [json.loads] returned. *)
Definition json_getitem (data : json) (key : string) : result json :=
  match data with
  | JDict d =>
      match d !! key with
      | Some v => Ok v
      | None => Raise (KeyError key)
      end
  | JList _ => Raise (TypeError "list indices must be integers or slices, not str")
  | JStr _ => Raise (TypeError "string indices must be integers, not 'str'")
  | _ => Raise (TypeError ("'" +:+ json_type_name data +:+ "' object is not subscriptable"))
  end.

(** [data.get(key, default)] *)
Definition json_get (data : json) (key : string) (fallback : json) : result json :=
  match data with
  | JDict d => Ok (default fallback (d !! key))
  | _ => Raise (AttributeError ("'" +:+ json_type_name data +:+ "' object has no attribute 'get'"))
  end.

(** [str(v)], also what an f-string writes for [v]. *)
Definition json_str (v : json) : string :=
  match v with
  | JStr s => s
  | _ => json_repr v
  end.

(** The [try] block of [send_mail_tool]. *)
Definition send_mail_attempt (input_str : string) : M string :=
  data ← lift (json_loads input_str);
  to_addr ← lift (json_getitem data "to");
  subject ← lift (json_get data "subject" (JStr "No Subject"));
  body ← lift (json_get data "body" (JStr ""));
  let msg := {| msg_from := gmail_user; msg_to := to_addr;
                msg_subject := subject; msg_content := body |} in
  lift (email_accepts msg);;
  lift smtp_connect;;
  with_exit
    (lift (smtp_login gmail_user gmail_password);;
     lift (smtp_send_message msg);;
     deliver msg)
    (lift smtp_quit);;
  mret ("Email sent successfully to " +:+ json_str to_addr).

Definition send_mail_tool (input_str : string) : M string :=
  try_except (send_mail_attempt input_str)
    (λ e, mret ("[SendMail Error] " +:+ str_exn e)).

Definition final_answer_tool (text : string) : M string :=
  if is_empty text then mret "No final answer provided."
  else mret (py_strip text).

(** ** [main.py] *)

Definition safe_tool (tool_func : string → M string) : string → M string :=
  λ input_str,
    try_except (tool_func input_str)
      (λ e, mret ("[Tool Error] " +:+ str_exn e)).

Record Tool : Type := {
  name : string;
  func : string → M string;
  description : string;
}.

Definition review_tools : list Tool := [
  {| name := "RatingSummary"; func := safe_tool rating_summary_tool;
     description := "Summarize overall customer sentiment from all reviews. Input is an empty string." |};
  {| name := "SearchReviews"; func := safe_tool search_reviews_tool;
     description := "Search reviews for specific keywords. Input is a query string." |};
  {| name := "FinalAnswer"; func := safe_tool final_answer_tool;
     description := "Return the final answer to the user and stop the agent." |};
  {| name := "CountRating"; func := safe_tool count_rating_tool;
     description := "Counts how many customers gave a specific rating. Input must be a string representing a number." |};
  {| name := "TopRatedComments"; func := safe_tool top_rated_comments_tool;
     description := "Returns the top N reviews with a 5-star rating. Input is a number string like '3'." |};
  {| name := "LowRatedReasons"; func := safe_tool low_rated_reasons_tool;
     description := "Returns common keywords found in 1-2 star reviews. Input is an empty string." |};
  {| name := "ReviewCountByDate"; func := safe_tool review_count_by_date_tool;
     description := "Returns the number of reviews posted on a specific date. Input must be in YYYY-MM-DD format." |};
  {| name := "MostMentionedDish"; func := safe_tool most_mentioned_dish_tool;
     description := "Returns the most frequently mentioned word (e.g., dish or term) in reviews." |};
  {| name := "SentimentTrend"; func := safe_tool sentiment_trend_tool;
     description := "Returns the trend of average rating per month." |}
].

Definition mail_tools : list Tool := [
  {| name := "SendMail"; func := safe_tool send_mail_tool;
     description := "Send an email with given content. Input should be the email details as JSON string." |};
  {| name := "FinalAnswer"; func := λ x, mret x;
     description := "Return the final answer to the user and stop the agent." |}
].

(** [agent_executor.run(input)] and [mail_agent_executor.run(input)] *)
Definition run_agent_executor (input : string) : M string :=
  log_run "agent_executor" input;; agent_executor_run input.

Definition run_mail_agent_executor (input : string) : M string :=
  log_run "mail_agent_executor" input;; mail_agent_executor_run input.

(** [intent_prompt_template.format(user_input=user_input)] *)
Definition intent_prompt (user_input : string) : string :=
  "Classify the user's intent as one of the following categories: Review or Mail."
  +:+ newline +:+ newline
  +:+ "User input: " +:+ dquote +:+ user_input +:+ dquote
  +:+ newline +:+ newline
  +:+ "Answer with exactly one word: Review or Mail.".

(** [classify_intent_llm], with the two methods of [str] it calls on the
    model's answer, [strip] and [capitalize], as parameters. *)
Definition classify_intent_llm_by (strip capitalize : string → string)
    (user_input : string) : M string :=
  let prompt := intent_prompt user_input in
  response ← lift (apredict prompt);
  let intent := capitalize (strip response) in
  if bool_decide (intent ∈ ["Review"; "Mail"]) then mret intent
  else mret "Unknown".

(** [classify_intent_llm] on an ASCII answer. *)
Definition classify_intent_llm (user_input : string) : M string :=
  classify_intent_llm_by py_strip py_capitalize user_input.

(** The body of the [/smart] response. *)
Record SmartResponse : Type := {
  intent : string;
  result_text : string;
}.

(** [try: handler except Exception as e: raise HTTPException(500, str(e))] *)
Definition http_endpoint {A} (handler : M A) : M A :=
  try_except handler (λ e, raise (HTTPException 500 (str_exn e))).

Definition ask_agent_endpoint (question : string) : M string :=
  http_endpoint (run_agent_executor question).

Definition send_mail_endpoint (question : string) : M string :=
  http_endpoint (run_mail_agent_executor question).

Definition apology : string :=
  "Sorry, I couldn't understand if this is about reviews or sending mail.".

(** [smart_router], with the classifier's two methods of [str] as
    parameters. *)
Definition smart_router_by (strip capitalize : string → string)
    (prompt : string) : M SmartResponse :=
  http_endpoint
    (intent ← classify_intent_llm_by strip capitalize prompt;
     result ←
       (if bool_decide (intent = "Review") then run_agent_executor prompt
        else if bool_decide (intent = "Mail") then run_mail_agent_executor prompt
        else mret apology);
     mret {| intent := intent; result_text := result |}).

(** [smart_router] when the classifier's answer is ASCII. *)
Definition smart_router (prompt : string) : M SmartResponse :=
  smart_router_by py_strip py_capitalize prompt.

End Tools.

(** ** Vocabulary of the statements *)

(** The row of a complete line of the file. *)
Definition review_row (title date rating body : string) : row :=
  <["Title" := Some title]> (<["Date" := Some date]>
    (<["Rating" := Some rating]> (<["Review" := Some body]> ∅))).

(** The text of a column, for a row that has it. *)
Definition text (key : string) (review : row) : string :=
  match review !! key with
  | Some (Some s) => s
  | _ => EmptyString
  end.

Definition has_text (key : string) (review : row) : Prop :=
  ∃ s, review !! key = Some (Some s).

(** A review as the data model has it: the four columns hold text. *)
Definition complete_row (review : row) : Prop :=
  has_text "Title" review ∧ has_text "Date" review ∧
  has_text "Rating" review ∧ has_text "Review" review.

(** ["{title} ({date}): {body}"] *)
Definition review_line (review : row) : string :=
  text "Title" review +:+ " (" +:+ text "Date" review +:+ "): " +:+ text "Review" review.

(** The rating of a row when its [Rating] parses as an integer. *)
Definition parsed_rating (review : row) : option Z :=
  match review !! "Rating" with
  | Some (Some s) => py_int s
  | _ => None
  end.

(** The date of a row when its [Date] parses as a date. *)
Definition parsed_date (review : row) : option (Z * Z * Z) :=
  match review !! "Date" with
  | Some (Some s) => strptime_ymd s
  | _ => None
  end.

(** The month key and the rating of a row whose [Date] parses as a date and
    whose [Rating] parses as an integer. *)
Definition month_and_rating (pads : bool) (review : row) : option (string * Z) :=
  date ← parsed_date review;
  rating ← parsed_rating review;
  Some (strftime_ym pads date, rating).

(** The text of the column [key] of the row is ASCII (a column the row
    lacks, or holds [None] in, has no text). *)
Definition ascii_column (key : string) (review : row) : Prop :=
  py_isascii (text key review) = true.

(** The same character, or the same letter in the other case. *)
Definition same_letter (a b : ascii) : Prop :=
  a = b ∨ is_upper a = true ∧ code b = code a + 32
  ∨ is_upper b = true ∧ code a = code b + 32.

(** The same text up to the case of its letters. *)
Fixpoint same_text_any_case (s t : string) : Prop :=
  match s, t with
  | EmptyString, EmptyString => True
  | String a s', String b t' => same_letter a b ∧ same_text_any_case s' t'
  | _, _ => False
  end.

(** The query occurs in the body, up to the case of its letters: the body
    is some text, a piece that is the query up to case, and some text. *)
Definition occurs_any_case (query body : string) : Prop :=
  ∃ before piece after,
    body = before +:+ piece +:+ after ∧ same_text_any_case query piece.

(** The review matches the query: the lowercased query occurs in the
    lowercased body. *)
Definition matches_query (query : string) (review : row) : Prop :=
  py_contains (py_lower query) (py_lower (text "Review" review)) = true.

#[global] Instance matches_query_dec query review : Decision (matches_query query review).
Proof. unfold matches_query. apply _. Defined.

(** The character occurs in the string. *)
Fixpoint occurs (c : ascii) (s : string) : bool :=
  match s with
  | EmptyString => false
  | String c' s' => bool_decide (c' = c) || occurs c s'
  end.

(** A small review file: two five-star reviews, a one-star and a two-star
    review, and a line whose date and rating are not readable. *)
Definition sample_reviews : list row := [
  review_row "Great" "2024-01-15" "5" "The PASTA was great!";
  review_row "Bad" "2024-01-20" "1" "Bad service, bad food. (Cold) pasta";
  review_row "Meh" "2024-02-03" " 2 " "Slow slow service and bad pizza";
  review_row "Top" "2023-12-30" "5" "Loved it";
  review_row "Odd" "yesterday" "five" "nothing to say"
].

(** [t / 10^p] is a decimal with [p] digits nearest to [sum / count]:
    [|t / 10^p - sum / count| <= 1 / (2 * 10^p)], written without division. *)
Definition nearest_decimal (p : nat) (t sum count : Z) : Prop :=
  2 * Z.abs (t * count - 10 ^ Z.of_nat p * sum) ≤ count.

(** The ratings of one month among the readable [(month, rating)] pairs, in
    file order. *)
Definition ratings_in_month (month : string) (valid : list (string * Z)) : list Z :=
  map snd (filter (λ p, p.1 = month) valid).

(** Earlier in the calendar: an earlier year, or the same year and an
    earlier month. *)
Definition month_before (a b : Z * Z) : Prop :=
  a.1 < b.1 ∨ a.1 = b.1 ∧ a.2 < b.2.

(** Strictly before in the order of [sorted] on strings. *)
Definition string_lt (a b : string) : Prop := String.le a b ∧ a ≠ b.

(** A one- or two-star review: the rating text, stripped, is ["1"] or ["2"]. *)
Definition low_rated (review : row) : Prop :=
  py_strip (text "Rating" review) ∈ ["1"; "2"].

(** The alphabetic words of a body: the lowercased body is cut at
    whitespace, each piece loses the punctuation [.,!?()] at both ends, and
    the pieces made of letters only are kept. *)
Definition alphabetic_words (body : string) : list string :=
  filter (λ word, py_isalpha word = true) (body_words (py_lower body)).

(** The words counted by [low_rated_reasons_tool], in reading order. *)
Definition keyword_tokens (reviews : list row) : list string :=
  concat (map (λ review, alphabetic_words (text "Review" review))
            (filter low_rated reviews)).

(** How often a word occurs among the tokens, and where it occurs first. *)
Definition occurrences (word : string) (tokens : list string) : Z :=
  Z.of_nat (length (filter (λ t, t = word) tokens)).

Fixpoint first_index (word : string) (tokens : list string) : nat :=
  match tokens with
  | [] => 0
  | t :: ts => if decide (t = word) then 0 else S (first_index word ts)
  end.

(** [a] ranks before [b]: it is more frequent, or as frequent and met earlier. *)
Definition ranks_before (tokens : list string) (a b : string) : Prop :=
  occurrences b tokens < occurrences a tokens ∨
  occurrences a tokens = occurrences b tokens ∧
  (first_index a tokens < first_index b tokens)%nat.

(** The distinct tokens in the order of their first occurrence. *)
Fixpoint firsts (tokens : list string) : list string :=
  match tokens with
  | [] => []
  | t :: ts => t :: filter (λ u, u ≠ t) (firsts ts)
  end.

(** What the counter holds after reading [tokens]: each distinct token, in
    order of first occurrence, with its number of occurrences. *)
Definition counted (tokens : list string) : list (string * Z) :=
  map (λ word, (word, occurrences word tokens)) (firsts tokens).

(** The keywords as the specification words them, for comparison with the
    tool: the bodies of the low-rated reviews, as they are and not
    lowercased, are cut at whitespace, stripped of the punctuation, the
    alphabetic pieces are counted, ranked by count with ties in order of
    first occurrence, and the first five are joined with commas. *)
Definition keywords_as_worded (reviews : list row) : string :=
  let tokens :=
    concat (map (λ review,
                   filter (λ word, py_isalpha word = true)
                     (body_words (text "Review" review)))
              (filter low_rated reviews)) in
  "Common keywords in low-rated reviews: "
  +:+ py_join ", " (take 5 (map fst (sorted_by_count_desc (counted tokens)))).

(** A computation that leaves the review store as it found it, whether it
    returns or raises. *)
Definition keeps_reviews {A} (m : M A) : Prop :=
  ∀ w, reviews_data (world_after (m w)) = reviews_data w.

(** The months and their ratings after reading the readable pairs. *)
Definition grouped (valid : list (string * Z)) (acc : gmap string (list Z))
    : gmap string (list Z) :=
  fold_left (λ acc p, append_rating p.1 p.2 acc) valid acc.

(** What a line of the trend says about its month: the month, a colon, and
    a decimal with two digits nearest to the mean of the month's ratings. *)
Definition trend_line_of (valid : list (string * Z)) (month line : string) : Prop :=
  let ratings := ratings_in_month month valid in
  ∃ t, 0 ≤ t ∧
    line = month +:+ ": " +:+ render_fixed 2 (sum_list ratings <? 0) t ∧
    nearest_decimal 2 t (Z.abs (sum_list ratings)) (Z.of_nat (length ratings)).

(** A year and a month of the calendar. *)
Definition calendar_month (ym : Z * Z) : Prop :=
  1 ≤ ym.1 ≤ 9999 ∧ 1 ≤ ym.2 ≤ 12.

(** The order [sorted] leaves the counter's entries in, given the order [P]
    they came in: greater count first, and [P] among equal counts. *)
Definition count_then (P : relation (string * Z)) : relation (string * Z) :=
  λ a b, b.2 < a.2 ∨ a.2 = b.2 ∧ P a b.

(** No readable date of the row is before the year 1000. *)
Definition year_from_1000 (review : row) : Prop :=
  ∀ y m d, parsed_date review = Some (y, m, d) → 1000 ≤ y.

(** A world that holds [reviews] and nothing else. *)
Definition initial_world (reviews : list row) : world := World reviews [] [] [].

Section Registries.
Context `{Services}.

(** The functions [main.py] registers for the review agent and for the mail
    agent, in the order of [review_tools] and [mail_tools]. *)
Definition review_tool_funcs : list (string → M string) := [
  rating_summary_tool; search_reviews_tool; final_answer_tool;
  count_rating_tool; top_rated_comments_tool; low_rated_reasons_tool;
  review_count_by_date_tool; most_mentioned_dish_tool; sentiment_trend_tool
].

Definition mail_tool_funcs : list (string → M string) := [
  send_mail_tool; λ x, mret x
].

(** The tools that read the review store. *)
Definition analytics_tools : list (string → M string) := [
  rating_summary_tool; search_reviews_tool; count_rating_tool;
  top_rated_comments_tool; low_rated_reasons_tool; review_count_by_date_tool;
  most_mentioned_dish_tool; sentiment_trend_tool
].


End Registries.

(** What [safe_tool] promises about a registered function [registered]
    whose underlying function is [tool_func]: where [tool_func] returns,
    [registered] returns the same; where it raises, [registered] returns
    the error text; the world is left as [tool_func] left it. *)
Definition behind_safe_call (tool_func registered : string → M string) : Prop :=
  ∀ input w,
    match tool_func input w with
    | (Ok s, w') => registered input w = (Ok s, w')
    | (Raise e, w') => registered input w = (Ok ("[Tool Error] " +:+ str_exn e), w')
    end.

(** The JSON text [{"to":"x@y.com"}]. *)
Definition to_only_json : string :=
  "{" +:+ dquote +:+ "to" +:+ dquote +:+ ":" +:+ dquote +:+ "x@y.com" +:+ dquote +:+ "}".

(** A stand-in for the outside, to run the model on examples: an empty
    review file, a parser that knows the one JSON text above, a mail relay
    that accepts everything, a classifier that answers off topic and two
    agents that answer at once. *)
Definition sample_services : Services := {|
  read_csv := λ _, Ok [];
  gmail_user := Some "agent@example.com";
  gmail_password := Some "app-password";
  json_loads := λ s,
    if bool_decide (s = to_only_json) then Ok (JDict {["to" := JStr "x@y.com"]})
    else Raise (LibraryError "JSONDecodeError" "Expecting value: line 1 column 1 (char 0)");
  json_repr := λ _, "?";
  email_accepts := λ _, Ok ();
  smtp_connect := Ok ();
  smtp_login := λ _ _, Ok ();
  smtp_send_message := λ _, Ok ();
  smtp_quit := Ok ();
  apredict := λ _, Ok " weather ";
  strftime_pads_year := false;
  agent_executor_run := λ _, mret "review agent answer";
  mail_agent_executor_run := λ _, mret "mail agent answer";
|}.

(** ** Vocabulary of the further properties *)

(** The world after [lines] were printed and nothing else happened. *)
Definition printed (lines : list string) (w : world) : world :=
  World (reviews_data w) (stdout w ++ lines) (outbox w) (agent_runs w).

(** The world after the relay accepted the messages [sent] and nothing else
    happened. *)
Definition mailed (sent : list EmailMessage) (w : world) : world :=
  World (reviews_data w) (stdout w) (outbox w ++ sent) (agent_runs w).

(** The world after a run of [agent] on [input] was recorded. *)
Definition recorded (agent input : string) (w : world) : world :=
  World (reviews_data w) (stdout w) (outbox w) (agent_runs w ++ [(agent, input)]).

(** The world after [rows] were appended to the store and nothing else
    happened. *)
Definition loaded (rows : list row) (w : world) : world :=
  World (reviews_data w ++ rows) (stdout w) (outbox w) (agent_runs w).

(** How many rows carry exactly the text [date] in their [Date] column. *)
Definition date_count (date : string) (reviews : list row) : nat :=
  length (filter (λ review : row, review !! "Date" = Some (Some date)) reviews).

(** The rating of the row is written as [str] writes an integer. *)
Definition canonical_rating (review : row) : Prop :=
  ∃ z, review !! "Rating" = Some (Some (str_int z)).

(** The five-star reviews as the two tools that read them see them: the
    rating text, stripped, is ["5"]. *)
Definition five_star (reviews : list row) : list row :=
  filter (λ review, rating_text review = "5") reviews.

(** The words [most_mentioned_dish_tool] counts in one body: the pieces of
    the lowercased body, cut at whitespace and stripped of the punctuation
    [.,!?()], that are made of letters only and have more than three of
    them. *)
Definition mention_words (body : string) : list string :=
  filter (λ word, py_isalpha word = true ∧ 3 < Z.of_nat (String.length word))
    (body_words (py_lower body)).

(** The words counted over the whole store, in reading order. *)
Definition mention_tokens (reviews : list row) : list string :=
  concat (map (λ review, mention_words (text "Review" review)) reviews).

(** What each review tool prints on an input, in the order of
    [review_tools]: the summary and the search announce themselves, the
    other seven print nothing. *)
Definition review_tool_prints : list (string → list string) := [
  λ _, ["Called rating_summary_tool"];
  λ query, ["Called search_reviews_tool with query: " +:+ query];
  λ _, []; λ _, []; λ _, []; λ _, []; λ _, []; λ _, []; λ _, []
].

Section Messages.
Context `{Services}.

(** The message [send_mail_tool] builds from a JSON object [d] whose [to]
    member is [to_addr]. *)
Definition message_of (d : gmap string json) (to_addr : json) : EmailMessage :=
  {| msg_from := gmail_user; msg_to := to_addr;
     msg_subject := default (JStr "No Subject") (d !! "subject");
     msg_content := default (JStr "") (d !! "body") |}.

End Messages.

(** The sample services with another review file, JSON parser, classifier
    answer and pair of agents. *)
Definition services_with (file : list row) (parse : string → result json)
    (answer : result string) (review_agent mail_agent : string → M string)
    : Services := {|
  read_csv := λ _, Ok file;
  gmail_user := Some "agent@example.com";
  gmail_password := Some "app-password";
  json_loads := parse;
  json_repr := λ _, "?";
  email_accepts := λ _, Ok ();
  smtp_connect := Ok ();
  smtp_login := λ _ _, Ok ();
  smtp_send_message := λ _, Ok ();
  smtp_quit := Ok ();
  apredict := λ _, answer;
  strftime_pads_year := false;
  agent_executor_run := review_agent;
  mail_agent_executor_run := mail_agent;
|}.

(** Services whose review file is the sample, whose classifier answers
    [review] in lower case with a line end, whose review agent answers and
    whose mail agent cannot reach its model. *)
Definition review_services : Services :=
  services_with sample_reviews (λ _, Ok (JList []))
    (Ok (" review" +:+ newline))
    (λ _, mret "Mostly happy customers.")
    (λ _, raise (LibraryError "ConnectionError" "model not reachable")).

(** Services whose classifier cannot be reached. *)
Definition offline_services : Services :=
  services_with [] (λ _, Ok (JList []))
    (Raise (LibraryError "ConnectionError" "model not reachable"))
    (λ _, mret "Mostly happy customers.")
    (λ _, mret "Email sent successfully.").

(** A file whose second line has a rating and a body and neither title nor
    date, and a file whose second line has a title only. *)
Definition untitled_reviews : list row := [
  review_row "Great" "2024-01-15" "5" "The PASTA was great!";
  {["Rating" := Some "5"; "Review" := Some "More pasta, please"]}
].

Definition bodiless_reviews : list row := [
  review_row "Great" "2024-01-15" "5" "The PASTA was great!";
  {["Title" := Some "Lunch"]}
].

(** A file whose ratings are all written as [str] writes them. *)
Definition tidy_reviews : list row := [
  review_row "Great" "2024-01-15" "5" "The PASTA was great!";
  review_row "Fine" "2024-02-03" "4" "Good pizza";
  review_row "Top" "2023-12-30" "5" "Loved it"
].

(* ================================================================== *)
(** * Part II: properties *)
(* ================================================================== *)

(** ** Strings *)

Lemma lower_char_idemp c : lower_char (lower_char c) = lower_char c.
Proof. by destruct c as [[] [] [] [] [] [] [] []]. Qed.

Lemma py_lower_idemp s : py_lower (py_lower s) = py_lower s.
Proof.
  unfold py_lower. induction s as [|c s IH]; [done|].
  cbn. by rewrite lower_char_idemp, IH.
Qed.

Lemma lstrip_with_idemp p s : lstrip_with p (lstrip_with p s) = lstrip_with p s.
Proof.
  induction s as [|c s IH]; [done|].
  cbn. destruct (p c) eqn:Hc; [done|]. cbn. by rewrite Hc.
Qed.

Lemma rstrip_with_idemp p s : rstrip_with p (rstrip_with p s) = rstrip_with p s.
Proof.
  induction s as [|c s IH]; [done|].
  cbn. destruct (p c && is_empty (rstrip_with p s)) eqn:Hc; [done|].
  cbn. by rewrite IH, Hc.
Qed.

(** Stripping on the left keeps a string stripped on the right. *)
Lemma rstrip_with_lstrip p s :
  rstrip_with p s = s → rstrip_with p (lstrip_with p s) = lstrip_with p s.
Proof.
  induction s as [|c s IH]; [done|].
  intros Hs. cbn. destruct (p c) eqn:Hc; [|done].
  apply IH. cbn in Hs. rewrite Hc in Hs. cbn in Hs.
  destruct (is_empty (rstrip_with p s)); [done|]. by simplify_eq.
Qed.

Lemma strip_with_idemp p s : strip_with p (strip_with p s) = strip_with p s.
Proof.
  unfold strip_with.
  rewrite rstrip_with_lstrip by apply rstrip_with_idemp.
  apply lstrip_with_idemp.
Qed.

Lemma py_strip_idemp s : py_strip (py_strip s) = py_strip s.
Proof. apply strip_with_idemp. Qed.

(** Stripping less and then more is stripping more. *)
Section TwoStrips.
Context (p q : ascii → bool) (Hpq : ∀ c, p c = true → q c = true).

Lemma lstrip_with_lstrip s : lstrip_with q (lstrip_with p s) = lstrip_with q s.
Proof.
  induction s as [|c s IH]; [done|].
  cbn. destruct (p c) eqn:Hc; [|done].
  by rewrite IH, (Hpq c Hc).
Qed.

Lemma rstrip_with_rstrip s : rstrip_with q (rstrip_with p s) = rstrip_with q s.
Proof.
  induction s as [|c s IH]; [done|].
  cbn. destruct (p c && is_empty (rstrip_with p s)) eqn:Hc.
  - apply andb_true_iff in Hc as [Hc Hr].
    rewrite <- IH. destruct (rstrip_with p s); [|done].
    cbn. by rewrite (Hpq c Hc).
  - cbn. by rewrite IH.
Qed.

Lemma rstrip_with_lstrip_comm s :
  rstrip_with q (lstrip_with p s) = lstrip_with p (rstrip_with q s).
Proof.
  induction s as [|c s IH]; [done|].
  cbn. destruct (p c) eqn:Hc.
  - rewrite IH, (Hpq c Hc). cbn.
    destruct (rstrip_with q s); cbn; [done|]. by rewrite Hc.
  - cbn. destruct (q c && is_empty (rstrip_with q s)); cbn; [done|].
    by rewrite Hc.
Qed.

Lemma strip_with_strip s : strip_with q (strip_with p s) = strip_with q s.
Proof.
  unfold strip_with.
  by rewrite rstrip_with_lstrip_comm, rstrip_with_rstrip, lstrip_with_lstrip.
Qed.

End TwoStrips.

(** A string without a character to strip is left as it is. *)
Lemma strip_with_clean p s :
  string_forall (λ c, negb (p c)) s = true → strip_with p s = s.
Proof.
  intros Hclean. unfold strip_with.
  assert (rstrip_with p s = s) as ->.
  { induction s as [|c s IH]; [done|].
    cbn in *. apply andb_true_iff in Hclean as [Hc Hs].
    rewrite IH by done. by destruct (p c). }
  destruct s as [|c s]; [done|].
  cbn in *. apply andb_true_iff in Hclean as [Hc _]. by destruct (p c).
Qed.

Lemma is_c_space_is_space c : is_c_space c = true → is_space c = true.
Proof. by destruct c as [[] [] [] [] [] [] [] []]. Qed.

Lemma digit_not_space c d : digit_value c = Some d → is_space c = false.
Proof. by destruct c as [[] [] [] [] [] [] [] []]. Qed.

Lemma parse_digits_clean s acc prev_us z :
  parse_digits s acc prev_us = Some z →
  string_forall (λ c, negb (is_space c)) s = true.
Proof.
  revert acc prev_us. induction s as [|c s IH]; intros acc prev_us; [done|].
  cbn. case_bool_decide as Hus.
  - subst c. destruct prev_us; [done|]. intros Hs. by rewrite (IH _ _ Hs).
  - destruct (digit_value c) as [d|] eqn:Hd; [|done].
    intros Hs. by rewrite (digit_not_space c d Hd), (IH _ _ Hs).
Qed.

Lemma parse_int_literal_clean s z :
  parse_int_literal s = Some z →
  string_forall (λ c, negb (is_space c)) s = true.
Proof.
  assert (∀ body (neg : bool),
            match body with
            | EmptyString => None
            | String c0 _ =>
                if bool_decide (c0 = "_"%char) then None
                else z' ← parse_digits body 0 false; Some (if neg then - z' else z')
            end = Some z →
            string_forall (λ c, negb (is_space c)) body = true) as Hbody.
  { intros body neg. destruct body as [|c0 b]; [done|].
    case_bool_decide; [done|].
    destruct (parse_digits (String c0 b) 0 false) eqn:Hd; [|done].
    intros _. exact (parse_digits_clean _ _ _ _ Hd). }
  unfold parse_int_literal, split_sign.
  destruct s as [|c s]; [done|].
  case_bool_decide as Hm; [subst c; exact (Hbody s true)|].
  case_bool_decide as Hp; [subst c; exact (Hbody s false)|].
  exact (Hbody (String c s) false).
Qed.

(** [int] reads a text when its literal is within the limit on digits and
    is a signed decimal number. *)
Lemma py_int_Some s z :
  py_int s = Some z ↔
  count_digits (strip_with is_c_space s) ≤ int_max_str_digits ∧
  parse_int_literal (strip_with is_c_space s) = Some z.
Proof.
  unfold py_int. cbn zeta.
  destruct (Z.ltb_spec int_max_str_digits (count_digits (strip_with is_c_space s)))
    as [Hover|Hfits].
  - split; [done|]. intros [Hfits _]. lia.
  - split; [done|]. by intros [_ Hs].
Qed.

(** What [int] reads, it reads the same after [strip]; so an input that
    [int] rejects once stripped is rejected as it is, too. *)
Lemma py_int_strip_Some s z : py_int s = Some z → py_int (py_strip s) = Some z.
Proof.
  intros [Hfits Hs]%py_int_Some. apply py_int_Some.
  pose proof (parse_int_literal_clean _ _ Hs) as Hclean.
  assert (py_strip s = strip_with is_c_space s) as ->.
  { unfold py_strip.
    rewrite <- (strip_with_strip is_c_space is_space is_c_space_is_space s).
    by apply strip_with_clean. }
  by rewrite strip_with_idemp.
Qed.

Lemma py_int_strip_None s : py_int (py_strip s) = None → py_int s = None.
Proof.
  intros Hs. destruct (py_int s) as [z|] eqn:Hz; [|done].
  apply py_int_strip_Some in Hz. congruence.
Qed.

(** ** Letter case and containment *)

Lemma append_String c s t : String c s +:+ t = String c (s +:+ t).
Proof. done. Qed.

Lemma code_range c : 0 ≤ code c < 256.
Proof.
  unfold code. pose proof (N_ascii_bounded c) as Hc. lia.
Qed.

Lemma chr_code c : chr (code c) = c.
Proof. unfold chr, code. rewrite N2Z.id. apply ascii_N_embedding. Qed.

Lemma code_chr n : 0 ≤ n < 256 → code (chr n) = n.
Proof.
  intros Hn. unfold chr, code. rewrite N_ascii_embedding by lia. lia.
Qed.

Lemma code_inj a b : code a = code b → a = b.
Proof. intros Hab. by rewrite <- (chr_code a), <- (chr_code b), Hab. Qed.

(** Two characters have the same lowercase form exactly when they are the
    same letter. *)
Lemma lower_char_same_letter a b : lower_char a = lower_char b ↔ same_letter a b.
Proof.
  unfold same_letter, lower_char.
  pose proof (code_range a) as Ha. pose proof (code_range b) as Hb.
  destruct (is_upper a) eqn:Hua; destruct (is_upper b) eqn:Hub;
    unfold is_upper, char_between in Hua, Hub.
  - split.
    + intros Heq. apply (f_equal code) in Heq. rewrite !code_chr in Heq by lia.
      left. apply code_inj. lia.
    + intros [->|[[_ Hc]|[_ Hc]]]; [done|lia|lia].
  - split.
    + intros <-. right. left. split; [done|]. rewrite code_chr; lia.
    + intros [->|[[_ Hc]|[Hu _]]]; [lia| |done].
      rewrite <- Hc. apply chr_code.
  - split.
    + intros ->. right. right. split; [done|]. rewrite code_chr; lia.
    + intros [->|[[Hu _]|[_ Hc]]]; [lia|done|].
      rewrite <- Hc. symmetry. apply chr_code.
  - split; [by left|]. by intros [->|[[Hu _]|[Hu _]]].
Qed.

Lemma py_lower_same_text s t : py_lower s = py_lower t ↔ same_text_any_case s t.
Proof.
  unfold py_lower. revert t. induction s as [|a s IH]; intros [|b t]; cbn.
  - done.
  - split; [done|by intros []].
  - split; [done|by intros []].
  - rewrite <- IH, <- lower_char_same_letter. split.
    + by intros [= ? ?].
    + by intros [-> ->].
Qed.

Lemma string_prefix_spec needle hay :
  String.prefix needle hay = true ↔ ∃ after, hay = needle +:+ after.
Proof.
  revert needle. induction hay as [|d hay IH]; intros [|c needle]; cbn.
  - split; [by exists ""|done].
  - split; [done|]. by intros [after ?].
  - split; [intros _; by eexists|done].
  - destruct (Ascii.ascii_dec c d) as [->|Hne].
    + rewrite IH. split; intros [after Heq]; exists after; [by rewrite Heq|].
      by injection Heq.
    + split; [done|]. intros [after [= ? ?]]. done.
Qed.

(** [needle in hay]: the hay is some text, the needle, and some text. *)
Lemma py_contains_spec needle hay :
  py_contains needle hay = true ↔ ∃ before after, hay = before +:+ needle +:+ after.
Proof.
  induction hay as [|c hay IH].
  - cbn [py_contains]. rewrite orb_false_r, string_prefix_spec. split.
    + intros [after ->]. by exists "", after.
    + intros (before & after & Heq). destruct before; [by exists after|done].
  - cbn [py_contains]. rewrite orb_true_iff, IH, string_prefix_spec. split.
    + intros [[after ->]|(before & after & ->)].
      * by exists "", after.
      * by exists (String c before), after.
    + intros (before & after & Heq). destruct before as [|d before].
      * left. by exists after.
      * right. injection Heq as -> ->. by exists before, after.
Qed.

Lemma string_map_app f s t :
  string_map f (s +:+ t) = string_map f s +:+ string_map f t.
Proof.
  induction s as [|c s IH]; [done|].
  rewrite append_String. cbn [string_map]. by rewrite IH.
Qed.

Lemma string_map_app_inv f s x y :
  string_map f s = x +:+ y →
  ∃ s1 s2, s = s1 +:+ s2 ∧ string_map f s1 = x ∧ string_map f s2 = y.
Proof.
  revert s. induction x as [|c x IH]; intros s Hs.
  - by exists "", s.
  - destruct s as [|d s]; [done|].
    rewrite append_String in Hs. cbn [string_map] in Hs. injection Hs as Hc Hs.
    destruct (IH s Hs) as (s1 & s2 & -> & H1 & H2).
    exists (String d s1), s2. cbn [string_map]. by rewrite Hc, H1.
Qed.

(** The lowercased query occurs in the lowercased body exactly when the
    query occurs in the body up to the case of its letters. *)
Lemma py_contains_lower_any_case query body :
  py_contains (py_lower query) (py_lower body) = true ↔ occurs_any_case query body.
Proof.
  rewrite py_contains_spec. unfold occurs_any_case, py_lower. split.
  - intros (before & after & Heq).
    apply string_map_app_inv in Heq as (s1 & rest & -> & _ & Hrest).
    apply string_map_app_inv in Hrest as (piece & s3 & -> & Hpiece & _).
    exists s1, piece, s3. split; [done|]. by apply py_lower_same_text.
  - intros (before & piece & after & -> & Hsame).
    apply py_lower_same_text in Hsame. unfold py_lower in Hsame.
    exists (string_map lower_char before), (string_map lower_char after).
    by rewrite !string_map_app, Hsame.
Qed.

Lemma matches_query_any_case query review :
  matches_query query review ↔ occurs_any_case query (text "Review" review).
Proof. apply py_contains_lower_any_case. Qed.

(** ** Computations on the world *)

Lemma bind_run {A B} (m : M A) (k : A → M B) w :
  (m ≫= k) w =
  match m w with
  | (Ok a, w') => k a w'
  | (Raise e, w') => (Raise e, w')
  end.
Proof. done. Qed.

Lemma Ok_inj {A} (a b : A) : Ok a = Ok b → a = b.
Proof. by intros [= ->]. Qed.

Lemma lift_run {A} (r : result A) w : lift r w = (r, w).
Proof. done. Qed.

(** Unfolds the operations of [M] down to the pairs they compute. *)
Ltac run_world :=
  unfold mbind, M_bind, mret, M_ret, lift, raise, try_except, with_exit,
    get_reviews, print, deliver, log_run, returned, world_after;
  cbn.

Create HintDb keeps discriminated.

Lemma keeps_ret {A} (a : A) : keeps_reviews (mret a).
Proof. by intros w. Qed.

Lemma keeps_lift {A} (r : result A) : keeps_reviews (lift r).
Proof. by intros w. Qed.

Lemma keeps_get_reviews : keeps_reviews get_reviews.
Proof. by intros w. Qed.

Lemma keeps_print line : keeps_reviews (print line).
Proof. by intros w. Qed.

Lemma keeps_deliver msg : keeps_reviews (deliver msg).
Proof. by intros w. Qed.

Lemma keeps_log_run agent input : keeps_reviews (log_run agent input).
Proof. by intros w. Qed.

Lemma keeps_bind {A B} (m : M A) (k : A → M B) :
  keeps_reviews m → (∀ a, keeps_reviews (k a)) → keeps_reviews (m ≫= k).
Proof.
  intros Hm Hk w. rewrite bind_run. specialize (Hm w).
  destruct (m w) as [[a|e] w']; cbn in *; [|done].
  by rewrite Hk.
Qed.

Lemma keeps_try_except {A} (body : M A) (handler : exn → M A) :
  keeps_reviews body → (∀ e, keeps_reviews (handler e)) →
  keeps_reviews (try_except body handler).
Proof.
  intros Hb Hh w. unfold try_except. specialize (Hb w).
  destruct (body w) as [[a|e] w']; cbn in *; [done|].
  by rewrite Hh.
Qed.

Lemma keeps_with_exit {A} (body : M A) (leave : M ()) :
  keeps_reviews body → keeps_reviews leave → keeps_reviews (with_exit body leave).
Proof.
  intros Hb Hl w. unfold with_exit. specialize (Hb w).
  destruct (body w) as [r w']. specialize (Hl w').
  destruct (leave w') as [[[]|e] w'']; cbn in *; congruence.
Qed.

#[local] Hint Resolve keeps_ret keeps_lift keeps_get_reviews keeps_print
  keeps_deliver keeps_log_run : keeps.

(** Breaks a computation into its steps, each of which keeps the store. *)
Ltac keeps_steps :=
  repeat first
    [ progress eauto with keeps
    | apply keeps_bind; [|intros ?]
    | apply keeps_try_except; [|intros ?]
    | apply keeps_with_exit
    | match goal with
      | |- keeps_reviews (match ?x with _ => _ end) => destruct x
      | |- keeps_reviews (if ?b then _ else _) => destruct b
      | |- keeps_reviews (let '(_, _) := ?p in _) => destruct p
      end ].

Section ToolFacts.
Context `{Services}.

Lemma keeps_rating_summary_tool input : keeps_reviews (rating_summary_tool input).
Proof. unfold rating_summary_tool. keeps_steps. Qed.

Lemma keeps_search_reviews_tool input : keeps_reviews (search_reviews_tool input).
Proof. unfold search_reviews_tool. keeps_steps. Qed.

Lemma keeps_count_rating_tool input : keeps_reviews (count_rating_tool input).
Proof. unfold count_rating_tool. keeps_steps. Qed.

Lemma keeps_top_rated_comments_tool input :
  keeps_reviews (top_rated_comments_tool input).
Proof. unfold top_rated_comments_tool. keeps_steps. Qed.

Lemma keeps_low_rated_reasons_tool input :
  keeps_reviews (low_rated_reasons_tool input).
Proof. unfold low_rated_reasons_tool. keeps_steps. Qed.

Lemma keeps_review_count_by_date_tool input :
  keeps_reviews (review_count_by_date_tool input).
Proof. unfold review_count_by_date_tool. keeps_steps. Qed.

Lemma keeps_most_mentioned_dish_tool input :
  keeps_reviews (most_mentioned_dish_tool input).
Proof. unfold most_mentioned_dish_tool. keeps_steps. Qed.

Lemma keeps_sentiment_trend_tool input :
  keeps_reviews (sentiment_trend_tool input).
Proof. unfold sentiment_trend_tool. keeps_steps. Qed.

Lemma keeps_final_answer_tool input : keeps_reviews (final_answer_tool input).
Proof. unfold final_answer_tool. keeps_steps. Qed.

Lemma keeps_send_mail_tool input : keeps_reviews (send_mail_tool input).
Proof. unfold send_mail_tool, send_mail_attempt. keeps_steps. Qed.

Lemma keeps_safe_tool tool_func input :
  keeps_reviews (tool_func input) → keeps_reviews (safe_tool tool_func input).
Proof. intros Ht. unfold safe_tool. keeps_steps. Qed.

End ToolFacts.

(** ** The review store is read-only *)

Section ReadOnly.
Context `{Services}.

(** C10. Every analytics tool leaves [reviews_data] as it found it: the
    sequence of reviews after a call, returning or raising, is the sequence
    before it, for every tool, input and world.  The same holds for each
    tool as registered for the review agent. *)
Theorem analytics_tools_keep_reviews_data :
  Forall (λ tool : string → M string,
            ∀ input w, reviews_data (world_after (tool input w)) = reviews_data w)
    (analytics_tools ++ map func review_tools).
Proof.
  unfold analytics_tools, review_tools. cbn [map app func].
  repeat apply Forall_cons_2; try apply Forall_nil_2; intros input;
    (match goal with
     | |- ∀ w, reviews_data (world_after (safe_tool ?f input w)) = _ =>
         apply (keeps_safe_tool f input)
     | |- _ => idtac
     end);
    match goal with
    | |- ∀ w, reviews_data (world_after (?f input w)) = _ =>
        change (keeps_reviews (f input))
    | |- _ => idtac
    end;
    eauto using keeps_rating_summary_tool, keeps_search_reviews_tool,
      keeps_count_rating_tool, keeps_top_rated_comments_tool,
      keeps_low_rated_reasons_tool, keeps_review_count_by_date_tool,
      keeps_most_mentioned_dish_tool, keeps_sentiment_trend_tool,
      keeps_final_answer_tool.
Qed.

(** The load, by contrast, is what fills the store. *)
Lemma load_reviews_extends_reviews_data file_path rows w :
  read_csv file_path = Ok rows →
  reviews_data (world_after (load_reviews_from_csv file_path w))
  = reviews_data w ++ rows.
Proof.
  intros Hrows. unfold load_reviews_from_csv.
  by rewrite bind_run, lift_run, Hrows.
Qed.

End ReadOnly.

(** ** Malformed numbers *)

(** C7, as the code has it. For an ASCII input: when [int] rejects it, the
    top-N tool returns its fixed error text; when [int] rejects it also
    once [strip] has removed the whitespace around it, [int] rejects it as
    it is, and the rating counter returns its fixed error text, too.
    Neither tool raises and neither touches the world. *)
Theorem malformed_number_gives_error_text (input : string) (w : world) :
  py_isascii input = true →
  (py_int input = None →
     top_rated_comments_tool input w
     = (Ok "Please provide a number like '3' to get top rated comments.", w)) ∧
  (py_int (py_strip input) = None →
     py_int input = None ∧
     count_rating_tool input w
     = (Ok "Invalid input. Please provide a number like '5'.", w)).
Proof.
  intros _. unfold count_rating_tool, top_rated_comments_tool.
  split; [by intros ->|].
  intros Hint. split; [by apply py_int_strip_None|]. by rewrite Hint.
Qed.

Lemma malformed_number_gives_error_text_witness :
  py_isascii "five" = true ∧
  py_int "five" = None ∧ py_int (py_strip "five") = None ∧
  top_rated_comments_tool "five" (initial_world sample_reviews)
  = (Ok "Please provide a number like '3' to get top rated comments.",
     initial_world sample_reviews) ∧
  count_rating_tool "five" (initial_world sample_reviews)
  = (Ok "Invalid input. Please provide a number like '5'.", initial_world sample_reviews).
Proof.
  pose proof (malformed_number_gives_error_text "five" (initial_world sample_reviews)
                eq_refl) as [Htop Hcount].
  split; [reflexivity|]. split; [reflexivity|]. split; [reflexivity|].
  split; [exact (Htop eq_refl)|exact (proj2 (Hcount eq_refl))].
Defined.

(** C7 as stated fails on a number behind one of the separators FS to US,
    which [strip] removes and [int] does not skip: [int] rejects a 5 behind
    the character FS, the top-N tool refuses it, and the rating counter,
    which strips its input first, answers with a count. *)
Lemma malformed_number_separator_counterexample :
  let input := String "028" "5" in
  let w := initial_world sample_reviews in
  py_isascii input = true ∧
  py_int input = None ∧
  returned (top_rated_comments_tool input w)
  = Ok "Please provide a number like '3' to get top rated comments." ∧
  returned (count_rating_tool input w) = Ok "2 customers gave a 5-star rating.".
Proof. by vm_compute. Qed.

(** ** The safe-call wrapper and the two registries *)

Section SafeCall.
Context `{Services}.

Lemma safe_tool_run tool_func input w :
  safe_tool tool_func input w =
  match tool_func input w with
  | (Ok s, w') => (Ok s, w')
  | (Raise e, w') => (Ok ("[Tool Error] " +:+ str_exn e), w')
  end.
Proof. unfold safe_tool, try_except. by destruct (tool_func input w) as [[?|?] ?]. Qed.

Lemma safe_tool_behind tool_func : behind_safe_call tool_func (safe_tool tool_func).
Proof.
  intros input w. rewrite safe_tool_run.
  by destruct (tool_func input w) as [[?|?] ?].
Qed.

(** A registered function that is behind the wrapper never raises. *)
Lemma behind_safe_call_returns tool_func registered input w :
  behind_safe_call tool_func registered →
  ∃ s, returned (registered input w) = Ok s.
Proof.
  intros Hb. specialize (Hb input w).
  destruct (tool_func input w) as [[s|e] w']; rewrite Hb; eauto.
Qed.

(** C1. Each of the eleven registered tools, nine of the review agent and
    two of the mail agent, stands behind the safe call of the function it
    was registered from: on an input where that function raises [e], the
    registered tool returns ["[Tool Error] "] followed by [str(e)], and
    otherwise what the function returns; it never raises.  (The mail
    agent's [FinalAnswer] is the bare identity, which cannot raise.) *)
Theorem registered_tools_behind_safe_call :
  Forall2 (λ tool_func tool, behind_safe_call tool_func (func tool))
    (review_tool_funcs ++ mail_tool_funcs) (review_tools ++ mail_tools).
Proof.
  unfold review_tool_funcs, mail_tool_funcs, review_tools, mail_tools.
  cbn [app].
  repeat apply Forall2_cons_2; try apply Forall2_nil_2;
    first [ apply safe_tool_behind | by intros input w ].
Qed.

(** The wrapper is not idle: on a row without a [Review] column the search
    raises [KeyError], and the registered search returns the error text. *)
Lemma search_reviews_tool_raises_on_short_row :
  let w := initial_world [{["Title" := Some "Lunch"]}] in
  returned (search_reviews_tool "pasta" w) = Raise (KeyError "Review") ∧
  returned (safe_tool search_reviews_tool "pasta" w) = Ok "[Tool Error] 'Review'".
Proof. done. Qed.

End SafeCall.

(** ** Routing by intent *)

Section Routing.
Context `{Services}.

(** C9. Whatever [strip] and [capitalize] do to the classifier's answer:
    when the answer, trimmed and capitalised by them, is neither [Review]
    nor [Mail], [/smart] answers with intent [Unknown] and the fixed
    apology, and the world is as before the request: no executor run has
    been recorded, so neither agent was invoked. *)
Theorem unknown_intent_gets_apology
    (strip capitalize : string → string) (prompt response : string) (w : world) :
  apredict (intent_prompt prompt) = Ok response →
  capitalize (strip response) ∉ ["Review"; "Mail"] →
  smart_router_by strip capitalize prompt w
  = (Ok {| intent := "Unknown"; result_text := apology |}, w) ∧
  agent_runs (world_after (smart_router_by strip capitalize prompt w)) = agent_runs w.
Proof.
  intros Hllm Hother.
  assert (smart_router_by strip capitalize prompt w
          = (Ok {| intent := "Unknown"; result_text := apology |}, w)) as Hrun.
  { unfold smart_router_by, http_endpoint, try_except, classify_intent_llm_by.
    rewrite !bind_run, lift_run, Hllm.
    by rewrite bool_decide_eq_false_2. }
  by rewrite Hrun.
Qed.

End Routing.

Lemma unknown_intent_gets_apology_witness :
  @apredict sample_services (intent_prompt "What is the weather?") = Ok " weather " ∧
  py_capitalize (py_strip " weather ") = "Weather" ∧
  (py_capitalize (py_strip " weather ") ∉ ["Review"; "Mail"]) ∧
  @smart_router sample_services "What is the weather?" (initial_world [])
  = (Ok {| intent := "Unknown"; result_text := apology |}, initial_world []) ∧
  agent_runs (world_after (@smart_router sample_services "What is the weather?" (initial_world [])))
  = agent_runs (initial_world []).
Proof.
  assert (py_capitalize (py_strip " weather ") ∉ ["Review"; "Mail"]) as Hother.
  { vm_compute. intros Hin. repeat (apply elem_of_cons in Hin as [Hin|Hin]; [discriminate Hin|]).
    by apply elem_of_nil in Hin. }
  split; [reflexivity|]. split; [reflexivity|]. split; [exact Hother|].
  exact (@unknown_intent_gets_apology sample_services py_strip py_capitalize
           "What is the weather?" " weather " (initial_world []) eq_refl Hother).
Defined.

(** ** The mail tool *)

Section Mail.
Context `{Services}.

(** Whatever the [try] block raises comes back as the error text. *)
Lemma send_mail_tool_run input_str w :
  send_mail_tool input_str w =
  match send_mail_attempt input_str w with
  | (Ok s, w') => (Ok s, w')
  | (Raise e, w') => (Ok ("[SendMail Error] " +:+ str_exn e), w')
  end.
Proof.
  unfold send_mail_tool, try_except.
  by destruct (send_mail_attempt input_str w) as [[?|?] ?].
Qed.


End Mail.


(** Malformed JSON and a missing [to] on the sample services. *)
Lemma send_mail_tool_error_texts :
  returned (@send_mail_tool sample_services "{to: nobody" (initial_world []))
  = Ok "[SendMail Error] Expecting value: line 1 column 1 (char 0)" ∧
  ∀ `{Services} w, json_loads "{}" = Ok (JDict ∅) →
    returned (send_mail_tool "{}" w) = Ok "[SendMail Error] 'to'".
Proof.
  split; [done|]. intros S w Hjson.
  unfold send_mail_tool, send_mail_attempt. run_world.
  by rewrite Hjson.
Qed.

(** ** Rows of the data model *)

Lemma complete_row_review_row title date rating body :
  complete_row (review_row title date rating body).
Proof. unfold complete_row, has_text, review_row. repeat split; eexists; done. Qed.

Lemma getitem_text key review :
  has_text key review → getitem review key = Ok (Some (text key review)).
Proof. intros [s Hs]. unfold getitem, text. by rewrite Hs. Qed.

Lemma dict_get_text key review fallback :
  has_text key review → dict_get review key fallback = Some (text key review).
Proof. intros [s Hs]. unfold dict_get, text. by rewrite Hs. Qed.

Lemma format_review_complete review :
  complete_row review → format_review review = Ok (review_line review).
Proof.
  intros (Ht & Hd & _ & Hb). unfold format_review.
  by rewrite (getitem_text _ _ Ht), (getitem_text _ _ Hd), (getitem_text _ _ Hb).
Qed.

Lemma map_result_complete reviews :
  Forall complete_row reviews →
  map_result format_review reviews = Ok (map review_line reviews).
Proof.
  induction 1 as [|review reviews Hr _ IH]; [done|].
  cbn. by rewrite (format_review_complete _ Hr), IH.
Qed.

Lemma occurs_app c s t : occurs c (s +:+ t) = occurs c s || occurs c t.
Proof.
  induction s as [|c' s IH]; [done|].
  rewrite append_String. cbn. by rewrite IH, orb_assoc.
Qed.

Lemma occurs_review_line review : occurs "(" (review_line review) = true.
Proof.
  unfold review_line. rewrite !occurs_app. cbn.
  by rewrite !orb_true_r.
Qed.

Lemma occurs_join_review_lines sep reviews :
  reviews ≠ [] → occurs "(" (py_join sep (map review_line reviews)) = true.
Proof.
  destruct reviews as [|r [|r' rest]]; [done| |]; intros _; cbn [map py_join].
  - apply occurs_review_line.
  - by rewrite occurs_app, occurs_review_line.
Qed.

(** ** Keyword search *)

Lemma search_loop_complete query reviews results :
  Forall complete_row reviews →
  search_loop query reviews results
  = Ok (results ++ map review_line (filter (matches_query query) reviews)).
Proof.
  intros Hrows. revert results.
  induction Hrows as [|review reviews Hr _ IH]; intros results.
  { cbn. by rewrite app_nil_r. }
  cbn [search_loop]. destruct (Hr) as (_ & _ & _ & Hb).
  rewrite (getitem_text _ _ Hb). cbn.
  destruct (py_contains _ _) eqn:Hc.
  - rewrite (format_review_complete _ Hr). cbn. rewrite IH.
    rewrite decide_True by done. by rewrite <- app_assoc.
  - rewrite IH. rewrite decide_False; [done|].
    unfold matches_query. by rewrite Hc.
Qed.

(** The search reads its query only through [query.lower()]. *)
Lemma search_loop_lower query query' reviews results :
  py_lower query' = py_lower query →
  search_loop query' reviews results = search_loop query reviews results.
Proof.
  intros Hq. revert results.
  induction reviews as [|review reviews IH]; intros results; [done|].
  cbn [search_loop]. rewrite Hq.
  destruct (getitem review "Review") as [body|e]; [|done]. cbn.
  destruct (value_lower body) as [lowered|e]; [|done]. cbn.
  destruct (py_contains _ _); [|done].
  destruct (format_review review) as [line|e]; [|done]. cbn. apply IH.
Qed.

Lemma search_reviews_tool_lower query query' w :
  py_lower query' = py_lower query →
  returned (search_reviews_tool query' w) = returned (search_reviews_tool query w).
Proof.
  intros Hq. unfold search_reviews_tool. run_world.
  rewrite (search_loop_lower query query') by done.
  destruct (search_loop query (reviews_data w) []) as [results|e]; [|done].
  cbn. by destruct (bool_decide (results = [])).
Qed.

(** C4, as the code has it. On a store of complete rows whose bodies are
    ASCII text, and for an ASCII query:
    - a review matches when the query occurs in its body up to the case of
      the letters;
    - the search returns the lines ["{title} ({date}): {body}"] of the first
      three matching reviews, in file order, joined by blank lines, or the
      no-results text when there is none;
    - the lowercased query, and any query that is the same text up to the
      case of its letters, returns the same. *)
Theorem search_reviews_first_three_any_case (query : string) (w : world) :
  Forall complete_row (reviews_data w) →
  Forall (ascii_column "Review") (reviews_data w) →
  py_isascii query = true →
  let found := filter (matches_query query) (reviews_data w) in
  (∀ review, review ∈ reviews_data w →
     (review ∈ found ↔ occurs_any_case query (text "Review" review))) ∧
  returned (search_reviews_tool query w)
  = Ok (if bool_decide (found = []) then "No reviews found matching your query."
        else py_join (newline +:+ newline) (map review_line (take 3 found))) ∧
  returned (search_reviews_tool (py_lower query) w)
  = returned (search_reviews_tool query w) ∧
  (∀ query', same_text_any_case query' query →
     returned (search_reviews_tool query' w) = returned (search_reviews_tool query w)).
Proof.
  intros Hrows _ _ found. split_and!.
  - intros review Hin. unfold found.
    rewrite list_elem_of_filter, matches_query_any_case. tauto.
  - unfold search_reviews_tool. run_world.
    rewrite (search_loop_complete _ _ _ Hrows). cbn. fold found.
    destruct found as [|r rest]; [done|].
    rewrite bool_decide_eq_false_2 by done.
    rewrite bool_decide_eq_false_2 by done.
    cbn. by rewrite <- fmap_take.
  - apply search_reviews_tool_lower, py_lower_idemp.
  - intros query' Hsame. by apply search_reviews_tool_lower, py_lower_same_text.
Qed.

Lemma sample_reviews_complete : Forall complete_row sample_reviews.
Proof. repeat constructor; apply complete_row_review_row. Qed.

Lemma sample_reviews_ascii key : Forall (ascii_column key) sample_reviews.
Proof.
  apply Forall_forall. intros review Hin. unfold ascii_column, text.
  repeat (apply elem_of_cons in Hin as [->|Hin];
          [unfold review_row;
           destruct (decide (key = "Title")) as [->|?];
             [reflexivity|rewrite lookup_insert_ne by done];
           destruct (decide (key = "Date")) as [->|?];
             [reflexivity|rewrite lookup_insert_ne by done];
           destruct (decide (key = "Rating")) as [->|?];
             [reflexivity|rewrite lookup_insert_ne by done];
           destruct (decide (key = "Review")) as [->|?];
             [reflexivity|by rewrite lookup_insert_ne by done]|]).
  by apply elem_of_nil in Hin.
Qed.

Lemma search_reviews_first_three_any_case_witness :
  let w := initial_world sample_reviews in
  let found := filter (matches_query "PASTA") (reviews_data w) in
  Forall complete_row (reviews_data w) ∧
  Forall (ascii_column "Review") (reviews_data w) ∧
  py_isascii "PASTA" = true ∧
  map (text "Title") found = ["Great"; "Bad"] ∧
  returned (search_reviews_tool "PASTA" w)
  = Ok ("Great (2024-01-15): The PASTA was great!" +:+ newline +:+ newline +:+
        "Bad (2024-01-20): Bad service, bad food. (Cold) pasta") ∧
  returned (search_reviews_tool "pasta" w) = returned (search_reviews_tool "PASTA" w).
Proof.
  pose proof (search_reviews_first_three_any_case "PASTA" (initial_world sample_reviews)
                sample_reviews_complete (sample_reviews_ascii "Review") eq_refl)
    as (_ & Hrun & _ & Hcase).
  assert (filter (matches_query "PASTA") (reviews_data (initial_world sample_reviews))
          = [review_row "Great" "2024-01-15" "5" "The PASTA was great!";
             review_row "Bad" "2024-01-20" "1" "Bad service, bad food. (Cold) pasta"])
    as Hfound.
  { unfold sample_reviews, initial_world. cbn [reviews_data].
    rewrite filter_cons_True by reflexivity.
    rewrite filter_cons_True by reflexivity.
    rewrite filter_cons_False by (by vm_compute).
    rewrite filter_cons_False by (by vm_compute).
    rewrite filter_cons_False by (by vm_compute).
    reflexivity. }
  cbn zeta in Hrun. rewrite Hfound in Hrun.
  split; [exact sample_reviews_complete|].
  split; [exact (sample_reviews_ascii "Review")|].
  split; [reflexivity|]. cbn zeta. rewrite Hfound.
  split; [reflexivity|]. split; [exact Hrun|].
  apply Hcase. by apply py_lower_same_text.
Defined.

(** C4 as stated fails on a file with a short line: [csv.DictReader] fills
    the columns the line lacks with [None], and [None] has no [lower]; the
    search raises where the claim has it return the matching review before
    that line. *)
Lemma search_reviews_short_row_counterexample :
  let short : row :=
    {["Title" := Some "Lunch"; "Date" := None; "Rating" := None; "Review" := None]} in
  let w := initial_world [review_row "Great" "2024-01-15" "5" "The PASTA was great!";
                          short] in
  matches_query "pasta" (review_row "Great" "2024-01-15" "5" "The PASTA was great!") ∧
  returned (search_reviews_tool "pasta" w)
  = Raise (AttributeError "'NoneType' object has no attribute 'lower'").
Proof. split; by vm_compute. Qed.

(** The two spellings of the example, evaluated. *)
Lemma search_reviews_pasta_example :
  let w := initial_world sample_reviews in
  returned (search_reviews_tool "PASTA" w) = returned (search_reviews_tool "pasta" w) ∧
  returned (search_reviews_tool "pasta" w)
  = Ok ("Great (2024-01-15): The PASTA was great!" +:+ newline +:+ newline +:+
        "Bad (2024-01-20): Bad service, bad food. (Cold) pasta") ∧
  returned (search_reviews_tool "risotto" w) = Ok "No reviews found matching your query.".
Proof. by vm_compute. Qed.

(** ** The first N five-star reviews *)


Lemma top_rated_comments_tool_run input n w :
  py_int input = Some n → Forall complete_row (reviews_data w) →
  let chosen :=
    py_slice_to n (filter (λ review, rating_text review = "5") (reviews_data w)) in
  returned (top_rated_comments_tool input w)
  = Ok (if bool_decide (chosen = []) then "No top rated reviews found."
        else py_join (newline +:+ newline) (map review_line chosen)).
Proof.
  intros Hint Hrows chosen. unfold top_rated_comments_tool. rewrite Hint.
  run_world. fold chosen.
  destruct (bool_decide (chosen = [])) eqn:Hchosen; [done|].
  cbn. rewrite map_result_complete; [done|].
  unfold chosen, py_slice_to.
  assert (Forall complete_row
            (filter (λ review, rating_text review = "5") (reviews_data w))) as Hfive.
  { apply Forall_forall. intros review [_ Hin]%list_elem_of_filter.
    by eapply Forall_forall in Hrows. }
  destruct (0 <=? n); by apply Forall_take.
Qed.

(** C8, as the code has it. For an input that [int] reads as [n], on a
    store of complete rows whose ratings are ASCII text: the reviews chosen
    are, among those whose stripped rating text is ["5"] and in file order,
    the first [n] when [0 <= n] and all but the last [-n] when [n < 0]; the
    tool returns their lines joined by blank lines, or the no-results text
    when none is chosen.  For [1 <= n] it returns the no-results text
    exactly when the store has no five-star review; for [n = 0] it always
    does. *)
Theorem top_rated_comments_first_n (input : string) (n : Z) (w : world) :
  py_int input = Some n →
  Forall complete_row (reviews_data w) →
  Forall (ascii_column "Rating") (reviews_data w) →
  let five_star := filter (λ review, rating_text review = "5") (reviews_data w) in
  let chosen :=
    if 0 <=? n then take (Z.to_nat n) five_star
    else take (length five_star - Z.to_nat (- n)) five_star in
  returned (top_rated_comments_tool input w)
  = Ok (if bool_decide (chosen = []) then "No top rated reviews found."
        else py_join (newline +:+ newline) (map review_line chosen)) ∧
  (1 ≤ n →
     (returned (top_rated_comments_tool input w) = Ok "No top rated reviews found."
      ↔ five_star = [])) ∧
  (n = 0 →
     returned (top_rated_comments_tool input w) = Ok "No top rated reviews found.").
Proof.
  intros Hint Hrows _ five_star chosen.
  pose proof (top_rated_comments_tool_run input n w Hint Hrows) as Hrun.
  cbn zeta in Hrun. unfold py_slice_to in Hrun. fold five_star in Hrun.
  fold chosen in Hrun. split_and!; [done| |].
  - intros Hn. rewrite Hrun. unfold chosen.
    destruct (Z.leb_spec 0 n); [|lia].
    destruct five_star as [|r rest] eqn:Hfive; [by rewrite take_nil|].
    destruct (Z.to_nat n) as [|k] eqn:Hk; [lia|]. cbn [take].
    rewrite bool_decide_eq_false_2 by done.
    split; [|done]. intros Heq.
    pose proof (occurs_join_review_lines (newline +:+ newline) (r :: take k rest))
      as Hocc.
    apply Ok_inj in Heq. rewrite Heq in Hocc. by specialize (Hocc ltac:(done)).
  - intros ->. rewrite Hrun. unfold chosen. cbn. by rewrite take_0.
Qed.

Lemma top_rated_comments_first_n_witness :
  py_int "1" = Some 1 ∧
  Forall complete_row (reviews_data (initial_world sample_reviews)) ∧
  Forall (ascii_column "Rating") (reviews_data (initial_world sample_reviews)) ∧
  let w := initial_world sample_reviews in
  let five_star := filter (λ review, rating_text review = "5") (reviews_data w) in
  let chosen :=
    if 0 <=? 1 then take (Z.to_nat 1) five_star
    else take (length five_star - Z.to_nat (- 1)) five_star in
  returned (top_rated_comments_tool "1" w)
  = Ok (if bool_decide (chosen = []) then "No top rated reviews found."
        else py_join (newline +:+ newline) (map review_line chosen)) ∧
  (1 ≤ 1 →
     (returned (top_rated_comments_tool "1" w) = Ok "No top rated reviews found."
      ↔ five_star = [])) ∧
  (1 = 0 →
     returned (top_rated_comments_tool "1" w) = Ok "No top rated reviews found.").
Proof.
  split; [reflexivity|]. split; [exact sample_reviews_complete|].
  split; [exact (sample_reviews_ascii "Rating")|].
  exact (top_rated_comments_first_n "1" 1 (initial_world sample_reviews)
           eq_refl sample_reviews_complete (sample_reviews_ascii "Rating")).
Defined.

(** C8 as stated fails at [N = 0] and at negative [N]: the store has two
    five-star reviews, yet ["0"] gets the no-results text, and ["-1"] gets
    one review, the first, where no reading of "the first -1 reviews" has
    one. *)
Lemma top_rated_comments_zero_counterexample :
  let w := initial_world sample_reviews in
  filter (λ review, rating_text review = "5") (reviews_data w)
  = [review_row "Great" "2024-01-15" "5" "The PASTA was great!";
     review_row "Top" "2023-12-30" "5" "Loved it"] ∧
  py_int "0" = Some 0 ∧
  returned (top_rated_comments_tool "0" w) = Ok "No top rated reviews found." ∧
  py_int "-1" = Some (-1) ∧
  returned (top_rated_comments_tool "-1" w)
  = Ok "Great (2024-01-15): The PASTA was great!".
Proof. by vm_compute. Qed.

(** ** Binary64 division and fixed-point formatting *)

Lemma rne_div_spec n d :
  0 ≤ n → 0 < d → 0 ≤ rne_div n d ∧ 2 * Z.abs (rne_div n d * d - n) ≤ d.
Proof.
  intros Hn Hd. unfold rne_div.
  pose proof (Z.div_mod n d ltac:(lia)) as Hdm.
  pose proof (Z.mod_pos_bound n d Hd) as Hr.
  assert (0 ≤ n / d) as Hq by (apply Z.div_pos; lia).
  destruct (Z.ltb_spec (2 * (n mod d)) d); [nia|].
  destruct (Z.ltb_spec d (2 * (n mod d))); [nia|].
  destruct (Z.even (n / d)); nia.
Qed.

Lemma quotient_log2_spec n d :
  0 < n → 0 < d →
  let lg := quotient_log2 n d in
  (0 ≤ lg → d * 2 ^ lg ≤ n) ∧ (lg < 0 → d ≤ n * 2 ^ (- lg)) ∧
  lg ≤ Z.log2 n ∧ - Z.log2 d - 1 ≤ lg.
Proof.
  intros Hn Hd. unfold quotient_log2.
  destruct (Z.log2_spec n Hn) as [Hn1 Hn2].
  destruct (Z.log2_spec d Hd) as [Hd1 Hd2].
  pose proof (Z.log2_nonneg n) as Hln. pose proof (Z.log2_nonneg d) as Hld.
  set (ln := Z.log2 n) in *. set (ld := Z.log2 d) in *.
  set (k := ln - ld).
  assert (∀ x, 0 ≤ x → 0 < 2 ^ x) as Hpos by (intros; by apply Z.pow_pos_nonneg).
  destruct (Z.leb_spec 0 k) as [Hk|Hk].
  - destruct (Z.leb_spec (d * 2 ^ k) n) as [Hle|Hgt]; cbn zeta.
    + split_and!; lia.
    + split_and!; try lia.
      * intros Hk1.
        assert (2 ^ ln = 2 ^ (ld + 1) * 2 ^ (k - 1)) as Hsplit.
        { rewrite <- Z.pow_add_r by lia. f_equal; lia. }
        pose proof (Hpos (k - 1) Hk1). nia.
      * intros Hk1. assert (k = 0) as Hk0 by lia.
        replace (- (k - 1)) with 1 by lia. change (2 ^ 1) with 2.
        rewrite Hk0 in Hgt. change (2 ^ 0) with 1 in Hgt.
        assert (ln = ld) as Hll by lia. rewrite Hll in *.
        replace (2 ^ Z.succ ld) with (2 * 2 ^ ld) in * by (rewrite Z.pow_succ_r; lia).
        lia.
  - destruct (Z.leb_spec d (n * 2 ^ (- k))) as [Hle|Hgt]; cbn zeta.
    + split_and!; lia.
    + split_and!; try lia.
      intros _.
      assert (2 ^ ln * 2 ^ (- (k - 1)) = 2 ^ Z.succ ld) as Hsplit.
      { rewrite <- Z.pow_add_r by lia. f_equal; lia. }
      pose proof (Hpos (- (k - 1)) ltac:(lia)). nia.
Qed.

(** The quotient of two integers of moderate size, formatted with [p]
    digits, is a nearest [p]-digit decimal of the exact quotient: the error
    of the binary64 rounding is too small to cross a rounding boundary. *)
Lemma int_true_divide_format (p : nat) (a b : Z) :
  a ≠ 0 → 0 < b < 2 ^ 53 → 2 * 10 ^ Z.of_nat p * Z.abs a < 2 ^ 53 →
  ∃ x t,
    int_true_divide a b = Ok x ∧
    format_float p x = render_fixed p (a <? 0) t ∧
    0 ≤ t ∧ nearest_decimal p t (Z.abs a) b.
Proof.
  intros Ha [Hb Hb53] Hsmall.
  set (P := 10 ^ Z.of_nat p) in *.
  assert (1 ≤ P) as HP.
  { unfold P. pose proof (Z.pow_pos_nonneg 10 (Z.of_nat p)). lia. }
  set (n := Z.abs a) in *. assert (0 < n) as Hn by lia.
  unfold int_true_divide.
  destruct (Z.eqb_spec b 0) as [|_]; [lia|].
  destruct (Z.eqb_spec a 0) as [|_]; [done|].
  replace (Z.abs b) with b by lia. fold n.
  destruct (quotient_log2_spec n b Hn Hb) as (Hlo1 & Hlo2 & Hup & Hdown).
  set (lg := quotient_log2 n b) in *.
  assert (n < 2 ^ 52) as Hn52 by nia.
  assert (Z.log2 n < 52) as Hlogn by (apply Z.log2_lt_pow2; lia).
  assert (Z.log2 b < 53) as Hlogb by (apply Z.log2_lt_pow2; lia).
  replace (Z.max (lg - 52) (-1074)) with (lg - 52) by lia.
  set (e := lg - 52). set (E := 52 - lg).
  assert (0 < E) as HE by lia.
  unfold scaled_rne at 1 2. destruct (Z.leb_spec 0 e) as [|_]; [lia|].
  replace (- e) with E by lia.
  rewrite (Z.pow_neg_r 2 e) by lia. rewrite Z.mul_0_r. cbn [Z.leb Z.compare].
  set (Q := 2 ^ E). assert (0 < Q) as HQ by (apply Z.pow_pos_nonneg; lia).
  destruct (rne_div_spec (n * Q) b ltac:(nia) Hb) as [Hm0 Hm].
  set (m := rne_div (n * Q) b) in *.
  eexists _, (rne_div (m * P) (1 * Q)). split; [reflexivity|].
  unfold format_float, scaled_rne. cbn [fneg fmant fexp].
  replace (- e) with E by lia. destruct (Z.leb_spec 0 E) as [_|]; [|lia].
  fold P Q. replace (xorb (a <? 0) (b <? 0)) with (a <? 0); last first.
  { destruct (Z.ltb_spec b 0); [lia|]. by rewrite xorb_false_r. }
  split; [done|].
  destruct (rne_div_spec (m * P) (1 * Q) ltac:(nia) ltac:(lia)) as [Ht0 Ht].
  set (t := rne_div (m * P) (1 * Q)) in *. split; [done|].
  assert (P * b < Q) as Hgap.
  { destruct (Z.le_gt_cases 0 lg) as [Hlg|Hlg].
    - specialize (Hlo1 Hlg).
      assert (2 ^ 52 = Q * 2 ^ lg) as Hsplit.
      { unfold Q, E. rewrite <- Z.pow_add_r by lia. f_equal; lia. }
      pose proof (Z.pow_pos_nonneg 2 lg ltac:(lia) Hlg). nia.
    - specialize (Hlo2 Hlg).
      assert (Q = 2 ^ 52 * 2 ^ (- lg)) as Hsplit.
      { unfold Q, E. rewrite <- Z.pow_add_r by lia. f_equal; lia. }
      pose proof (Z.pow_pos_nonneg 2 (- lg) ltac:(lia) ltac:(lia)). nia. }
  unfold nearest_decimal. fold P.
  assert (2 * Q * (t * b - P * n)
          = b * (2 * (t * (1 * Q) - m * P)) + P * (2 * (m * b - n * Q))) as Hid by ring.
  assert (Z.abs (2 * Q * (t * b - P * n)) < Q * (b + 1)) as Habs.
  { rewrite Hid. nia. }
  nia.
Qed.

(** ** The rating summary *)

#[local] Arguments rating_totals : simpl never.
#[local] Arguments int_true_divide : simpl never.
#[local] Arguments format_float : simpl never.
#[local] Arguments render_fixed : simpl never.
#[local] Arguments str_int : simpl never.

Lemma fold_left_add l a : fold_left Z.add l a = a + sum_list l.
Proof.
  unfold sum_list. revert a. induction l as [|x l IH]; intros a; cbn; [lia|].
  rewrite (IH (a + x)), (IH (0 + x)). lia.
Qed.

Lemma sum_list_cons x l : sum_list (x :: l) = x + sum_list l.
Proof. unfold sum_list. cbn. apply fold_left_add. Qed.

Lemma sum_list_app l1 l2 : sum_list (l1 ++ l2) = sum_list l1 + sum_list l2.
Proof.
  induction l1 as [|x l1 IH]; [done|].
  cbn [app]. rewrite !sum_list_cons, IH. lia.
Qed.

Lemma sum_list_bound bound l :
  Forall (λ r, Z.abs r ≤ bound) l →
  Z.abs (sum_list l) ≤ bound * Z.of_nat (length l).
Proof.
  induction 1 as [|x l Hx _ IH]; [unfold sum_list; cbn; lia|].
  rewrite sum_list_cons. cbn [length]. lia.
Qed.

Lemma try_rating_parsed review :
  match parsed_rating review with
  | Some r => try_rating review = Ok r
  | None => ∃ e, try_rating review = Raise e
  end.
Proof.
  unfold parsed_rating, try_rating, getitem.
  destruct (review !! "Rating") as [[s|]|]; cbn; eauto.
  destruct (py_int s); eauto.
Qed.

Lemma rating_totals_spec reviews :
  rating_totals reviews
  = (sum_list (omap parsed_rating reviews),
     Z.of_nat (length (omap parsed_rating reviews))).
Proof.
  unfold rating_totals.
  set (step := λ '(total_rating, count) review, _).
  assert (∀ total count,
            fold_left step reviews (total, count)
            = (total + sum_list (omap parsed_rating reviews),
               count + Z.of_nat (length (omap parsed_rating reviews)))) as Hgen.
  { induction reviews as [|review reviews IH]; intros total count.
    { cbn. f_equal; unfold sum_list; cbn; lia. }
    cbn [fold_left omap list_omap]. unfold step at 2.
    pose proof (try_rating_parsed review) as Hr.
    destruct (parsed_rating review) as [r|].
    - rewrite Hr, IH, sum_list_cons. cbn [length]. f_equal; lia.
    - destruct Hr as [e ->]. apply IH. }
  by rewrite Hgen.
Qed.

(** C3, as the code has it. On a store whose ratings are ASCII text and
    whose readable ratings lie within [bound] in absolute value and are few
    enough for binary64 ([20 * bound * count < 2^53]; for ratings 1 to 5,
    up to 9 * 10^13 rows), the summary reports the number [count] of rows
    whose [Rating] parses as an integer, the other rows being ignored, and
    an average that is
    - ["0.0"] when no row has a readable rating (nothing is divided);
    - otherwise a decimal with one digit after the point that is at most
      [0.05] away from the arithmetic mean of the readable ratings. *)
Theorem rating_summary_count_and_mean (input : string) (w : world) (bound : Z) :
  let ratings := omap parsed_rating (reviews_data w) in
  let count := Z.of_nat (length ratings) in
  let total := sum_list ratings in
  Forall (ascii_column "Rating") (reviews_data w) →
  Forall (λ r, Z.abs r ≤ bound) ratings →
  20 * bound * count < 2 ^ 53 →
  ∃ average : string,
    returned (rating_summary_tool input w)
    = Ok ("There are " +:+ str_int count +:+ " reviews with an average rating of "
          +:+ average +:+ " stars.") ∧
    (count = 0 → average = "0.0") ∧
    (0 < count →
       ∃ t, 0 ≤ t ∧ average = render_fixed 1 (total <? 0) t ∧
            nearest_decimal 1 t (Z.abs total) count).
Proof.
  intros ratings count total _ Hbound Hsmall.
  unfold rating_summary_tool. run_world. rewrite rating_totals_spec.
  fold ratings. fold count. fold total.
  pose proof (sum_list_bound bound ratings Hbound) as Htotal.
  fold count in Htotal. fold total in Htotal.
  destruct (Z.eqb_spec count 0) as [Hzero|Hpos].
  { exists "0.0". cbn. split_and!; [done|done|lia]. }
  assert (0 < count) as Hcount by lia.
  destruct (decide (total = 0)) as [Htot0|Htot0].
  { rewrite Htot0. unfold int_true_divide.
    destruct (Z.eqb_spec count 0) as [|_]; [done|]. cbn.
    destruct (Z.ltb_spec count 0); [lia|]. cbn.
    eexists. split_and!; [done|lia|]. intros _. exists 0.
    split_and!; [done|done|]. unfold nearest_decimal. lia. }
  destruct (int_true_divide_format 1 total count) as (x & t & Hdiv & Hfmt & Ht0 & Hnear).
  { done. }
  { assert (1 ≤ bound) by nia. split; [done|]. nia. }
  { change (10 ^ Z.of_nat 1) with 10. nia. }
  rewrite Hdiv. cbn. rewrite Hfmt.
  eexists. split_and!; [done|lia|]. intros _. by exists t.
Qed.

Lemma sample_reviews_ratings :
  omap parsed_rating (reviews_data (initial_world sample_reviews)) = [5; 1; 2; 5].
Proof. by vm_compute. Qed.

Lemma rating_summary_count_and_mean_witness :
  let w := initial_world sample_reviews in
  let ratings := omap parsed_rating (reviews_data w) in
  let count := Z.of_nat (length ratings) in
  let total := sum_list ratings in
  Forall (ascii_column "Rating") (reviews_data w) ∧
  Forall (λ r, Z.abs r ≤ 5) ratings ∧
  20 * 5 * count < 2 ^ 53 ∧
  ∃ average : string,
    returned (rating_summary_tool "" w)
    = Ok ("There are " +:+ str_int count +:+ " reviews with an average rating of "
          +:+ average +:+ " stars.") ∧
    (count = 0 → average = "0.0") ∧
    (0 < count →
       ∃ t, 0 ≤ t ∧ average = render_fixed 1 (total <? 0) t ∧
            nearest_decimal 1 t (Z.abs total) count).
Proof.
  assert (Forall (λ r, Z.abs r ≤ 5)
            (omap parsed_rating (reviews_data (initial_world sample_reviews)))) as Hbound.
  { rewrite sample_reviews_ratings. repeat constructor; by vm_compute. }
  assert (20 * 5 * Z.of_nat (length (omap parsed_rating
            (reviews_data (initial_world sample_reviews)))) < 2 ^ 53) as Hsmall.
  { rewrite sample_reviews_ratings. by vm_compute. }
  split; [exact (sample_reviews_ascii "Rating")|].
  split; [exact Hbound|]. split; [exact Hsmall|].
  exact (rating_summary_count_and_mean "" (initial_world sample_reviews) 5
           (sample_reviews_ascii "Rating") Hbound Hsmall).
Defined.

(** The summary of the sample file: the ratings 5, 1, 2 and 5 average 3.25,
    which binary64 holds exactly and formatting rounds to the even digit. *)
Lemma rating_summary_sample :
  returned (rating_summary_tool "" (initial_world sample_reviews))
  = Ok "There are 4 reviews with an average rating of 3.2 stars." ∧
  returned (rating_summary_tool "" (initial_world []))
  = Ok "There are 0 reviews with an average rating of 0.0 stars.".
Proof. by vm_compute. Qed.

(** The same for a sum and a count: a mean of bounded ratings, formatted
    with [p] digits, is a nearest [p]-digit decimal of the exact mean. *)
Lemma int_true_divide_mean (p : nat) (bound total count : Z) :
  0 < count → Z.abs total ≤ bound * count →
  2 * 10 ^ Z.of_nat p * bound * count < 2 ^ 53 →
  ∃ x t,
    int_true_divide total count = Ok x ∧
    format_float p x = render_fixed p (total <? 0) t ∧
    0 ≤ t ∧ nearest_decimal p t (Z.abs total) count.
Proof.
  intros Hcount Htotal Hsmall.
  assert (1 ≤ 10 ^ Z.of_nat p) as HP.
  { pose proof (Z.pow_pos_nonneg 10 (Z.of_nat p)). lia. }
  destruct (decide (total = 0)) as [->|Hnz].
  - exists (PyFloat false 0 0), 0. split_and!; [|done|done|].
    + unfold int_true_divide. destruct (Z.eqb_spec count 0); [lia|]. cbn.
      by destruct (Z.ltb_spec count 0); [lia|].
    + unfold nearest_decimal. lia.
  - apply int_true_divide_format; [done| |nia].
    assert (1 ≤ bound) by nia. split; [done|]. nia.
Qed.

(** ** The sentiment trend *)

Section Trend.
Context `{Services}.

Lemma try_month_rating_valid review :
  match month_and_rating strftime_pads_year review with
  | Some p => try_month_rating review = Ok p
  | None => ∃ e, try_month_rating review = Raise e
  end.
Proof.
  unfold month_and_rating, parsed_date, try_month_rating, getitem.
  destruct (review !! "Date") as [[s|]|] eqn:Hdate; cbn; eauto.
  destruct (strptime_ymd s) as [date|]; cbn; eauto.
  pose proof (try_rating_parsed review) as Hr.
  unfold try_rating, getitem in Hr.
  destruct (parsed_rating review) as [r|]; cbn.
  - destruct (review !! "Rating") as [v|]; [|done]. cbn in *. by rewrite Hr.
  - destruct Hr as [e He].
    destruct (review !! "Rating") as [v|]; cbn in *; [|eauto].
    rewrite He. eauto.
Qed.

Lemma ratings_by_month_grouped reviews :
  ratings_by_month reviews
  = grouped (omap (month_and_rating strftime_pads_year) reviews) ∅.
Proof.
  unfold ratings_by_month, grouped. generalize (∅ : gmap string (list Z)).
  induction reviews as [|review reviews IH]; intros acc; [done|].
  cbn [fold_left omap list_omap].
  pose proof (try_month_rating_valid review) as Hr.
  destruct (month_and_rating strftime_pads_year review) as [[month rating]|].
  - rewrite Hr. cbn [fold_left]. apply IH.
  - destruct Hr as [e ->]. apply IH.
Qed.

Lemma grouped_lookup valid acc month :
  grouped valid acc !! month
  = match acc !! month with
    | Some l => Some (l ++ ratings_in_month month valid)
    | None =>
        match ratings_in_month month valid with
        | [] => None
        | rs => Some rs
        end
    end.
Proof.
  unfold grouped, ratings_in_month. revert acc.
  induction valid as [|[m r] valid IH]; intros acc.
  { cbn. destruct (acc !! month); [by rewrite app_nil_r|done]. }
  cbn [fold_left]. rewrite IH. unfold append_rating. cbn [fst snd].
  rewrite filter_cons. cbn [fst].
  destruct (decide (m = month)) as [->|Hne].
  - rewrite lookup_insert_eq. cbn [map].
    destruct (acc !! month) as [l|]; cbn [default].
    + by rewrite <- app_assoc.
    + done.
  - rewrite lookup_insert_ne by done. done.
Qed.

Lemma ratings_by_month_lookup reviews month :
  ratings_by_month reviews !! month
  = match ratings_in_month month
            (omap (month_and_rating strftime_pads_year) reviews) with
    | [] => None
    | rs => Some rs
    end.
Proof. by rewrite ratings_by_month_grouped, grouped_lookup, lookup_empty. Qed.

Lemma ratings_in_month_nonempty month valid :
  ratings_in_month month valid ≠ [] ↔ ∃ r, (month, r) ∈ valid.
Proof.
  unfold ratings_in_month. split.
  - intros Hne. destruct (filter _ valid) as [|[m r] rest] eqn:Hf; [done|].
    assert ((m, r) ∈ filter (λ p : string * Z, p.1 = month) valid) as Hin.
    { rewrite Hf. apply list_elem_of_here. }
    apply list_elem_of_filter in Hin as [Hm Hin]. cbn in Hm. subst m. eauto.
  - intros [r Hin] Hnil. apply fmap_nil_inv in Hnil.
    eapply (filter_nil_not_elem_of _ _ (month, r)) in Hnil; done.
Qed.

Lemma ratings_in_month_sum_bound bound month valid :
  Forall (λ p : string * Z, Z.abs p.2 ≤ bound) valid →
  Forall (λ r, Z.abs r ≤ bound) (ratings_in_month month valid).
Proof.
  intros Hb. unfold ratings_in_month. apply Forall_fmap, Forall_forall.
  intros p [_ Hin]%list_elem_of_filter. cbn.
  by eapply Forall_forall in Hb.
Qed.

Lemma ratings_in_month_length month valid :
  (length (ratings_in_month month valid) ≤ length valid)%nat.
Proof.
  unfold ratings_in_month. rewrite length_fmap. apply length_filter.
Qed.

Lemma string_lt_sorted (l : list string) :
  StronglySorted String.le l → NoDup l → StronglySorted string_lt l.
Proof.
  induction 1 as [|x l Hsorted IH Hall]; intros Hnd; [constructor|].
  apply NoDup_cons in Hnd as [Hx Hnd].
  constructor; [by apply IH|].
  apply Forall_forall. intros y Hy. split.
  - by eapply Forall_forall in Hall.
  - intros ->. done.
Qed.

Lemma py_sorted_spec (l : list string) :
  NoDup l →
  StronglySorted string_lt (py_sorted l) ∧ (∀ x, x ∈ py_sorted l ↔ x ∈ l).
Proof.
  intros Hnd. unfold py_sorted.
  pose proof (merge_sort_Permutation String.le l) as Hperm.
  split.
  - apply string_lt_sorted.
    + apply (StronglySorted_merge_sort String.le).
    + by rewrite Hperm.
  - intros x. by rewrite Hperm.
Qed.

Lemma map_result_Forall2 {A B} (f : A → result B) (R : A → B → Prop) l :
  (∀ x, x ∈ l → ∃ y, f x = Ok y ∧ R x y) →
  ∃ ys, map_result f l = Ok ys ∧ Forall2 R l ys.
Proof.
  induction l as [|x l IH]; intros Hf.
  { exists []. by split; [|constructor]. }
  destruct (Hf x) as (y & Hy & HR); [apply list_elem_of_here|].
  destruct IH as (ys & Hys & HRs).
  { intros x' Hx'. apply Hf. by apply list_elem_of_further. }
  exists (y :: ys). cbn. rewrite Hy. cbn. rewrite Hys. cbn.
  split; [done|]. by constructor.
Qed.

Lemma trend_line_spec bound reviews month :
  let valid := omap (month_and_rating strftime_pads_year) reviews in
  Forall (λ p : string * Z, Z.abs p.2 ≤ bound) valid →
  200 * bound * Z.of_nat (length valid) < 2 ^ 53 →
  (∃ r, (month, r) ∈ valid) →
  ∃ line, trend_line (ratings_by_month reviews) month = Ok line ∧
          trend_line_of valid month line.
Proof.
  intros valid Hbound Hsmall Hmonth.
  apply ratings_in_month_nonempty in Hmonth.
  unfold trend_line. rewrite ratings_by_month_lookup. fold valid.
  set (ratings := ratings_in_month month valid) in *.
  assert (default [] (match ratings with [] => None | z :: l => Some (z :: l) end)
          = ratings) as -> by (by destruct ratings).
  pose proof (ratings_in_month_length month valid) as Hlen. fold ratings in Hlen.
  pose proof (sum_list_bound bound ratings
                (ratings_in_month_sum_bound bound month valid Hbound)) as Hsum.
  assert (0 < Z.of_nat (length ratings)) as Hpos by (destruct ratings; [done|cbn; lia]).
  destruct (int_true_divide_mean 2 bound (sum_list ratings) (Z.of_nat (length ratings)))
    as (x & t & Hdiv & Hfmt & Ht0 & Hnear); [done|done| |].
  { change (10 ^ Z.of_nat 2) with 100.
    destruct (Z.le_gt_cases bound 0); nia. }
  rewrite Hdiv. cbn. eexists. split; [done|].
  exists t. by rewrite Hfmt.
Qed.

(** *** Month keys sort as the calendar does *)

Lemma digit_cases a : 0 ≤ a ≤ 9 →
  a = 0 ∨ a = 1 ∨ a = 2 ∨ a = 3 ∨ a = 4 ∨ a = 5 ∨ a = 6 ∨ a = 7 ∨ a = 8 ∨ a = 9.
Proof. lia. Qed.

Lemma digit_char_compare a b :
  0 ≤ a ≤ 9 → 0 ≤ b ≤ 9 → Ascii.compare (digit_char a) (digit_char b) = (a ?= b).
Proof.
  intros Ha Hb.
  destruct (digit_cases a Ha) as [->|[->|[->|[->|[->|[->|[->|[->|[->| ->]]]]]]]]];
  destruct (digit_cases b Hb) as [->|[->|[->|[->|[->|[->|[->|[->|[->| ->]]]]]]]]];
  reflexivity.
Qed.

Lemma string_compare_refl a : String.compare a a = Eq.
Proof.
  induction a as [|c a IH]; [done|].
  cbn. unfold Ascii.compare. by rewrite N.compare_refl.
Qed.

Lemma string_lt_compare a b : String.compare a b = Lt → string_lt a b.
Proof.
  intros Hlt. split.
  - unfold String.le, String.leb. by rewrite Hlt.
  - intros ->. rewrite string_compare_refl in Hlt. discriminate.
Qed.

Lemma string_lt_asym a b : string_lt a b → string_lt b a → False.
Proof.
  intros [Hab Hne] [Hba _]. apply Hne.
  by apply (anti_symm String.le).
Qed.

Lemma four_digits_value y :
  0 ≤ y ≤ 9999 →
  y = 1000 * (y / 1000 mod 10) + 100 * (y / 100 mod 10)
      + 10 * (y / 10 mod 10) + y mod 10.
Proof. intros Hy. Z.div_mod_to_equations. lia. Qed.

Lemma two_digits_value m :
  0 ≤ m ≤ 99 → m = 10 * (m / 10 mod 10) + m mod 10.
Proof. intros Hm. Z.div_mod_to_equations. lia. Qed.

Lemma month_key_padded y m :
  month_key true y m
  = String (digit_char (y / 1000 mod 10)) (String (digit_char (y / 100 mod 10))
      (String (digit_char (y / 10 mod 10)) (String (digit_char (y mod 10))
        (String "-" (String (digit_char (m / 10 mod 10))
          (String (digit_char (m mod 10)) EmptyString)))))).
Proof. done. Qed.

(** From the year 1000 on the year has four digits however it is written. *)
Lemma month_key_from_1000 pads y m :
  1000 ≤ y ≤ 9999 → month_key pads y m = month_key true y m.
Proof.
  intros Hy. destruct pads; [done|].
  unfold month_key, year_text, four_digits. f_equal.
  assert (1 ≤ y / 1000 mod 10 ≤ 9) as Hd by (Z.div_mod_to_equations; lia).
  cbn [lstrip_with].
  assert (0 ≤ y / 1000 mod 10 ≤ 9) as Hd0 by lia.
  by destruct (digit_cases _ Hd0) as [Hz|[->|[->|[->|[->|[->|[->|[->|[->| ->]]]]]]]]];
    [lia|..].
Qed.

Lemma month_key_before y1 m1 y2 m2 :
  0 ≤ y1 ≤ 9999 → 0 ≤ y2 ≤ 9999 → 0 ≤ m1 ≤ 99 → 0 ≤ m2 ≤ 99 →
  month_before (y1, m1) (y2, m2) →
  string_lt (month_key true y1 m1) (month_key true y2 m2).
Proof.
  intros Hy1 Hy2 Hm1 Hm2 Hbefore. apply string_lt_compare.
  rewrite !month_key_padded. cbn [String.compare].
  assert (∀ x, 0 ≤ x mod 10 ≤ 9) as Hdigit.
  { intros x. pose proof (Z.mod_pos_bound x 10). lia. }
  rewrite !digit_char_compare by apply Hdigit.
  change (Ascii.compare "-" "-") with Eq. cbn iota.
  unfold month_before in Hbefore. cbn [fst snd] in Hbefore.
  pose proof (four_digits_value y1 Hy1). pose proof (four_digits_value y2 Hy2).
  pose proof (two_digits_value m1 Hm1). pose proof (two_digits_value m2 Hm2).
  repeat match goal with
         | |- context [?x mod 10] =>
             let d := fresh "d" in
             pose proof (Hdigit x); set (d := x mod 10) in *; clearbody d
         end.
  clear Hdigit.
  repeat match goal with
         | |- context [?a ?= ?b] => destruct (Z.compare_spec a b)
         end; try done; exfalso; lia.
Qed.

Lemma char_between_code lo hi c :
  char_between lo hi c = true → lo ≤ code c ≤ hi.
Proof. unfold char_between. intros [? ?]%andb_true_iff. lia. Qed.

Lemma parse_year_range s y rest :
  parse_year s = Some (y, rest) → 0 ≤ y ≤ 9999.
Proof.
  unfold parse_year. destruct s as [|a [|b [|c [|d s]]]]; try done.
  destruct (is_digit a) eqn:Ha; [|done]. destruct (is_digit b) eqn:Hb; [|done].
  destruct (is_digit c) eqn:Hc; [|done]. destruct (is_digit d) eqn:Hd; [|done].
  cbn. intros [= <- _]. unfold digit_of.
  apply char_between_code in Ha, Hb, Hc, Hd. lia.
Qed.

Lemma parse_month_range s m rest :
  parse_month s = Some (m, rest) → 1 ≤ m ≤ 12.
Proof.
  unfold parse_month, digit_of. destruct s as [|c1 [|c2 s]]; [done| |].
  - destruct (char_between 49 57 c1) eqn:H1; [|done].
    intros [= <- _]. apply char_between_code in H1. lia.
  - destruct (bool_decide (c1 = "1"%char) && char_between 48 50 c2) eqn:Ha.
    { cbn. apply andb_true_iff in Ha as [->%bool_decide_eq_true Hc2].
      intros [= <- _]. apply char_between_code in Hc2. change (code "1") with 49. lia. }
    destruct (bool_decide (c1 = "0"%char) && char_between 49 57 c2) eqn:Hb.
    { cbn. apply andb_true_iff in Hb as [->%bool_decide_eq_true Hc2].
      intros [= <- _]. apply char_between_code in Hc2. change (code "0") with 48. lia. }
    cbn. destruct (char_between 49 57 c1) eqn:H1; [|done].
    intros [= <- _]. apply char_between_code in H1. lia.
Qed.

Lemma strptime_ymd_range s y m d :
  strptime_ymd s = Some (y, m, d) → 1 ≤ y ≤ 9999 ∧ 1 ≤ m ≤ 12.
Proof.
  unfold strptime_ymd.
  destruct (parse_year s) as [[y' s1]|] eqn:Hy; [|done]. cbn.
  destruct (expect_char "-" s1) as [s2|]; [|done]. cbn.
  destruct (parse_month s2) as [[m' s3]|] eqn:Hm; [|done]. cbn.
  destruct (expect_char "-" s3) as [s4|]; [|done]. cbn.
  destruct (parse_day s4) as [[d' s5]|]; [|done]. cbn.
  destruct (is_empty s5 && (1 <=? y') && (d' <=? days_in_month y' m')) eqn:Hok; [|done].
  intros [= <- <- <-].
  apply andb_true_iff in Hok as [[_ Hy1%Z.leb_le]%andb_true_iff _].
  apply parse_year_range in Hy. apply parse_month_range in Hm. lia.
Qed.

Lemma month_and_rating_key pads review month r :
  month_and_rating pads review = Some (month, r) →
  ∃ y m d, parsed_date review = Some (y, m, d) ∧
           month = month_key pads y m ∧ calendar_month (y, m).
Proof.
  unfold month_and_rating.
  destruct (parsed_date review) as [[[y m] d]|] eqn:Hdate; [|done]. cbn.
  destruct (parsed_rating review); [|done]. cbn. intros [= <- _].
  exists y, m, d. split_and!; [done|done|].
  unfold parsed_date in Hdate.
  destruct (review !! "Date") as [[s|]|]; [|done|done].
  by eapply strptime_ymd_range.
Qed.

(** On months of the calendar, the order of the keys is the order of time. *)
Lemma month_key_order a b :
  calendar_month a → calendar_month b →
  string_lt (month_key true a.1 a.2) (month_key true b.1 b.2) → month_before a b.
Proof.
  destruct a as [y m], b as [y' m']. unfold calendar_month. cbn [fst snd].
  intros [Hy Hm] [Hy' Hm'] Hlt.
  destruct (Z.lt_trichotomy y y') as [Hlty|[->|Hgty]].
  - by left.
  - destruct (Z.lt_trichotomy m m') as [Hltm|[->|Hgtm]].
    + by right.
    + by destruct Hlt as [_ []].
    + exfalso. eapply string_lt_asym; [exact Hlt|].
      apply month_key_before; try lia. right. cbn. lia.
  - exfalso. eapply string_lt_asym; [exact Hlt|].
    apply month_key_before; try lia. left. cbn. lia.
Qed.

Lemma months_chronological months :
  StronglySorted string_lt months →
  Forall (λ month, ∃ ym, month = month_key true ym.1 ym.2 ∧ calendar_month ym)
    months →
  ∃ calendar,
    months = map (λ ym : Z * Z, month_key true ym.1 ym.2) calendar ∧
    Forall calendar_month calendar ∧
    StronglySorted month_before calendar.
Proof.
  induction 1 as [|month months Hsorted IH Hall]; intros Hkeys.
  { exists []. by split_and!; constructor. }
  apply Forall_cons in Hkeys as [(ym & -> & Hym) Hkeys].
  destruct (IH Hkeys) as (calendar & -> & Hrange & Hcal).
  exists (ym :: calendar). split_and!; [done|by constructor|].
  constructor; [done|]. apply Forall_forall. intros ym' Hin.
  apply month_key_order; [done|by eapply Forall_forall in Hrange|].
  eapply Forall_forall in Hall; [exact Hall|].
  apply list_elem_of_fmap. by exists ym'.
Qed.

#[local] Arguments ratings_by_month : simpl never.
#[local] Arguments py_sorted : simpl never.
#[local] Arguments map_result : simpl never.

(** The months the tool prints, before formatting. *)
Lemma sorted_months_spec reviews :
  let months := py_sorted (map fst (map_to_list (ratings_by_month reviews))) in
  StronglySorted string_lt months ∧
  (∀ month, month ∈ months
            ↔ ∃ r, (month, r) ∈ omap (month_and_rating strftime_pads_year) reviews).
Proof.
  intros months.
  destruct (py_sorted_spec (map fst (map_to_list (ratings_by_month reviews))))
    as [Hsorted Hmem]; [apply NoDup_fst_map_to_list|].
  split; [done|]. intros month. unfold months. rewrite Hmem.
  rewrite <- ratings_in_month_nonempty.
  pose proof (ratings_by_month_lookup reviews month) as Hlookup.
  split.
  - intros [[m rs] [Hm Hin]]%list_elem_of_fmap. cbn in Hm. subst m.
    apply elem_of_map_to_list in Hin. rewrite Hin in Hlookup.
    by destruct (ratings_in_month month _).
  - intros Hne. destruct (ratings_in_month month _) as [|r rs] eqn:Hrs; [done|].
    apply list_elem_of_fmap. exists (month, r :: rs). split; [done|].
    by apply elem_of_map_to_list.
Qed.

(** C6, as the code has it. On a store whose dates and ratings are ASCII
    text and whose readable ratings lie within [bound] in absolute value
    and are few enough for binary64 ([200 * bound * n < 2^53] for [n]
    readable rows), the trend is the heading followed by one line per
    month:
    - the months are exactly those of the rows whose [Date] parses as a
      date and whose [Rating] parses as an integer;
    - the keys of the months are in strictly ascending order of strings;
    - the line of a month is its key, a colon, and a decimal with two
      digits at most [0.005] away from the mean of that month's ratings;
    - where the year is written on four digits, because [strftime] pads it
      or because no readable date is before the year 1000, the keys are
      ["YYYY-MM"] keys of months of the calendar in strictly ascending
      order of time. *)
Theorem sentiment_trend_by_month (input : string) (w : world) (bound : Z) :
  let valid := omap (month_and_rating strftime_pads_year) (reviews_data w) in
  Forall (ascii_column "Date") (reviews_data w) →
  Forall (ascii_column "Rating") (reviews_data w) →
  Forall (λ p : string * Z, Z.abs p.2 ≤ bound) valid →
  200 * bound * Z.of_nat (length valid) < 2 ^ 53 →
  ∃ months lines : list string,
    returned (sentiment_trend_tool input w)
    = Ok ("Sentiment trend by month:" +:+ newline +:+ py_join newline lines) ∧
    (∀ month, month ∈ months ↔ ∃ r, (month, r) ∈ valid) ∧
    StronglySorted string_lt months ∧
    Forall2 (trend_line_of valid) months lines ∧
    (strftime_pads_year = true ∨ Forall year_from_1000 (reviews_data w) →
       ∃ calendar : list (Z * Z),
         months = map (λ ym : Z * Z, month_key true ym.1 ym.2) calendar ∧
         Forall calendar_month calendar ∧
         StronglySorted month_before calendar).
Proof.
  intros valid _ _ Hbound Hsmall.
  destruct (sorted_months_spec (reviews_data w)) as [Hsorted Hmem].
  set (months := py_sorted _) in *. fold valid in Hmem.
  destruct (map_result_Forall2 (trend_line (ratings_by_month (reviews_data w)))
              (trend_line_of valid) months) as (lines & Hlines & Hspec).
  { intros month Hin. apply (trend_line_spec bound); [done|done|].
    by apply Hmem. }
  exists months, lines. split_and!; try done.
  - unfold sentiment_trend_tool. run_world. fold months. by rewrite Hlines.
  - intros Hfour. apply months_chronological; [done|].
    apply Forall_forall. intros month [r Hin]%Hmem.
    apply list_elem_of_omap in Hin as (review & Hreview & Hvalid).
    apply month_and_rating_key in Hvalid as (y & m & d & Hdate & -> & Hym).
    exists (y, m). split; [|done]. cbn [fst snd].
    destruct Hfour as [->|Hyears]; [done|].
    apply month_key_from_1000.
    eapply Forall_forall in Hyears; [|exact Hreview].
    specialize (Hyears y m d Hdate). unfold calendar_month in Hym. cbn in Hym. lia.
Qed.

End Trend.

Lemma sample_reviews_months :
  omap (month_and_rating false) (reviews_data (initial_world sample_reviews))
  = [("2024-01", 5); ("2024-01", 1); ("2024-02", 2); ("2023-12", 5)].
Proof. by vm_compute. Qed.

Lemma sample_reviews_years : Forall year_from_1000 sample_reviews.
Proof.
  repeat constructor; intros y m d; vm_compute; intros [= <- _ _]; done.
Qed.

Lemma sentiment_trend_by_month_witness :
  let w := initial_world sample_reviews in
  let valid := omap (month_and_rating (@strftime_pads_year sample_services))
                 (reviews_data w) in
  Forall (ascii_column "Date") (reviews_data w) ∧
  Forall (ascii_column "Rating") (reviews_data w) ∧
  Forall (λ p : string * Z, Z.abs p.2 ≤ 5) valid ∧
  200 * 5 * Z.of_nat (length valid) < 2 ^ 53 ∧
  ∃ months lines : list string,
    returned (@sentiment_trend_tool sample_services "" w)
    = Ok ("Sentiment trend by month:" +:+ newline +:+ py_join newline lines) ∧
    (∀ month, month ∈ months ↔ ∃ r, (month, r) ∈ valid) ∧
    StronglySorted string_lt months ∧
    Forall2 (trend_line_of valid) months lines ∧
    (@strftime_pads_year sample_services = true
     ∨ Forall year_from_1000 (reviews_data w) →
       ∃ calendar : list (Z * Z),
         months = map (λ ym : Z * Z, month_key true ym.1 ym.2) calendar ∧
         Forall calendar_month calendar ∧
         StronglySorted month_before calendar).
Proof.
  assert (Forall (λ p : string * Z, Z.abs p.2 ≤ 5)
            (omap (month_and_rating (@strftime_pads_year sample_services))
               (reviews_data (initial_world sample_reviews))))
    as Hbound.
  { change (@strftime_pads_year sample_services) with false.
    rewrite sample_reviews_months. repeat constructor; by vm_compute. }
  assert (200 * 5 * Z.of_nat (length
            (omap (month_and_rating (@strftime_pads_year sample_services))
               (reviews_data (initial_world sample_reviews)))) < 2 ^ 53) as Hsmall.
  { change (@strftime_pads_year sample_services) with false.
    rewrite sample_reviews_months. by vm_compute. }
  split; [exact (sample_reviews_ascii "Date")|].
  split; [exact (sample_reviews_ascii "Rating")|].
  split; [exact Hbound|]. split; [exact Hsmall|].
  exact (@sentiment_trend_by_month sample_services "" (initial_world sample_reviews) 5
           (sample_reviews_ascii "Date") (sample_reviews_ascii "Rating") Hbound Hsmall).
Defined.

(** The trend of the sample file. *)
Lemma sentiment_trend_sample :
  returned (@sentiment_trend_tool sample_services "" (initial_world sample_reviews))
  = Ok ("Sentiment trend by month:" +:+ newline +:+ "2023-12: 5.00" +:+ newline
        +:+ "2024-01: 3.00" +:+ newline +:+ "2024-02: 2.00").
Proof. by vm_compute. Qed.

(** ** Keywords of low-rated reviews *)

(** *** Sorted lists *)

Lemma StronglySorted_weaken {A} (R R' : relation A) (l : list A) :
  StronglySorted R l → (∀ a b, a ∈ l → b ∈ l → R a b → R' a b) →
  StronglySorted R' l.
Proof.
  induction 1 as [|x l Hsorted IH Hall]; intros Himpl; [constructor|].
  constructor.
  - apply IH. intros a b Ha Hb. apply Himpl; by apply list_elem_of_further.
  - apply Forall_forall. intros y Hy. apply Himpl.
    + apply list_elem_of_here.
    + by apply list_elem_of_further.
    + by eapply Forall_forall in Hall.
Qed.

Lemma StronglySorted_filter {A} (R : relation A) (P : A → Prop)
    `{∀ x, Decision (P x)} (l : list A) :
  StronglySorted R l → StronglySorted R (filter P l).
Proof.
  induction 1 as [|x l Hsorted IH Hall]; [constructor|].
  rewrite filter_cons. destruct (decide (P x)); [|done].
  constructor; [done|]. apply Forall_forall. intros y [_ Hy]%list_elem_of_filter.
  by eapply Forall_forall in Hall.
Qed.

(** *** The distinct tokens, in order of first occurrence *)

Lemma elem_of_firsts word tokens : word ∈ firsts tokens ↔ word ∈ tokens.
Proof.
  induction tokens as [|t ts IH]; [done|].
  cbn [firsts]. rewrite !elem_of_cons, list_elem_of_filter, IH.
  destruct (decide (word = t)) as [->|Hne]; [by split; left|].
  split; [intros [?|[_ ?]]|intros [?|?]]; auto.
Qed.

Lemma NoDup_firsts tokens : NoDup (firsts tokens).
Proof.
  induction tokens as [|t ts IH]; [constructor|].
  cbn [firsts]. constructor; [|by apply NoDup_filter].
  by intros [? _]%list_elem_of_filter.
Qed.

Lemma firsts_snoc ts t :
  firsts (ts ++ [t]) = if decide (t ∈ ts) then firsts ts else firsts ts ++ [t].
Proof.
  induction ts as [|x ts IH]; [done|].
  cbn [app firsts]. rewrite IH.
  destruct (decide (t = x)) as [->|Hne].
  - rewrite (decide_True (P := x ∈ x :: ts)) by apply list_elem_of_here.
    destruct (decide (x ∈ ts)); [done|].
    rewrite filter_app, filter_cons_False, filter_nil, app_nil_r; [done|].
    by intros [].
  - destruct (decide (t ∈ ts)) as [Hin|Hnin].
    + by rewrite decide_True by (by apply list_elem_of_further).
    + rewrite decide_False by (intros [?|?]%elem_of_cons; done).
      by rewrite filter_app, filter_cons_True.
Qed.

Lemma first_index_sorted tokens :
  StronglySorted (λ a b, (first_index a tokens < first_index b tokens)%nat)
    (firsts tokens).
Proof.
  induction tokens as [|t ts IH]; [constructor|].
  cbn [firsts]. constructor.
  - eapply StronglySorted_weaken; [apply StronglySorted_filter, IH|].
    intros a b [Ha _]%list_elem_of_filter [Hb _]%list_elem_of_filter Hab.
    cbn [first_index]. rewrite !decide_False by done. lia.
  - apply Forall_forall. intros b [Hb _]%list_elem_of_filter.
    cbn [first_index]. rewrite decide_True by done.
    rewrite decide_False by done. lia.
Qed.

Lemma occurrences_snoc word ts t :
  occurrences word (ts ++ [t])
  = occurrences word ts + (if decide (t = word) then 1 else 0).
Proof.
  unfold occurrences. rewrite filter_app, length_app, filter_cons.
  destruct (decide (t = word)); cbn; lia.
Qed.

Lemma occurrences_absent word tokens : word ∉ tokens → occurrences word tokens = 0.
Proof.
  intros Hnin. unfold occurrences.
  assert (filter (λ t, t = word) tokens = []) as ->; [|done].
  induction tokens as [|t ts IH]; [done|].
  apply not_elem_of_cons in Hnin as [Hne Hnin].
  rewrite filter_cons_False by done. by apply IH.
Qed.

(** *** The keyword counter *)

Lemma bump_absent t (c : string → Z) (words : list string) :
  t ∉ words →
  bump t (map (λ word, (word, c word)) words)
  = map (λ word, (word, c word)) words ++ [(t, 1)].
Proof.
  induction words as [|x words IH]; intros Hnin; [done|].
  apply not_elem_of_cons in Hnin as [Hne Hnin].
  cbn [map bump]. rewrite bool_decide_eq_false_2 by done.
  by rewrite IH.
Qed.

Lemma bump_present t (c : string → Z) (words : list string) :
  NoDup words → t ∈ words →
  bump t (map (λ word, (word, c word)) words)
  = map (λ word, (word, c word + (if decide (t = word) then 1 else 0))) words.
Proof.
  induction words as [|x words IH]; intros Hnd Hin; [by apply elem_of_nil in Hin|].
  apply NoDup_cons in Hnd as [Hx Hnd]. cbn [map bump].
  destruct (decide (x = t)) as [->|Hne].
  - rewrite bool_decide_eq_true_2 by done. rewrite decide_True by done.
    f_equal. apply map_ext_in. intros word Hword%list_elem_of_In.
    rewrite decide_False; [f_equal; lia|]. by intros <-.
  - rewrite bool_decide_eq_false_2 by done.
    rewrite decide_False by done. rewrite Z.add_0_r. f_equal.
    apply IH; [done|]. by apply elem_of_cons in Hin as [->|Hin].
Qed.

Lemma fold_bump_counted tokens :
  fold_left (λ kw word, bump word kw) tokens [] = counted tokens.
Proof.
  induction tokens as [|t ts IH] using rev_ind; [done|].
  rewrite fold_left_app. cbn [fold_left]. rewrite IH. unfold counted.
  rewrite firsts_snoc. destruct (decide (t ∈ ts)) as [Hin|Hnin].
  - rewrite bump_present; [|apply NoDup_firsts|by apply elem_of_firsts].
    apply map_ext. intros word. by rewrite occurrences_snoc.
  - rewrite bump_absent by (by rewrite elem_of_firsts).
    rewrite map_app. cbn [map]. f_equal.
    + apply map_ext_in. intros word Hword%list_elem_of_In.
      apply (proj1 (elem_of_firsts _ _)) in Hword.
      rewrite occurrences_snoc, decide_False; [f_equal; lia|]. by intros <-.
    + rewrite occurrences_snoc, decide_True by done.
      by rewrite occurrences_absent.
Qed.

(** *** The stable sort by count *)

Lemma elem_of_insert_desc x l y : y ∈ insert_desc x l ↔ y = x ∨ y ∈ l.
Proof.
  induction l as [|z l IH]; cbn [insert_desc].
  - rewrite list_elem_of_singleton. split; [by left|].
    by intros [?|?%elem_of_nil].
  - destruct (x.2 <? z.2).
    + rewrite !elem_of_cons, IH. tauto.
    + by rewrite elem_of_cons.
Qed.

Lemma elem_of_sorted_by_count_desc l y : y ∈ sorted_by_count_desc l ↔ y ∈ l.
Proof.
  unfold sorted_by_count_desc. induction l as [|x l IH]; [done|].
  cbn [foldr]. rewrite elem_of_insert_desc, IH, elem_of_cons. tauto.
Qed.

Lemma count_then_le P a b : count_then P a b → b.2 ≤ a.2.
Proof. unfold count_then. lia. Qed.

Lemma insert_desc_sorted P x l :
  StronglySorted (count_then P) l → Forall (P x) l →
  StronglySorted (count_then P) (insert_desc x l).
Proof.
  induction 1 as [|y l Hsorted IH Hall]; intros HP; cbn [insert_desc].
  { repeat constructor. }
  apply Forall_cons in HP as [HPy HPl].
  destruct (Z.ltb_spec (x.2) (y.2)) as [Hlt|Hge].
  - constructor; [by apply IH|].
    apply Forall_forall. intros z [->|Hz]%elem_of_insert_desc.
    + by left.
    + by eapply Forall_forall in Hall.
  - constructor; [by constructor|].
    apply Forall_cons. split.
    + unfold count_then. destruct (decide (y.2 = x.2)); [right|left]; [done|lia].
    + apply Forall_forall. intros z Hz.
      assert (z.2 ≤ y.2) as Hzy.
      { apply (count_then_le P). by eapply Forall_forall in Hall. }
      assert (P x z) as HPz by (by eapply Forall_forall in HPl).
      unfold count_then. destruct (decide (z.2 = x.2)); [right|left]; [done|lia].
Qed.

Lemma sorted_by_count_desc_sorted P l :
  StronglySorted P l → StronglySorted (count_then P) (sorted_by_count_desc l).
Proof.
  unfold sorted_by_count_desc.
  induction 1 as [|x l Hsorted IH Hall]; [constructor|].
  cbn [foldr]. apply insert_desc_sorted; [done|].
  apply Forall_forall. intros y Hy.
  apply (proj1 (elem_of_sorted_by_count_desc l y)) in Hy.
  by eapply Forall_forall in Hall.
Qed.

(** *** The tool *)

#[local] Arguments keyword_tokens : simpl never.
#[local] Arguments sorted_by_count_desc : simpl never.

Lemma fold_left_filter_bump (words : list string) (kw : list (string * Z)) :
  fold_left (λ kw word, if py_isalpha word then bump word kw else kw) words kw
  = fold_left (λ kw word, bump word kw)
      (filter (λ word, py_isalpha word = true) words) kw.
Proof.
  revert kw. induction words as [|word words IH]; intros kw; [done|].
  cbn [fold_left]. rewrite filter_cons.
  destruct (py_isalpha word) eqn:Halpha.
  - rewrite decide_True by done. cbn [fold_left]. apply IH.
  - rewrite decide_False by done. apply IH.
Qed.

Lemma low_rated_loop_complete reviews kw :
  Forall complete_row reviews →
  low_rated_loop reviews kw
  = Ok (fold_left (λ kw word, bump word kw) (keyword_tokens reviews) kw).
Proof.
  intros Hrows. revert kw.
  induction Hrows as [|review reviews Hr _ IH]; intros kw; [done|].
  destruct (Hr) as (_ & _ & Hrating & Hbody).
  cbn [low_rated_loop]. rewrite (dict_get_text _ _ _ Hrating). cbn.
  assert (keyword_tokens (review :: reviews)
          = if decide (low_rated review)
            then alphabetic_words (text "Review" review) ++ keyword_tokens reviews
            else keyword_tokens reviews) as ->.
  { unfold keyword_tokens. rewrite filter_cons.
    by destruct (decide (low_rated review)). }
  destruct (decide (low_rated review)) as [Hlow|Hhigh].
  - rewrite bool_decide_eq_true_2 by done.
    rewrite (getitem_text _ _ Hbody). cbn.
    rewrite IH, fold_left_filter_bump.
    by rewrite fold_left_app.
  - rewrite bool_decide_eq_false_2 by done. apply IH.
Qed.

Lemma counted_sorted tokens :
  StronglySorted
    (λ a b : string * Z, (first_index a.1 tokens < first_index b.1 tokens)%nat)
    (counted tokens).
Proof.
  unfold counted.
  apply (StronglySorted_fmap (λ word, (word, occurrences word tokens))
           (λ a b, (first_index a tokens < first_index b tokens)%nat));
    [by intros a b|apply first_index_sorted].
Qed.

Lemma elem_of_counted tokens word c :
  (word, c) ∈ counted tokens ↔ word ∈ tokens ∧ c = occurrences word tokens.
Proof.
  unfold counted. rewrite list_elem_of_fmap. split.
  - intros (w & Heq & Hw). injection Heq as -> ->.
    split; [|done]. by apply (proj1 (elem_of_firsts _ _)).
  - intros [Hw ->]. exists word. split; [done|].
    by apply (proj2 (elem_of_firsts _ _)).
Qed.

(** C5, as the code has it. On a store of complete rows whose ratings and
    bodies are ASCII text, the tool returns its heading and the first five
    of the ranked keywords joined by [", "], where the tokens are the
    alphabetic words of the lowercased bodies of the one- and two-star
    reviews, and the ranked keywords are the distinct tokens, each once,
    the more frequent first and, among equally frequent ones, the one met
    first first.  With no one- or two-star review the list after the
    heading is empty, and nothing is raised. *)
Theorem low_rated_keywords_ranked (input : string) (w : world) :
  Forall complete_row (reviews_data w) →
  Forall (ascii_column "Rating") (reviews_data w) →
  Forall (ascii_column "Review") (reviews_data w) →
  let tokens := keyword_tokens (reviews_data w) in
  ∃ ranked : list string,
    returned (low_rated_reasons_tool input w)
    = Ok ("Common keywords in low-rated reviews: " +:+ py_join ", " (take 5 ranked)) ∧
    (∀ word, word ∈ ranked ↔ word ∈ tokens) ∧
    StronglySorted (ranks_before tokens) ranked ∧
    (filter low_rated (reviews_data w) = [] →
       returned (low_rated_reasons_tool input w)
       = Ok "Common keywords in low-rated reviews: ").
Proof.
  intros Hrows _ _ tokens.
  assert (returned (low_rated_reasons_tool input w)
          = Ok ("Common keywords in low-rated reviews: "
                +:+ py_join ", " (take 5 (map fst (sorted_by_count_desc (counted tokens))))))
    as Hrun.
  { unfold low_rated_reasons_tool. run_world.
    rewrite (low_rated_loop_complete _ _ Hrows), fold_bump_counted. cbn.
    fold tokens. by rewrite <- fmap_take. }
  exists (map fst (sorted_by_count_desc (counted tokens))). split_and!.
  - done.
  - intros word. rewrite list_elem_of_fmap. split.
    + intros ([w' c] & -> & Hin). cbn.
      apply elem_of_sorted_by_count_desc, elem_of_counted in Hin. tauto.
    + intros Hin. exists (word, occurrences word tokens). split; [done|].
      by apply elem_of_sorted_by_count_desc, elem_of_counted.
  - apply (StronglySorted_fmap fst (λ a b : string * Z, ranks_before tokens a.1 b.1)).
    { by intros a b. }
    eapply StronglySorted_weaken;
      [apply sorted_by_count_desc_sorted, counted_sorted|].
    intros [a ca] [b cb] Ha Hb Hab.
    apply elem_of_sorted_by_count_desc, elem_of_counted in Ha as [_ ->].
    apply elem_of_sorted_by_count_desc, elem_of_counted in Hb as [_ ->].
    unfold count_then, ranks_before in *. cbn [fst snd] in *. lia.
  - intros Hnone. rewrite Hrun. unfold tokens, keyword_tokens. by rewrite Hnone.
Qed.

Lemma low_rated_keywords_ranked_witness :
  let w := initial_world sample_reviews in
  Forall complete_row (reviews_data w) ∧
  Forall (ascii_column "Rating") (reviews_data w) ∧
  Forall (ascii_column "Review") (reviews_data w) ∧
  let tokens := keyword_tokens (reviews_data w) in
  ∃ ranked : list string,
    returned (low_rated_reasons_tool "" w)
    = Ok ("Common keywords in low-rated reviews: " +:+ py_join ", " (take 5 ranked)) ∧
    (∀ word, word ∈ ranked ↔ word ∈ tokens) ∧
    StronglySorted (ranks_before tokens) ranked ∧
    (filter low_rated (reviews_data w) = [] →
       returned (low_rated_reasons_tool "" w)
       = Ok "Common keywords in low-rated reviews: ").
Proof.
  split; [exact sample_reviews_complete|].
  split; [exact (sample_reviews_ascii "Rating")|].
  split; [exact (sample_reviews_ascii "Review")|].
  exact (low_rated_keywords_ranked "" (initial_world sample_reviews)
           sample_reviews_complete (sample_reviews_ascii "Rating")
           (sample_reviews_ascii "Review")).
Defined.

(** The keywords of the sample file, and of a file without low ratings. *)
Lemma low_rated_keywords_sample :
  returned (low_rated_reasons_tool "" (initial_world sample_reviews))
  = Ok "Common keywords in low-rated reviews: bad, service, slow, food, cold" ∧
  returned (low_rated_reasons_tool ""
              (initial_world [review_row "Top" "2023-12-30" "5" "Loved it"]))
  = Ok "Common keywords in low-rated reviews: ".
Proof. by vm_compute. Qed.

(** C5 as worded fails on letter case: the one low-rated body is the word
    [Bad]; the tool answers [bad], the wording gives [Bad]. *)
Lemma low_rated_keywords_case_counterexample :
  let reviews := [review_row "Cold" "2024-03-01" "1" "Bad"] in
  filter low_rated reviews = reviews ∧
  returned (low_rated_reasons_tool "" (initial_world reviews))
  = Ok "Common keywords in low-rated reviews: bad" ∧
  keywords_as_worded reviews = "Common keywords in low-rated reviews: Bad".
Proof. by vm_compute. Qed.

(** ** Beyond binary64 *)

(** C3 as stated fails on ratings that binary64 cannot hold: one row rated
    [2^53 + 1] has mean [2^53 + 1], and the summary prints [2^53], which is
    not a nearest decimal of the mean; one row rated [10^400] makes the
    division raise, so nothing is reported. *)
Lemma rating_summary_beyond_binary64 :
  let odd := initial_world [review_row "Odd" "2024-03-01" "9007199254740993" "fine"] in
  let huge := initial_world [review_row "Huge" "2024-03-01" (String "1" (zeros 400)) "fine"] in
  omap parsed_rating (reviews_data odd) = [2 ^ 53 + 1] ∧
  returned (rating_summary_tool "" odd)
  = Ok "There are 1 reviews with an average rating of 9007199254740992.0 stars." ∧
  ¬ nearest_decimal 1 (10 * 2 ^ 53) (2 ^ 53 + 1) 1 ∧
  omap parsed_rating (reviews_data huge) = [10 ^ 400] ∧
  returned (rating_summary_tool "" huge)
  = Raise (OverflowError "integer division result too large for a float").
Proof.
  split_and!; by vm_compute.
Qed.

(** C6 as stated fails in the same way: the month of a row rated
    [2^53 + 1] is printed with mean [2^53], and a row rated [10^400] makes
    the tool raise instead of printing its month.  And where [strftime]
    does not pad the year, the year 999 is written [999] and its month
    comes after January 2024: the order of the keys is not that of time. *)
Lemma sentiment_trend_beyond_binary64 :
  let odd := initial_world [review_row "Odd" "2024-03-01" "9007199254740993" "fine"] in
  let huge := initial_world [review_row "Huge" "2024-03-01" (String "1" (zeros 400)) "fine"] in
  let old := initial_world [review_row "Old" "0999-12-05" "4" "fine";
                            review_row "New" "2024-01-05" "2" "fine"] in
  omap (month_and_rating false) (reviews_data odd) = [("2024-03", 2 ^ 53 + 1)] ∧
  returned (@sentiment_trend_tool sample_services "" odd)
  = Ok ("Sentiment trend by month:" +:+ newline +:+ "2024-03: 9007199254740992.00") ∧
  ¬ nearest_decimal 2 (100 * 2 ^ 53) (2 ^ 53 + 1) 1 ∧
  omap (month_and_rating false) (reviews_data huge) = [("2024-03", 10 ^ 400)] ∧
  returned (@sentiment_trend_tool sample_services "" huge)
  = Raise (OverflowError "integer division result too large for a float") ∧
  @strftime_pads_year sample_services = false ∧
  returned (@sentiment_trend_tool sample_services "" old)
  = Ok ("Sentiment trend by month:" +:+ newline +:+ "2024-01: 2.00" +:+ newline
        +:+ "999-12: 4.00").
Proof.
  split_and!; by vm_compute.
Qed.

(* ================================================================== *)
(** * Part III: further properties of the tools and the endpoints *)
(* ================================================================== *)

#[local] Arguments ratings_by_month : simpl never.
#[local] Arguments py_sorted : simpl never.
#[local] Arguments map_result : simpl never.
#[local] Arguments mention_tokens : simpl never.

Lemma printed_nil w : printed [] w = w.
Proof. destruct w. unfold printed. cbn. by rewrite app_nil_r. Qed.

Lemma mailed_nil w : mailed [] w = w.
Proof. destruct w. unfold mailed. cbn. by rewrite app_nil_r. Qed.

(** ** Loading the file *)

Lemma date_count_filter date reviews :
  length (filter (λ review : row, dict_get review "Date" None = Some date) reviews)
  = date_count date reviews.
Proof.
  unfold date_count. f_equal. apply list_filter_iff. intros review.
  unfold dict_get. destruct (review !! "Date") as [[s|]|]; naive_solver.
Qed.

Section Loading.
Context `{Services}.

(** X1. When the file reads as [rows], [load_reviews_from_csv] appends them
    to [reviews_data], after the rows already there and in file order, and
    changes nothing else; it does not replace the store, so a second load
    of the same file holds every row twice; and the tools see the loaded
    rows: a date is then counted in the old rows and in the new ones. *)
Theorem load_appends_rows (file_path : string) (rows : list row) (w : world) :
  read_csv file_path = Ok rows →
  load_reviews_from_csv file_path w = (Ok (), loaded rows w) ∧
  world_after ((load_reviews_from_csv file_path;; load_reviews_from_csv file_path) w)
  = loaded (rows ++ rows) w ∧
  ∀ date,
    returned ((load_reviews_from_csv file_path;; review_count_by_date_tool date) w)
    = Ok (str_int (Z.of_nat (date_count date (reviews_data w) + date_count date rows))
          +:+ " reviews were posted on " +:+ date +:+ ".").
Proof.
  intros Hrows.
  assert (∀ w0, load_reviews_from_csv file_path w0 = (Ok (), loaded rows w0)) as Hload.
  { intros w0. unfold load_reviews_from_csv. by rewrite bind_run, lift_run, Hrows. }
  split_and!.
  - apply Hload.
  - rewrite bind_run, !Hload. unfold loaded, world_after. cbn.
    by rewrite <- app_assoc.
  - intros date. rewrite bind_run, Hload.
    unfold review_count_by_date_tool. run_world.
    rewrite date_count_filter. unfold date_count.
    by rewrite filter_app, length_app.
Qed.

End Loading.

Lemma load_appends_rows_witness :
  let w := initial_world [] in
  let file_path := "realistic_restaurant_reviews.csv" in
  @read_csv review_services file_path = Ok sample_reviews ∧
  @load_reviews_from_csv review_services file_path w = (Ok (), loaded sample_reviews w) ∧
  world_after ((@load_reviews_from_csv review_services file_path;;
                @load_reviews_from_csv review_services file_path) w)
  = loaded (sample_reviews ++ sample_reviews) w ∧
  ∀ date,
    returned ((@load_reviews_from_csv review_services file_path;;
               review_count_by_date_tool date) w)
    = Ok (str_int (Z.of_nat (date_count date (reviews_data w)
                             + date_count date sample_reviews))
          +:+ " reviews were posted on " +:+ date +:+ ".").
Proof.
  split; [reflexivity|].
  exact (@load_appends_rows review_services "realistic_restaurant_reviews.csv"
           sample_reviews (initial_world []) eq_refl).
Defined.

(** ** The order of the rows *)

Lemma sum_list_Permutation l1 l2 : l1 ≡ₚ l2 → sum_list l1 = sum_list l2.
Proof.
  induction 1 as [|x l1 l2 _ IH|x y l|l1 l2 l3 _ IH1 _ IH2];
    rewrite ?sum_list_cons; lia.
Qed.

Lemma map_result_ext {A B} (f g : A → result B) l :
  (∀ x, f x = g x) → map_result f l = map_result g l.
Proof.
  intros Hfg. induction l as [|x l IH]; [done|].
  change (map_result f (x :: l)) with (y ← f x; ys ← map_result f l; mret (y :: ys)).
  change (map_result g (x :: l)) with (y ← g x; ys ← map_result g l; mret (y :: ys)).
  by rewrite Hfg, IH.
Qed.

Lemma py_sorted_Permutation l1 l2 : l1 ≡ₚ l2 → py_sorted l1 = py_sorted l2.
Proof.
  intros Hperm. unfold py_sorted.
  apply (StronglySorted_unique String.le).
  - apply (StronglySorted_merge_sort String.le).
  - apply (StronglySorted_merge_sort String.le).
  - by rewrite !merge_sort_Permutation.
Qed.

Section RowOrder.
Context `{Services}.

Lemma month_ratings reviews month :
  default [] (ratings_by_month reviews !! month)
  = ratings_in_month month (omap (month_and_rating strftime_pads_year) reviews).
Proof.
  rewrite ratings_by_month_lookup. by destruct (ratings_in_month _ _).
Qed.

Lemma ratings_in_month_Permutation month valid valid' :
  valid ≡ₚ valid' → ratings_in_month month valid ≡ₚ ratings_in_month month valid'.
Proof. intros Hperm. unfold ratings_in_month. by rewrite Hperm. Qed.

Lemma months_Permutation reviews reviews' :
  reviews ≡ₚ reviews' →
  map fst (map_to_list (ratings_by_month reviews))
  ≡ₚ map fst (map_to_list (ratings_by_month reviews')).
Proof.
  intros Hperm.
  apply NoDup_Permutation; [apply NoDup_fst_map_to_list..|].
  intros month.
  assert (∀ rs, month ∈ map fst (map_to_list (ratings_by_month rs))
                ↔ default [] (ratings_by_month rs !! month) ≠ []) as Hkey.
  { intros rs. rewrite month_ratings.
    pose proof (ratings_by_month_lookup rs month) as Hlookup. split.
    - intros [[m l] [Hm Hin]]%list_elem_of_fmap. cbn in Hm. subst m.
      apply elem_of_map_to_list in Hin. rewrite Hin in Hlookup.
      by destruct (ratings_in_month month _).
    - intros Hne. destruct (ratings_in_month month _) as [|r l] eqn:Hrs; [done|].
      apply list_elem_of_fmap. exists (month, r :: l). split; [done|].
      by apply elem_of_map_to_list. }
  rewrite !Hkey, !month_ratings.
  assert (ratings_in_month month (omap (month_and_rating strftime_pads_year) reviews)
          ≡ₚ ratings_in_month month (omap (month_and_rating strftime_pads_year) reviews'))
    as Hrs by (by apply ratings_in_month_Permutation; rewrite Hperm).
  split; intros Hne Hnil; apply Hne.
  - rewrite Hnil in Hrs. by apply Permutation_nil_r in Hrs.
  - rewrite Hnil in Hrs. by apply Permutation_nil_l in Hrs.
Qed.

(** X2. The summary, the count by rating, the count by date and the monthly
    trend do not depend on the order of the rows: on two stores that hold
    the same rows in any two orders, each of the four tools gives the same
    result, text or exception, on every input. *)
Theorem summaries_ignore_row_order (input : string) (w w' : world) :
  reviews_data w ≡ₚ reviews_data w' →
  returned (rating_summary_tool input w) = returned (rating_summary_tool input w') ∧
  returned (count_rating_tool input w) = returned (count_rating_tool input w') ∧
  returned (review_count_by_date_tool input w)
  = returned (review_count_by_date_tool input w') ∧
  returned (sentiment_trend_tool input w) = returned (sentiment_trend_tool input w').
Proof.
  intros Hperm. split_and!.
  - unfold rating_summary_tool. run_world.
    rewrite !rating_totals_spec.
    assert (omap parsed_rating (reviews_data w) ≡ₚ omap parsed_rating (reviews_data w'))
      as Hratings by (by rewrite Hperm).
    rewrite (sum_list_Permutation _ _ Hratings), (Permutation_length Hratings).
    by destruct (if _ =? 0 then _ else _).
  - unfold count_rating_tool. destruct (py_int _); [|done].
    run_world. by rewrite Hperm.
  - unfold review_count_by_date_tool. run_world. by rewrite Hperm.
  - unfold sentiment_trend_tool. run_world.
    rewrite (py_sorted_Permutation _ _ (months_Permutation _ _ Hperm)).
    rewrite (map_result_ext (trend_line (ratings_by_month (reviews_data w)))
               (trend_line (ratings_by_month (reviews_data w'))));
      [by destruct (map_result _ _)|].
    intros month. unfold trend_line. rewrite !month_ratings.
    assert (ratings_in_month month
              (omap (month_and_rating strftime_pads_year) (reviews_data w))
            ≡ₚ ratings_in_month month
                 (omap (month_and_rating strftime_pads_year) (reviews_data w')))
      as Hrs by (by apply ratings_in_month_Permutation; rewrite Hperm).
    by rewrite (sum_list_Permutation _ _ Hrs), (Permutation_length Hrs).
Qed.

End RowOrder.

Lemma sample_reviews_reversed :
  reviews_data (initial_world sample_reviews)
  ≡ₚ reviews_data (initial_world (reverse sample_reviews)).
Proof. symmetry. apply (reverse_Permutation sample_reviews). Qed.

Lemma summaries_ignore_row_order_witness :
  let w := initial_world sample_reviews in
  let w' := initial_world (reverse sample_reviews) in
  reviews_data w ≡ₚ reviews_data w' ∧
  returned (rating_summary_tool "5" w) = returned (rating_summary_tool "5" w') ∧
  returned (count_rating_tool "5" w) = returned (count_rating_tool "5" w') ∧
  returned (review_count_by_date_tool "5" w)
  = returned (review_count_by_date_tool "5" w') ∧
  returned (@sentiment_trend_tool sample_services "5" w)
  = returned (@sentiment_trend_tool sample_services "5" w').
Proof.
  split; [exact sample_reviews_reversed|].
  exact (@summaries_ignore_row_order sample_services "5"
           (initial_world sample_reviews) (initial_world (reverse sample_reviews))
           sample_reviews_reversed).
Defined.

(** ** What the two averaging tools can raise *)

Lemma int_true_divide_raises a b e :
  b ≠ 0 → int_true_divide a b = Raise e →
  e = OverflowError "integer division result too large for a float".
Proof.
  intros Hb. unfold int_true_divide.
  destruct (Z.eqb_spec b 0); [done|].
  destruct (a =? 0); [done|].
  destruct (_ <=? _); [|done]. by intros [= <-].
Qed.

Lemma map_result_raises {A B} (f : A → result B) l e :
  map_result f l = Raise e → ∃ x, x ∈ l ∧ f x = Raise e.
Proof.
  induction l as [|x l IH]; [done|].
  change (map_result f (x :: l)) with (y ← f x; ys ← map_result f l; mret (y :: ys)).
  destruct (f x) as [y|e'] eqn:Hx; cbn.
  - destruct (map_result f l) as [ys|e'] eqn:Hl; cbn; [done|].
    intros [= ->]. destruct IH as (x' & Hin & Hx'); [done|].
    exists x'. split; [by apply list_elem_of_further|done].
  - intros [= ->]. exists x. split; [apply list_elem_of_here|done].
Qed.

Section Overflow.
Context `{Services}.

(** X3. No row, however malformed, makes the summary or the trend fail:
    rows they cannot read are skipped, the summary divides only by a count
    that is not zero and the trend only by the length of a month's list,
    which is never empty.  The one exception either tool can raise is the
    [OverflowError] of a quotient too large for a float. *)
Theorem averages_fail_only_on_overflow (input : string) (w : world) (e : exn) :
  returned (rating_summary_tool input w) = Raise e
  ∨ returned (sentiment_trend_tool input w) = Raise e →
  e = OverflowError "integer division result too large for a float".
Proof.
  intros [Hsummary|Htrend].
  - revert Hsummary. unfold rating_summary_tool. run_world.
    destruct (rating_totals _) as [total count].
    destruct (Z.eqb_spec count 0) as [|Hcount]; [done|].
    destruct (int_true_divide total count) as [x|e'] eqn:Hdiv; cbn; [done|].
    intros [= <-]. by eapply int_true_divide_raises.
  - revert Htrend. unfold sentiment_trend_tool. run_world.
    destruct (map_result _ _) as [lines|e'] eqn:Hlines; cbn; [done|].
    intros [= <-].
    apply map_result_raises in Hlines as (month & Hin & Hline).
    destruct (sorted_months_spec (reviews_data w)) as [_ Hmem].
    apply Hmem, ratings_in_month_nonempty in Hin.
    unfold trend_line in Hline. rewrite ratings_by_month_lookup in Hline.
    destruct (ratings_in_month month _) as [|r rs]; [done|].
    cbn [default] in Hline.
    destruct (int_true_divide _ _) as [x|e''] eqn:Hdiv; cbn in Hline; [done|].
    injection Hline as ->. eapply int_true_divide_raises; [|done]. done.
Qed.

End Overflow.

Lemma rating_summary_overflows :
  returned (rating_summary_tool ""
              (initial_world [review_row "Huge" "2024-03-01" (String "1" (zeros 400)) "fine"]))
  = Raise (OverflowError "integer division result too large for a float").
Proof. by vm_compute. Qed.

Lemma averages_fail_only_on_overflow_witness :
  let w := initial_world [review_row "Huge" "2024-03-01" (String "1" (zeros 400)) "fine"] in
  let e := OverflowError "integer division result too large for a float" in
  (returned (rating_summary_tool "" w) = Raise e
   ∨ returned (@sentiment_trend_tool sample_services "" w) = Raise e) ∧
  e = OverflowError "integer division result too large for a float".
Proof.
  split; [left; exact rating_summary_overflows|].
  exact (@averages_fail_only_on_overflow sample_services ""
           (initial_world [review_row "Huge" "2024-03-01" (String "1" (zeros 400)) "fine"])
           _ (or_introl rating_summary_overflows)).
Defined.

(** ** [int(str(n))] *)

Lemma pretty_N_char_digit n :
  (n < 10)%N →
  is_digit (pretty_N_char n) = true ∧
  digit_value (pretty_N_char n) = Some (Z.of_N n).
Proof.
  intros Hn.
  assert (n = 0 ∨ n = 1 ∨ n = 2 ∨ n = 3 ∨ n = 4 ∨ n = 5 ∨ n = 6 ∨ n = 7
          ∨ n = 8 ∨ n = 9)%N as Hcases by lia.
  repeat (destruct Hcases as [->|Hcases]; [by vm_compute|]). by subst n.
Qed.

Lemma digit_is_clean c :
  is_digit c = true →
  is_space c = false ∧ c ≠ "-"%char ∧ c ≠ "+"%char ∧ c ≠ "_"%char.
Proof. destruct c as [[] [] [] [] [] [] [] []]; by vm_compute. Qed.

(** The digits [str] writes in front of [s] are read back in front of what
    [s] reads as. *)
Lemma parse_digits_pretty_N_go x s k v :
  0 ≤ k →
  (∀ acc, parse_digits s acc false = Some (acc * 10 ^ k + v)) →
  ∃ k', 0 ≤ k' ∧
    ∀ acc, parse_digits (pretty_N_go x s) acc false
           = Some (acc * 10 ^ k' + (Z.of_N x * 10 ^ k + v)).
Proof.
  revert s k v. induction (N.lt_wf_0 x) as [x _ IH]; intros s k v Hk Hs.
  assert (x = 0 ∨ 0 < x)%N as [->|Hx] by lia.
  { rewrite pretty_N_go_0. exists k. split; [done|].
    intros acc. rewrite Hs. f_equal; lia. }
  rewrite pretty_N_go_step by done.
  destruct (pretty_N_char_digit (x `mod` 10)) as [Hdigit Hvalue].
  { by apply N.mod_lt. }
  destruct (IH (x `div` 10)%N) with
    (s := String (pretty_N_char (x `mod` 10)) s) (k := k + 1)
    (v := Z.of_N (x `mod` 10) * 10 ^ k + v) as (k' & Hk' & Hgo).
  - by apply N.div_lt.
  - lia.
  - intros acc. cbn [parse_digits].
    rewrite bool_decide_eq_false_2 by (by apply digit_is_clean).
    rewrite Hvalue, Hs. f_equal; rewrite Z.pow_add_r by lia; lia.
  - exists k'. split; [done|]. intros acc. rewrite Hgo. f_equal.
    rewrite Z.pow_add_r by lia.
    pose proof (N.div_mod x 10 ltac:(done)) as Hdm.
    apply (f_equal Z.of_N) in Hdm. rewrite N2Z.inj_add, N2Z.inj_mul in Hdm.
    change (Z.of_N 10) with 10 in Hdm. nia.
Qed.

Lemma pretty_N_go_digits x s :
  string_forall is_digit s = true → string_forall is_digit (pretty_N_go x s) = true.
Proof.
  revert s. induction (N.lt_wf_0 x) as [x _ IH]; intros s Hs.
  assert (x = 0 ∨ 0 < x)%N as [->|Hx] by lia; [by rewrite pretty_N_go_0|].
  rewrite pretty_N_go_step by done. apply IH; [by apply N.div_lt|].
  cbn. rewrite Hs, andb_true_r.
  apply pretty_N_char_digit. by apply N.mod_lt.
Qed.

Lemma digits_are_clean s :
  string_forall is_digit s = true →
  string_forall (λ c, negb (is_space c)) s = true.
Proof.
  induction s as [|c s IH]; [done|]. cbn.
  intros [Hc Hs]%andb_true_iff.
  destruct (digit_is_clean c Hc) as [-> _]. by rewrite IH.
Qed.

Lemma c_space_clean s :
  string_forall (λ c, negb (is_space c)) s = true →
  string_forall (λ c, negb (is_c_space c)) s = true.
Proof.
  induction s as [|c s IH]; [done|]. cbn.
  intros [Hc Hs]%andb_true_iff. rewrite IH by done.
  destruct (is_c_space c) eqn:Hcs; [|done].
  apply is_c_space_is_space in Hcs. by rewrite Hcs in Hc.
Qed.

(** The digits of a positive number: what [str] writes and [int] reads. *)
Lemma pretty_positive_digits (p : positive) :
  ∃ c s, pretty (Z.pos p) = String c s ∧
    string_forall is_digit (String c s) = true ∧
    parse_digits (String c s) 0 false = Some (Z.pos p).
Proof.
  change (pretty (Z.pos p)) with (pretty_N_go (N.pos p) "").
  destruct (parse_digits_pretty_N_go (N.pos p) "" 0 0) as (k' & _ & Hgo);
    [done|intros acc; cbn; f_equal; lia|].
  pose proof (pretty_N_go_digits (N.pos p) "" eq_refl) as Hdigits.
  specialize (Hgo 0).
  destruct (pretty_N_go (N.pos p) "") as [|c s]; [discriminate Hgo|].
  exists c, s. split_and!; [done|done|].
  rewrite Hgo. f_equal. cbn. lia.
Qed.

Lemma str_int_clean z :
  string_forall (λ c, negb (is_space c)) (str_int z) = true.
Proof.
  unfold str_int. destruct z as [|p|p]; [done| |].
  - destruct (pretty_positive_digits p) as (c & s & -> & Hd & _).
    by apply digits_are_clean.
  - change (pretty (Z.neg p)) with ("-" +:+ pretty (Z.pos p)).
    destruct (pretty_positive_digits p) as (c & s & -> & Hd & _).
    change ("-" +:+ String c s) with (String "-" (String c s)).
    change (negb (is_space "-")
            && string_forall (λ c, negb (is_space c)) (String c s) = true).
    by rewrite (digits_are_clean _ Hd).
Qed.

Lemma py_strip_str_int z : py_strip (str_int z) = str_int z.
Proof. apply strip_with_clean, str_int_clean. Qed.

(** The literal [str] writes is read back as the number. *)
Lemma parse_int_literal_str_int z :
  parse_int_literal (strip_with is_c_space (str_int z)) = Some z.
Proof.
  rewrite strip_with_clean by apply c_space_clean, str_int_clean.
  unfold str_int. destruct z as [|p|p]; [done| |].
  - destruct (pretty_positive_digits p) as (c & s & -> & Hd & Hp).
    cbn [string_forall] in Hd. apply andb_true_iff in Hd as [Hc _].
    destruct (digit_is_clean c Hc) as (_ & Hm & Hplus & Hus).
    unfold parse_int_literal, split_sign.
    rewrite !bool_decide_eq_false_2 by done. by rewrite Hp.
  - change (pretty (Z.neg p)) with ("-" +:+ pretty (Z.pos p)).
    destruct (pretty_positive_digits p) as (c & s & -> & Hd & Hp).
    change ("-" +:+ String c s) with (String "-" (String c s)).
    cbn [string_forall] in Hd. apply andb_true_iff in Hd as [Hc _].
    destruct (digit_is_clean c Hc) as (_ & Hm & Hplus & Hus).
    unfold parse_int_literal, split_sign.
    rewrite bool_decide_eq_true_2 by done.
    rewrite bool_decide_eq_false_2 by done. by rewrite Hp.
Qed.

Lemma count_digits_nonneg s : 0 ≤ count_digits s.
Proof. induction s as [|c s IH]; cbn; [done|]. destruct (is_digit c); lia. Qed.

(** The digits read after [acc] give a number that starts with [acc] and
    has as many more digits. *)
Lemma parse_digits_bound s acc prev_us z :
  0 ≤ acc → parse_digits s acc prev_us = Some z →
  acc * 10 ^ count_digits s ≤ z < (acc + 1) * 10 ^ count_digits s.
Proof.
  revert acc prev_us. induction s as [|c s IH]; intros acc prev_us Hacc.
  { cbn. destruct prev_us; [done|]. intros [= <-]. lia. }
  cbn [parse_digits count_digits]. pose proof (count_digits_nonneg s) as Hk.
  case_bool_decide as Hus.
  - subst c. destruct prev_us; [done|]. intros Hs.
    change (is_digit "_") with false. rewrite Z.add_0_l. by eapply IH.
  - unfold digit_value. destruct (is_digit c) eqn:Hd; [|done].
    intros Hs. apply IH in Hs.
    + assert (0 ≤ code c - 48 ≤ 9) as Hdigit.
      { unfold is_digit, char_between in Hd. lia. }
      rewrite Z.pow_add_r, Z.pow_1_r by lia.
      assert (0 < 10 ^ count_digits s) by (apply Z.pow_pos_nonneg; lia). nia.
    + unfold is_digit, char_between in Hd. lia.
Qed.

Lemma parse_int_literal_bound s z :
  parse_int_literal s = Some z → Z.abs z < 10 ^ count_digits s.
Proof.
  assert (∀ body (neg : bool),
            match body with
            | EmptyString => None
            | String c0 _ =>
                if bool_decide (c0 = "_"%char) then None
                else z' ← parse_digits body 0 false; Some (if neg then - z' else z')
            end = Some z →
            Z.abs z < 10 ^ count_digits body) as Hbody.
  { intros body neg. destruct body as [|c0 b]; [done|].
    case_bool_decide; [done|].
    destruct (parse_digits (String c0 b) 0 false) as [z'|] eqn:Hd; [|done].
    cbn [mbind option_bind]. intros [= <-].
    apply parse_digits_bound in Hd; [|done]. destruct neg; lia. }
  unfold parse_int_literal, split_sign.
  destruct s as [|c s]; [done|].
  case_bool_decide as Hm; [subst c; exact (Hbody s true)|].
  case_bool_decide as Hp; [subst c; exact (Hbody s false)|].
  exact (Hbody (String c s) false).
Qed.

(** A number below [10^k] is written on at most [k] digits. *)
Lemma pretty_N_go_count x s k :
  0 ≤ k → Z.of_N x < 10 ^ k →
  count_digits (pretty_N_go x s) ≤ count_digits s + k.
Proof.
  revert s k. induction (N.lt_wf_0 x) as [x _ IH]; intros s k Hk Hx.
  assert (x = 0 ∨ 0 < x)%N as [->|Hpos] by lia.
  { rewrite pretty_N_go_0. lia. }
  rewrite pretty_N_go_step by done.
  assert (1 ≤ k) as Hk1.
  { destruct (decide (k = 0)) as [->|]; [|lia]. change (10 ^ 0) with 1 in Hx. lia. }
  assert (Z.of_N (x `div` 10) < 10 ^ (k - 1)) as Hdiv.
  { rewrite N2Z.inj_div. change (Z.of_N 10) with 10.
    apply Z.div_lt_upper_bound; [lia|].
    replace (10 * 10 ^ (k - 1)) with (10 ^ k); [done|].
    replace k with (1 + (k - 1)) at 1 by lia.
    rewrite Z.pow_add_r by lia. done. }
  pose proof (IH (x `div` 10)%N ltac:(by apply N.div_lt)
                (String (pretty_N_char (x `mod` 10)) s) (k - 1) ltac:(lia) Hdiv) as Hle.
  cbn [count_digits] in Hle.
  destruct (is_digit (pretty_N_char (x `mod` 10))); lia.
Qed.

Lemma count_digits_str_int z k :
  1 ≤ k → Z.abs z < 10 ^ k → count_digits (str_int z) ≤ k.
Proof.
  intros Hk Hz. unfold str_int. destruct z as [|p|p].
  - change (count_digits (pretty 0)) with 1. lia.
  - change (pretty (Z.pos p)) with (pretty_N_go (N.pos p) "").
    pose proof (pretty_N_go_count (N.pos p) "" k ltac:(lia) ltac:(lia)) as Hle.
    cbn [count_digits] in Hle. lia.
  - change (pretty (Z.neg p)) with ("-" +:+ pretty_N_go (N.pos p) "").
    change (count_digits ("-" +:+ pretty_N_go (N.pos p) ""))
      with (0 + count_digits (pretty_N_go (N.pos p) "")).
    pose proof (pretty_N_go_count (N.pos p) "" k ltac:(lia) ltac:(lia)) as Hle.
    cbn [count_digits] in Hle. lia.
Qed.

(** [int(str(z)) == z], for a number within the limit on digits. *)
Lemma py_int_str_int z :
  count_digits (str_int z) ≤ int_max_str_digits → py_int (str_int z) = Some z.
Proof.
  intros Hfits. apply py_int_Some. split; [|apply parse_int_literal_str_int].
  by rewrite strip_with_clean by apply c_space_clean, str_int_clean.
Qed.

(** [int(str(z))] is [z] or fails. *)
Lemma py_int_str_int_inv z r : py_int (str_int z) = Some r → r = z.
Proof.
  intros [_ Hr]%py_int_Some. rewrite parse_int_literal_str_int in Hr. congruence.
Qed.

(** A number that [int] has read from a text is read back from what [str]
    writes for it. *)
Lemma py_int_round_trip s z : py_int s = Some z → py_int (str_int z) = Some z.
Proof.
  intros [Hfits Hs]%py_int_Some. apply py_int_str_int.
  apply parse_int_literal_bound in Hs.
  destruct (decide (z = 0)) as [->|Hz]; [by vm_compute|].
  pose proof (count_digits_nonneg (strip_with is_c_space s)) as Hk.
  assert (1 ≤ count_digits (strip_with is_c_space s)) as Hk1.
  { destruct (decide (count_digits (strip_with is_c_space s) = 0)) as [Hk0|]; [|lia].
    rewrite Hk0 in Hs. change (10 ^ 0) with 1 in Hs. lia. }
  pose proof (count_digits_str_int z _ Hk1 Hs). lia.
Qed.

Lemma str_int_inj a b : str_int a = str_int b → a = b.
Proof. apply pretty_Z_inj. Qed.

(** ** Counting by rating *)

Lemma canonical_rating_text review z :
  review !! "Rating" = Some (Some (str_int z)) →
  rating_text review = str_int z ∧ parsed_rating review = py_int (str_int z).
Proof.
  intros Hr. unfold rating_text, dict_get, parsed_rating. rewrite Hr.
  cbn [str_value]. by rewrite py_strip_str_int.
Qed.

(** X4. On an input that reads as the integer [rating] (within the
    interpreter's limit of 4300 digits on conversions between [int] and
    [str]), [count_rating_tool]
    answers with a count that is at most the number of rows and with the
    number as [str] writes it, whatever sign, zeros or whitespace the input
    had; it leaves the world alone; and the number it echoes, given back as
    the input, gets the same answer. *)
Theorem count_rating_reply_round_trip (input : string) (rating : Z) (w : world) :
  Z.of_nat (String.length input) ≤ 4300 →
  py_int (py_strip input) = Some rating →
  ∃ count : nat,
    (count ≤ length (reviews_data w))%nat ∧
    count_rating_tool input w
    = (Ok (str_int (Z.of_nat count) +:+ " customers gave a " +:+ str_int rating
           +:+ "-star rating."), w) ∧
    count_rating_tool (str_int rating) w = count_rating_tool input w.
Proof.
  intros _ Hint. unfold count_rating_tool.
  rewrite Hint, py_strip_str_int, (py_int_round_trip _ _ Hint).
  eexists. split_and!; [|done|done]. apply length_filter.
Qed.

Lemma count_rating_reply_round_trip_witness :
  let w := initial_world sample_reviews in
  Z.of_nat (String.length " +05 ") ≤ 4300 ∧
  py_int (py_strip " +05 ") = Some 5 ∧
  ∃ count : nat,
    (count ≤ length (reviews_data w))%nat ∧
    count_rating_tool " +05 " w
    = (Ok (str_int (Z.of_nat count) +:+ " customers gave a " +:+ str_int 5
           +:+ "-star rating."), w) ∧
    count_rating_tool (str_int 5) w = count_rating_tool " +05 " w.
Proof.
  split; [by vm_compute|]. split; [reflexivity|].
  apply (count_rating_reply_round_trip " +05 " 5 (initial_world sample_reviews));
    [by vm_compute|reflexivity].
Defined.

(** X5. The count is by text: a row is counted when its rating, stripped,
    is the text [str] gives the number.  On a store whose ratings are all
    written that way, this is the count by value: the number of rows whose
    rating, read as an integer, is the number asked for. *)
Theorem count_rating_counts_by_value (input : string) (rating : Z) (w : world) :
  Z.of_nat (String.length input) ≤ 4300 →
  py_int (py_strip input) = Some rating →
  Forall canonical_rating (reviews_data w) →
  returned (count_rating_tool input w)
  = Ok (str_int (Z.of_nat (length (filter (λ review, parsed_rating review = Some rating)
                                     (reviews_data w))))
        +:+ " customers gave a " +:+ str_int rating +:+ "-star rating.").
Proof.
  intros _ Hint Hrows. unfold count_rating_tool. rewrite Hint. run_world.
  do 4 f_equal. induction Hrows as [|review reviews [z Hz] _ IH]; [done|].
  destruct (canonical_rating_text _ _ Hz) as [Htext Hparsed].
  rewrite !filter_cons, Htext, Hparsed.
  destruct (decide (z = rating)) as [->|Hne].
  - rewrite !decide_True; [|by apply (py_int_round_trip (py_strip input))|done].
    cbn. by rewrite IH.
  - rewrite !decide_False; [done| |]; [by intros ?%py_int_str_int_inv|].
    intros Heq%str_int_inj. done.
Qed.

Lemma tidy_reviews_canonical : Forall canonical_rating tidy_reviews.
Proof.
  unfold tidy_reviews. repeat apply Forall_cons_2; [| |  |apply Forall_nil_2].
  - by exists 5.
  - by exists 4.
  - by exists 5.
Qed.

Lemma count_rating_counts_by_value_witness :
  let w := initial_world tidy_reviews in
  Z.of_nat (String.length "5") ≤ 4300 ∧
  py_int (py_strip "5") = Some 5 ∧
  Forall canonical_rating (reviews_data w) ∧
  returned (count_rating_tool "5" w)
  = Ok (str_int (Z.of_nat (length (filter (λ review, parsed_rating review = Some 5)
                                     (reviews_data w))))
        +:+ " customers gave a " +:+ str_int 5 +:+ "-star rating.").
Proof.
  split; [by vm_compute|]. split; [reflexivity|].
  split; [exact tidy_reviews_canonical|].
  apply (count_rating_counts_by_value "5" 5 (initial_world tidy_reviews));
    [by vm_compute|reflexivity|exact tidy_reviews_canonical].
Defined.

(** The count by text and the count by value part on a rating written
    [05]: the summary reads it as a five, the counter does not count it. *)
Lemma count_rating_leading_zero :
  let w := initial_world [review_row "Zero" "2024-03-01" "05" "fine"] in
  omap parsed_rating (reviews_data w) = [5] ∧
  returned (count_rating_tool "5" w) = Ok "0 customers gave a 5-star rating.".
Proof. by vm_compute. Qed.




(** ** Rows that lack a column *)

Lemma search_loop_app query before rest results :
  Forall complete_row before →
  search_loop query (before ++ rest) results
  = search_loop query rest
      (results ++ map review_line (filter (matches_query query) before)).
Proof.
  intros Hrows. revert results.
  induction Hrows as [|review reviews Hr _ IH]; intros results.
  { cbn. by rewrite app_nil_r. }
  cbn [app search_loop]. destruct (Hr) as (_ & _ & _ & Hb).
  rewrite (getitem_text _ _ Hb). cbn.
  destruct (py_contains _ _) eqn:Hc.
  - rewrite (format_review_complete _ Hr). cbn. rewrite IH.
    rewrite decide_True by done. by rewrite <- app_assoc.
  - rewrite IH. rewrite decide_False; [done|].
    unfold matches_query. by rewrite Hc.
Qed.

Lemma fold_left_if_bump (p : string → bool) (P : string → Prop)
    `{∀ word, Decision (P word)} (words : list string) (kw : list (string * Z)) :
  (∀ word, p word = true ↔ P word) →
  fold_left (λ kw word, if p word then bump word kw else kw) words kw
  = fold_left (λ kw word, bump word kw) (filter P words) kw.
Proof.
  intros HpP. revert kw. induction words as [|word words IH]; intros kw; [done|].
  cbn [fold_left]. rewrite filter_cons.
  destruct (p word) eqn:Hp.
  - rewrite decide_True by (by apply HpP). cbn [fold_left]. apply IH.
  - rewrite decide_False; [apply IH|]. intros HP%HpP. congruence.
Qed.

Lemma mention_tokens_cons review reviews :
  mention_tokens (review :: reviews)
  = mention_words (text "Review" review) ++ mention_tokens reviews.
Proof. done. Qed.

Lemma most_mentioned_loop_app before rest word_freq :
  Forall complete_row before →
  most_mentioned_loop (before ++ rest) word_freq
  = most_mentioned_loop rest
      (fold_left (λ kw word, bump word kw) (mention_tokens before) word_freq).
Proof.
  intros Hrows. revert word_freq.
  induction Hrows as [|review reviews Hr _ IH]; intros word_freq; [done|].
  destruct (Hr) as (_ & _ & _ & Hbody).
  cbn [app most_mentioned_loop]. rewrite (getitem_text _ _ Hbody). cbn.
  rewrite IH, mention_tokens_cons, fold_left_app. do 2 f_equal.
  apply fold_left_if_bump. intros word.
  rewrite andb_true_iff, Z.ltb_lt. done.
Qed.

Lemma most_mentioned_loop_complete reviews word_freq :
  Forall complete_row reviews →
  most_mentioned_loop reviews word_freq
  = Ok (fold_left (λ kw word, bump word kw) (mention_tokens reviews) word_freq).
Proof.
  intros Hrows.
  rewrite <- (app_nil_r reviews) at 1.
  by rewrite (most_mentioned_loop_app _ _ _ Hrows).
Qed.

Lemma py_contains_empty hay : py_contains "" hay = true.
Proof. by destruct hay. Qed.

Lemma safe_tool_returned tool_func input w e :
  returned (tool_func input w) = Raise e →
  returned (safe_tool tool_func input w) = Ok ("[Tool Error] " +:+ str_exn e).
Proof.
  unfold returned. rewrite safe_tool_run.
  destruct (tool_func input w) as [[s|e'] w']; cbn; [done|]. by intros [= ->].
Qed.

(** X7. [top_rated_comments_tool] cuts the list before it formats it: only
    the reviews it shows need their title, date and body.  On a store whose
    ratings are ASCII text and for an input that reads as [n], when the
    shown reviews, the first [n] five-star ones (all but the last [-n] for
    a negative [n]), are complete, it returns their lines, whatever the
    other rows of the store lack. *)
Theorem top_rated_reads_only_shown_rows (input : string) (n : Z) (w : world) :
  py_int input = Some n →
  Forall (ascii_column "Rating") (reviews_data w) →
  let shown := py_slice_to n (five_star (reviews_data w)) in
  Forall complete_row shown →
  returned (top_rated_comments_tool input w)
  = Ok (if bool_decide (shown = []) then "No top rated reviews found."
        else py_join (newline +:+ newline) (map review_line shown)).
Proof.
  intros Hint _ shown Hshown. unfold top_rated_comments_tool. rewrite Hint.
  run_world. fold (five_star (reviews_data w)). fold shown.
  case_bool_decide; [done|].
  by rewrite (map_result_complete _ Hshown).
Qed.

Lemma untitled_reviews_shown :
  py_slice_to 1 (five_star (reviews_data (initial_world untitled_reviews)))
  = [review_row "Great" "2024-01-15" "5" "The PASTA was great!"].
Proof.
  unfold five_star, untitled_reviews, initial_world. cbn [reviews_data].
  rewrite !filter_cons_True by reflexivity. reflexivity.
Qed.

Lemma top_rated_reads_only_shown_rows_witness :
  let w := initial_world untitled_reviews in
  let shown := py_slice_to 1 (five_star (reviews_data w)) in
  length (five_star (reviews_data w)) = 2%nat ∧
  py_int "1" = Some 1 ∧
  Forall (ascii_column "Rating") (reviews_data w) ∧
  Forall complete_row shown ∧
  returned (top_rated_comments_tool "1" w)
  = Ok (if bool_decide (shown = []) then "No top rated reviews found."
        else py_join (newline +:+ newline) (map review_line shown)).
Proof.
  assert (Forall complete_row
            (py_slice_to 1 (five_star (reviews_data (initial_world untitled_reviews)))))
    as Hshown.
  { rewrite untitled_reviews_shown.
    apply Forall_cons_2; [apply complete_row_review_row|apply Forall_nil_2]. }
  assert (Forall (ascii_column "Rating") (reviews_data (initial_world untitled_reviews)))
    as Hascii.
  { unfold untitled_reviews, initial_world. cbn [reviews_data].
    repeat apply Forall_cons_2; [reflexivity..|apply Forall_nil_2]. }
  split; [reflexivity|]. split; [reflexivity|]. split; [exact Hascii|].
  split; [exact Hshown|].
  exact (top_rated_reads_only_shown_rows "1" 1 (initial_world untitled_reviews)
           eq_refl Hascii Hshown).
Defined.

(** X8. The empty query matches every review: on a store of complete rows
    the search for [""] returns the lines of the first three reviews of the
    store, and the no-results text only when the store is empty. *)
Theorem search_empty_query_lists_first_three (w : world) :
  Forall complete_row (reviews_data w) →
  returned (search_reviews_tool "" w)
  = Ok (if bool_decide (reviews_data w = []) then "No reviews found matching your query."
        else py_join (newline +:+ newline) (map review_line (take 3 (reviews_data w)))).
Proof.
  intros Hrows. unfold search_reviews_tool. run_world.
  rewrite (search_loop_complete _ _ _ Hrows). cbn.
  assert (filter (matches_query "") (reviews_data w) = reviews_data w) as ->.
  { clear Hrows. induction (reviews_data w) as [|review reviews IH]; [done|].
    rewrite filter_cons_True; [by rewrite IH|].
    unfold matches_query. apply py_contains_empty. }
  destruct (reviews_data w) as [|r rest]; [done|].
  rewrite !bool_decide_eq_false_2 by done.
  cbn. by rewrite <- fmap_take.
Qed.

Lemma search_empty_query_lists_first_three_witness :
  let w := initial_world sample_reviews in
  Forall complete_row (reviews_data w) ∧
  returned (search_reviews_tool "" w)
  = Ok (if bool_decide (reviews_data w = []) then "No reviews found matching your query."
        else py_join (newline +:+ newline) (map review_line (take 3 (reviews_data w)))).
Proof.
  split; [exact sample_reviews_complete|].
  exact (search_empty_query_lists_first_three (initial_world sample_reviews)
           sample_reviews_complete).
Defined.

(** X9. The search and the most-mentioned tool read the [Review] column of
    every row.  At the first row that has no such column, the rows before
    it being complete, both raise [KeyError]; at the first row whose
    [Review] is [None], as [csv.DictReader] leaves the columns a short line
    does not reach, both raise [AttributeError]; and the tools as
    registered return the error text. *)
Theorem review_column_is_required (input : string) (w : world)
    (before after : list row) (review : row) :
  reviews_data w = before ++ review :: after →
  Forall complete_row before →
  (review !! "Review" = None →
     returned (search_reviews_tool input w) = Raise (KeyError "Review") ∧
     returned (most_mentioned_dish_tool input w) = Raise (KeyError "Review") ∧
     returned (safe_tool search_reviews_tool input w) = Ok "[Tool Error] 'Review'" ∧
     returned (safe_tool most_mentioned_dish_tool input w) = Ok "[Tool Error] 'Review'") ∧
  (review !! "Review" = Some None →
     returned (search_reviews_tool input w) = Raise (no_attribute "lower") ∧
     returned (most_mentioned_dish_tool input w) = Raise (no_attribute "lower") ∧
     returned (safe_tool search_reviews_tool input w)
     = Ok "[Tool Error] 'NoneType' object has no attribute 'lower'" ∧
     returned (safe_tool most_mentioned_dish_tool input w)
     = Ok "[Tool Error] 'NoneType' object has no attribute 'lower'").
Proof.
  intros Hstore Hbefore.
  split; intros Hreview.
  - assert (returned (search_reviews_tool input w) = Raise (KeyError "Review")) as Hs.
    { unfold search_reviews_tool. run_world.
      rewrite Hstore, (search_loop_app _ _ _ _ Hbefore).
      cbn [search_loop]. unfold getitem. by rewrite Hreview. }
    assert (returned (most_mentioned_dish_tool input w) = Raise (KeyError "Review")) as Hm.
    { unfold most_mentioned_dish_tool. run_world.
      rewrite Hstore, (most_mentioned_loop_app _ _ _ Hbefore).
      cbn [most_mentioned_loop]. unfold getitem. by rewrite Hreview. }
    split_and!; [done|done| |].
    + exact (safe_tool_returned _ _ _ _ Hs).
    + exact (safe_tool_returned _ _ _ _ Hm).
  - assert (returned (search_reviews_tool input w) = Raise (no_attribute "lower")) as Hs.
    { unfold search_reviews_tool. run_world.
      rewrite Hstore, (search_loop_app _ _ _ _ Hbefore).
      cbn [search_loop]. unfold getitem. by rewrite Hreview. }
    assert (returned (most_mentioned_dish_tool input w) = Raise (no_attribute "lower")) as Hm.
    { unfold most_mentioned_dish_tool. run_world.
      rewrite Hstore, (most_mentioned_loop_app _ _ _ Hbefore).
      cbn [most_mentioned_loop]. unfold getitem. by rewrite Hreview. }
    split_and!; [done|done| |].
    + exact (safe_tool_returned _ _ _ _ Hs).
    + exact (safe_tool_returned _ _ _ _ Hm).
Qed.

Lemma review_column_is_required_witness :
  let w := initial_world bodiless_reviews in
  let before := [review_row "Great" "2024-01-15" "5" "The PASTA was great!"] in
  let review : row := {["Title" := Some "Lunch"]} in
  reviews_data w = before ++ review :: [] ∧
  Forall complete_row before ∧
  review !! "Review" = None ∧
  returned (search_reviews_tool "pasta" w) = Raise (KeyError "Review") ∧
  returned (most_mentioned_dish_tool "pasta" w) = Raise (KeyError "Review") ∧
  returned (safe_tool search_reviews_tool "pasta" w) = Ok "[Tool Error] 'Review'" ∧
  returned (safe_tool most_mentioned_dish_tool "pasta" w) = Ok "[Tool Error] 'Review'".
Proof.
  assert (Forall complete_row [review_row "Great" "2024-01-15" "5" "The PASTA was great!"])
    as Hbefore
    by (apply Forall_cons_2; [apply complete_row_review_row|apply Forall_nil_2]).
  split; [reflexivity|]. split; [exact Hbefore|]. split; [reflexivity|].
  exact (proj1 (review_column_is_required "pasta" (initial_world bodiless_reviews)
                  [review_row "Great" "2024-01-15" "5" "The PASTA was great!"] []
                  {["Title" := Some "Lunch"]} eq_refl Hbefore)
           eq_refl).
Defined.

(** X10. The search formats every review that matches before it keeps the
    first three: a matching review without a [Title], wherever it stands
    after complete rows, makes the search raise [KeyError], and the search
    as registered return the error text, also when three matches stand
    before it.  (The query and the body of that review are ASCII text.) *)
Theorem search_formats_every_match (query : string) (w : world)
    (before after : list row) (review : row) :
  reviews_data w = before ++ review :: after →
  Forall complete_row before →
  py_isascii query = true → ascii_column "Review" review →
  has_text "Review" review → matches_query query review →
  review !! "Title" = None →
  returned (search_reviews_tool query w) = Raise (KeyError "Title") ∧
  returned (safe_tool search_reviews_tool query w) = Ok "[Tool Error] 'Title'".
Proof.
  intros Hstore Hbefore _ _ Hbody Hmatch Htitle.
  assert (returned (search_reviews_tool query w) = Raise (KeyError "Title")) as Hs.
  { unfold search_reviews_tool. run_world.
    rewrite Hstore, (search_loop_app _ _ _ _ Hbefore).
    cbn [search_loop]. rewrite (getitem_text _ _ Hbody). cbn.
    unfold matches_query in Hmatch. rewrite Hmatch.
    unfold format_review, getitem. by rewrite Htitle. }
  split; [done|]. exact (safe_tool_returned _ _ _ _ Hs).
Qed.

Lemma search_formats_every_match_witness :
  let w := initial_world untitled_reviews in
  let before := [review_row "Great" "2024-01-15" "5" "The PASTA was great!"] in
  let review : row := {["Rating" := Some "5"; "Review" := Some "More pasta, please"]} in
  reviews_data w = before ++ review :: [] ∧
  Forall complete_row before ∧
  py_isascii "Pasta" = true ∧ ascii_column "Review" review ∧
  has_text "Review" review ∧ matches_query "Pasta" review ∧
  review !! "Title" = None ∧
  returned (search_reviews_tool "Pasta" w) = Raise (KeyError "Title") ∧
  returned (safe_tool search_reviews_tool "Pasta" w) = Ok "[Tool Error] 'Title'".
Proof.
  assert (Forall complete_row [review_row "Great" "2024-01-15" "5" "The PASTA was great!"])
    as Hbefore
    by (apply Forall_cons_2; [apply complete_row_review_row|apply Forall_nil_2]).
  assert (has_text "Review"
            ({["Rating" := Some "5"; "Review" := Some "More pasta, please"]} : row))
    as Hbody by (by eexists).
  assert (matches_query "Pasta"
            ({["Rating" := Some "5"; "Review" := Some "More pasta, please"]} : row))
    as Hmatch by (by vm_compute).
  split; [reflexivity|]. split; [exact Hbefore|].
  split; [reflexivity|]. split; [reflexivity|]. split; [exact Hbody|].
  split; [exact Hmatch|]. split; [reflexivity|].
  exact (search_formats_every_match "Pasta" (initial_world untitled_reviews)
           [review_row "Great" "2024-01-15" "5" "The PASTA was great!"] []
           {["Rating" := Some "5"; "Review" := Some "More pasta, please"]}
           eq_refl Hbefore eq_refl eq_refl Hbody Hmatch eq_refl).
Defined.

(** ** The most mentioned term *)

(** [max] keeps the first of the entries of greatest count. *)
Lemma max_by_count_first (P : relation (string * Z)) seen best others :
  StronglySorted P (seen ++ others) →
  best ∈ seen →
  (∀ y, y ∈ seen → y = best ∨ count_then P best y) →
  let top := max_by_count best others in
  top ∈ seen ++ others ∧
  ∀ y, y ∈ seen ++ others → y = top ∨ count_then P top y.
Proof.
  unfold max_by_count.
  revert seen best. induction others as [|z rest IH]; intros seen best Hsorted Hbest Hseen.
  { cbn. rewrite app_nil_r. auto. }
  cbn [fold_left].
  replace (seen ++ z :: rest) with ((seen ++ [z]) ++ rest) in *
    by (by rewrite <- app_assoc).
  assert (best ∈ seen ++ [z]) as Hbest' by (apply elem_of_app; by left).
  assert (z ∈ seen ++ [z]) as Hz by (apply elem_of_app; right; apply list_elem_of_here).
  destruct (Z.ltb_spec best.2 z.2) as [Hlt|Hge].
  - apply IH; [done|done|].
    intros y [Hy| ->%list_elem_of_singleton]%elem_of_app; [|by left].
    right. left. destruct (Hseen y Hy) as [->|Hc]; [done|].
    apply count_then_le in Hc. lia.
  - apply IH; [done|done|].
    intros y [Hy| ->%list_elem_of_singleton]%elem_of_app; [by apply Hseen|].
    right. unfold count_then.
    destruct (decide (z.2 = best.2)) as [Heq|Hne]; [|left; lia].
    right. split; [done|].
    apply StronglySorted_app_1_l in Hsorted.
    eapply StronglySorted_app_1_elem_of; [done|done|apply list_elem_of_here].
Qed.

(** X11. On a store of complete rows whose bodies are ASCII text,
    [most_mentioned_dish_tool] counts the alphabetic words of more than
    three letters of the lowercased bodies of all reviews.  With no such
    word it returns ["No mentions found."];
    otherwise it names one of the words with its number of occurrences, and
    that word ranks before every other: it occurs more often, or as often
    and is met earlier in reading order. *)
Theorem most_mentioned_is_first_most_frequent (input : string) (w : world) :
  Forall complete_row (reviews_data w) →
  Forall (ascii_column "Review") (reviews_data w) →
  let tokens := mention_tokens (reviews_data w) in
  (tokens = [] →
     returned (most_mentioned_dish_tool input w) = Ok "No mentions found.") ∧
  (tokens ≠ [] →
     ∃ term, term ∈ tokens ∧
       returned (most_mentioned_dish_tool input w)
       = Ok ("The most mentioned term in reviews is '" +:+ term +:+ "' with "
             +:+ str_int (occurrences term tokens) +:+ " mentions.") ∧
       ∀ other, other ∈ tokens → other ≠ term → ranks_before tokens term other).
Proof.
  intros Hrows _ tokens.
  unfold most_mentioned_dish_tool. run_world.
  rewrite (most_mentioned_loop_complete _ _ Hrows), fold_bump_counted. cbn.
  fold tokens. split.
  - by intros ->.
  - intros Hne.
    destruct (counted tokens) as [|first others] eqn:Hcounted.
    { destruct tokens as [|t ts]; [done|]. discriminate Hcounted. }
    pose proof (counted_sorted tokens) as Hsorted. rewrite Hcounted in Hsorted.
    destruct (max_by_count_first _ [first] first others Hsorted) as [Hin Hmax].
    { apply list_elem_of_here. }
    { intros y ->%list_elem_of_singleton. by left. }
    cbn [app] in Hin, Hmax. rewrite <- Hcounted in Hin, Hmax.
    destruct (max_by_count first others) as [term c].
    apply elem_of_counted in Hin as [Hterm ->].
    exists term. split_and!; [done|done|].
    intros other Hother Hneq.
    destruct (Hmax (other, occurrences other tokens)) as [[= ?]|Hc].
    + by apply elem_of_counted.
    + done.
    + unfold count_then in Hc. unfold ranks_before. cbn [fst snd] in Hc. lia.
Qed.

Lemma most_mentioned_is_first_most_frequent_witness :
  let w := initial_world sample_reviews in
  let tokens := mention_tokens (reviews_data w) in
  Forall complete_row (reviews_data w) ∧
  Forall (ascii_column "Review") (reviews_data w) ∧
  (tokens = [] →
     returned (most_mentioned_dish_tool "" w) = Ok "No mentions found.") ∧
  (tokens ≠ [] →
     ∃ term, term ∈ tokens ∧
       returned (most_mentioned_dish_tool "" w)
       = Ok ("The most mentioned term in reviews is '" +:+ term +:+ "' with "
             +:+ str_int (occurrences term tokens) +:+ " mentions.") ∧
       ∀ other, other ∈ tokens → other ≠ term → ranks_before tokens term other).
Proof.
  split; [exact sample_reviews_complete|].
  split; [exact (sample_reviews_ascii "Review")|].
  exact (most_mentioned_is_first_most_frequent "" (initial_world sample_reviews)
           sample_reviews_complete (sample_reviews_ascii "Review")).
Defined.

(** The most mentioned term of the sample file, where [pasta], [service]
    and [slow] all occur twice and [pasta] is met first, and of a file
    whose words are all short. *)
Lemma most_mentioned_sample :
  returned (most_mentioned_dish_tool "" (initial_world sample_reviews))
  = Ok "The most mentioned term in reviews is 'pasta' with 2 mentions." ∧
  returned (most_mentioned_dish_tool ""
              (initial_world [review_row "Top" "2023-12-30" "5" "So so, but not bad"]))
  = Ok "No mentions found.".
Proof. by vm_compute. Qed.

(** ** The final answer *)

Lemma rstrip_with_all p s : string_forall p s = true → rstrip_with p s = "".
Proof.
  induction s as [|c s IH]; [done|]. cbn.
  intros [Hc Hs]%andb_true_iff. by rewrite IH, Hc.
Qed.

Lemma strip_with_all p s : string_forall p s = true → strip_with p s = "".
Proof. intros Hs. unfold strip_with. by rewrite rstrip_with_all. Qed.

(** X12. On an ASCII text, [final_answer_tool] never raises and leaves
    the world alone, and its answer is trimmed: stripping it again changes
    nothing.  The answer is the fixed text ["No final answer provided."]
    exactly when the input is empty or is that text up to surrounding
    whitespace; an input that is not empty and is all whitespace gets the
    empty answer, not the fixed text. *)
Theorem final_answer_is_trimmed (text : string) (w : world) :
  py_isascii text = true →
  ∃ answer,
    final_answer_tool text w = (Ok answer, w) ∧
    py_strip answer = answer ∧
    (answer = "No final answer provided."
     ↔ text = "" ∨ py_strip text = "No final answer provided.") ∧
    (text ≠ "" → string_forall is_space text = true → answer = "").
Proof.
  intros _. unfold final_answer_tool. destruct text as [|c text].
  - eexists. split_and!; [done|by vm_compute|by split; [left|]|done].
  - exists (py_strip (String c text)). cbn [is_empty]. split_and!.
    + done.
    + apply py_strip_idemp.
    + split; [by right|]. by intros [?|?].
    + intros _ Hs. by apply strip_with_all.
Qed.

Lemma final_answer_is_trimmed_witness :
  let text := " The food is good." +:+ newline in
  let w := initial_world sample_reviews in
  py_isascii text = true ∧
  final_answer_tool text w = (Ok "The food is good.", w) ∧
  ∃ answer,
    final_answer_tool text w = (Ok answer, w) ∧
    py_strip answer = answer ∧
    (answer = "No final answer provided."
     ↔ text = "" ∨ py_strip text = "No final answer provided.") ∧
    (text ≠ "" → string_forall is_space text = true → answer = "").
Proof.
  split; [reflexivity|]. split; [reflexivity|].
  exact (final_answer_is_trimmed (" The food is good." +:+ newline)
           (initial_world sample_reviews) eq_refl).
Defined.

(** ** What the mail tool sends *)

Lemma error_text_prefix s :
  String.prefix "[SendMail Error] " ("[SendMail Error] " +:+ s) = true.
Proof. by destruct s; vm_compute. Qed.

Lemma success_text_prefix s :
  String.prefix "[SendMail Error] " ("Email sent successfully to " +:+ s) = false.
Proof. by vm_compute. Qed.

Section MailOutcomes.
Context `{Services}.

(** The outcomes of the [try] block: the message went out and the block
    returned; or it raised with nothing sent; or closing the connection
    raised, after a failure or after the message went out. *)
Lemma send_mail_attempt_cases (input_str : string) (w : world) :
  (∃ d to_addr,
     json_loads input_str = Ok (JDict d) ∧ d !! "to" = Some to_addr ∧
     send_mail_attempt input_str w
     = (Ok ("Email sent successfully to " +:+ json_str to_addr),
        mailed [message_of d to_addr] w))
  ∨ (∃ e, send_mail_attempt input_str w = (Raise e, w))
  ∨ (∃ d to_addr e,
       json_loads input_str = Ok (JDict d) ∧ d !! "to" = Some to_addr ∧
       smtp_quit = Raise e ∧
       (send_mail_attempt input_str w = (Raise e, w)
        ∨ send_mail_attempt input_str w = (Raise e, mailed [message_of d to_addr] w))).
Proof.
  unfold send_mail_attempt. run_world.
  destruct (json_loads input_str) as [data|e] eqn:Hjson; [|eauto].
  destruct data as [ | | | | | |d]; cbn; eauto.
  destruct (d !! "to") as [to_addr|] eqn:Hto; cbn; [|eauto].
  fold (message_of d to_addr).
  destruct (email_accepts _); cbn; [|eauto].
  destruct smtp_connect; cbn; [|eauto].
  destruct (smtp_login _ _); cbn.
  - destruct (smtp_send_message _); cbn.
    + fold (mailed [message_of d to_addr] w).
      destruct smtp_quit as [[]|e] eqn:Hquit; cbn.
      * left. by exists d, to_addr.
      * right. right. exists d, to_addr, e. eauto.
    + destruct smtp_quit as [[]|e'] eqn:Hquit; cbn; [eauto|].
      right. right. exists d, to_addr, e'. eauto.
  - destruct smtp_quit as [[]|e'] eqn:Hquit; cbn; [eauto|].
    right. right. exists d, to_addr, e'. eauto.
Qed.

(** X13. A reply of [send_mail_tool] that is not an error text tells the
    truth: the input was a JSON object with a [to] member, the reply is the
    success text ending in that recipient, and exactly one message went
    out, from [GMAIL_USER] to that recipient, carrying the [subject] and
    the [body] of the object or, for a member left out, ["No Subject"] and
    the empty body; nothing else in the world changed. *)
Theorem send_mail_success_means_sent (input_str reply : string) (w : world) :
  returned (send_mail_tool input_str w) = Ok reply →
  String.prefix "[SendMail Error] " reply = false →
  ∃ d to_addr,
    json_loads input_str = Ok (JDict d) ∧ d !! "to" = Some to_addr ∧
    reply = "Email sent successfully to " +:+ json_str to_addr ∧
    world_after (send_mail_tool input_str w) = mailed [message_of d to_addr] w.
Proof.
  rewrite send_mail_tool_run.
  destruct (send_mail_attempt_cases input_str w)
    as [(d & to_addr & Hjson & Hto & ->)|[[e ->]|(d & to_addr & e & _ & _ & _ & [->| ->])]];
    cbn; intros [= <-] Hprefix;
    try (by rewrite error_text_prefix in Hprefix).
  by exists d, to_addr.
Qed.

(** X14. Whatever the input and whatever the relay does, one call of
    [send_mail_tool] sends at most one message and changes nothing else in
    the world; and when closing the connection does not fail, an error
    reply means that nothing was sent.  (When it fails, the reply is an
    error text although the message may have gone out.) *)
Theorem send_mail_sends_at_most_once (input_str : string) (w : world) :
  (∃ sent, (length sent ≤ 1)%nat ∧
     world_after (send_mail_tool input_str w) = mailed sent w) ∧
  (∀ reply, returned (send_mail_tool input_str w) = Ok reply →
     String.prefix "[SendMail Error] " reply = true →
     smtp_quit = Ok () →
     world_after (send_mail_tool input_str w) = w).
Proof.
  rewrite send_mail_tool_run.
  destruct (send_mail_attempt_cases input_str w)
    as [(d & to_addr & Hjson & Hto & ->)|[[e ->]|(d & to_addr & e & _ & _ & Hquit & [->| ->])]];
    cbn; (split; [|intros reply [= <-] Hprefix Hq]).
  - exists [message_of d to_addr]. by split; [cbn; lia|].
  - by rewrite success_text_prefix in Hprefix.
  - exists []. split; [cbn; lia|by rewrite mailed_nil].
  - done.
  - exists []. split; [cbn; lia|by rewrite mailed_nil].
  - done.
  - exists [message_of d to_addr]. by split; [cbn; lia|].
  - congruence.
Qed.

(** X15. Input that is JSON but not an object, a list, a string, a number,
    a boolean or [null], is answered with an error text: nothing is sent,
    the relay is not contacted and the world is as before. *)
Theorem send_mail_rejects_non_object (input_str : string) (data : json) (w : world) :
  json_loads input_str = Ok data →
  (∀ d, data ≠ JDict d) →
  ∃ text, send_mail_tool input_str w = (Ok ("[SendMail Error] " +:+ text), w).
Proof.
  intros Hjson Hdata. unfold send_mail_tool, send_mail_attempt. run_world.
  rewrite Hjson.
  destruct data as [ | | | | | |d]; cbn; eauto.
  by destruct (Hdata d).
Qed.

End MailOutcomes.

Lemma send_mail_success_means_sent_witness :
  let w := initial_world [] in
  returned (@send_mail_tool sample_services to_only_json w)
  = Ok "Email sent successfully to x@y.com" ∧
  String.prefix "[SendMail Error] " "Email sent successfully to x@y.com" = false ∧
  ∃ d to_addr,
    @json_loads sample_services to_only_json = Ok (JDict d) ∧ d !! "to" = Some to_addr ∧
    "Email sent successfully to x@y.com"
    = "Email sent successfully to " +:+ @json_str sample_services to_addr ∧
    world_after (@send_mail_tool sample_services to_only_json w)
    = mailed [@message_of sample_services d to_addr] w.
Proof.
  split; [reflexivity|]. split; [reflexivity|].
  exact (@send_mail_success_means_sent sample_services to_only_json
           "Email sent successfully to x@y.com" (initial_world []) eq_refl eq_refl).
Defined.

Lemma send_mail_sends_at_most_once_witness :
  let w := initial_world [] in
  returned (@send_mail_tool sample_services "{to: nobody" w)
  = Ok "[SendMail Error] Expecting value: line 1 column 1 (char 0)" ∧
  String.prefix "[SendMail Error] "
    "[SendMail Error] Expecting value: line 1 column 1 (char 0)" = true ∧
  @smtp_quit sample_services = Ok () ∧
  world_after (@send_mail_tool sample_services "{to: nobody" w) = w.
Proof.
  split; [reflexivity|]. split; [reflexivity|]. split; [reflexivity|].
  exact (proj2 (@send_mail_sends_at_most_once sample_services "{to: nobody"
                  (initial_world []))
           "[SendMail Error] Expecting value: line 1 column 1 (char 0)"
           eq_refl eq_refl eq_refl).
Defined.

Lemma list_is_not_object : ∀ d, JList [] ≠ JDict d.
Proof. done. Qed.

Lemma send_mail_rejects_non_object_witness :
  let w := initial_world [] in
  @json_loads review_services "[]" = Ok (JList []) ∧
  (∀ d, JList [] ≠ JDict d) ∧
  ∃ text, @send_mail_tool review_services "[]" w
          = (Ok ("[SendMail Error] " +:+ text), w).
Proof.
  split; [reflexivity|]. split; [exact list_is_not_object|].
  exact (@send_mail_rejects_non_object review_services "[]" (JList [])
           (initial_world []) eq_refl list_is_not_object).
Defined.

(** ** The wrapper and the registries *)

Section Wrapper.
Context `{Services}.

(** X16. For every function, registered or not: the wrapped function never
    raises, leaves the world as the function left it, returning or raising,
    and wrapping it a second time changes nothing. *)
Theorem safe_tool_absorbs_and_is_idempotent
    (tool_func : string → M string) (input : string) (w : world) :
  (∃ text, returned (safe_tool tool_func input w) = Ok text) ∧
  world_after (safe_tool tool_func input w) = world_after (tool_func input w) ∧
  safe_tool (safe_tool tool_func) input w = safe_tool tool_func input w.
Proof.
  rewrite !safe_tool_run.
  destruct (tool_func input w) as [[text|e] w']; cbn; eauto.
Qed.

#[local] Arguments search_loop : simpl never.
#[local] Arguments low_rated_loop : simpl never.
#[local] Arguments most_mentioned_loop : simpl never.

(** X17. All that a review tool, as registered, does to the world is print:
    the summary and the search each print their one line, the search with
    the query as given, also when they go on to fail; the other seven print
    nothing.  No review tool sends mail, runs an agent or touches the
    store. *)
Theorem review_tools_only_print :
  Forall2 (λ prints tool,
             ∀ input w, world_after (func tool input w) = printed (prints input) w)
    review_tool_prints review_tools.
Proof.
  unfold review_tool_prints, review_tools.
  repeat apply Forall2_cons_2; try apply Forall2_nil_2; intros input w;
    cbn [func]; rewrite ?printed_nil, safe_tool_run.
  - unfold rating_summary_tool. run_world.
    destruct (rating_totals _) as [total count].
    by destruct (count =? 0); [|destruct (int_true_divide total count)].
  - unfold search_reviews_tool. run_world.
    destruct (search_loop _ _ _) as [results|e]; [|done].
    cbn. by case_bool_decide.
  - unfold final_answer_tool. by destruct (is_empty input).
  - unfold count_rating_tool. by destruct (py_int _).
  - unfold top_rated_comments_tool. destruct (py_int _); [|done].
    run_world. case_bool_decide; [done|].
    by destruct (map_result _ _).
  - unfold low_rated_reasons_tool. run_world.
    by destruct (low_rated_loop _ _).
  - done.
  - unfold most_mentioned_dish_tool. run_world.
    by destruct (most_mentioned_loop _ _) as [[|first others]|e].
  - unfold sentiment_trend_tool. run_world.
    by destruct (map_result _ _).
Qed.

(** X18. The two agents' [FinalAnswer] tools are not the same function.
    The mail agent's returns its input as it is; the review agent's is
    [final_answer_tool] behind the wrapper, which it never needs.  They
    agree, on ASCII text, exactly on the inputs that are not empty and are
    already trimmed. *)
Theorem final_answer_differs_between_agents :
  ∃ review_final mail_final,
    review_tools !! 2%nat = Some review_final ∧
    mail_tools !! 1%nat = Some mail_final ∧
    name review_final = "FinalAnswer" ∧ name mail_final = "FinalAnswer" ∧
    ∀ text w,
      func mail_final text w = (Ok text, w) ∧
      func review_final text w = final_answer_tool text w ∧
      (py_isascii text = true →
       (func review_final text w = func mail_final text w
        ↔ text ≠ "" ∧ py_strip text = text)).
Proof.
  exists {| name := "FinalAnswer"; func := safe_tool final_answer_tool;
            description := "Return the final answer to the user and stop the agent." |},
         {| name := "FinalAnswer"; func := λ x, mret x;
            description := "Return the final answer to the user and stop the agent." |}.
  split_and!; [reflexivity..|].
  intros text w. cbn [func]. split; [done|].
  assert (safe_tool final_answer_tool text w = final_answer_tool text w) as ->.
  { rewrite safe_tool_run. unfold final_answer_tool. by destruct (is_empty text). }
  split; [done|]. intros _.
  unfold final_answer_tool. destruct text as [|c text]; cbn [is_empty].
  - split; [intros [= ?]|intros [? _]]; done.
  - split.
    + intros [= Heq]. by split.
    + intros [_ ->]. done.
Qed.

End Wrapper.

(** ** The classifier, the router and the endpoints *)

Lemma upper_char_R c : upper_char c = "R"%char ↔ lower_char c = "r"%char.
Proof. destruct c as [[] [] [] [] [] [] [] []]; by vm_compute. Qed.

Lemma upper_char_M c : upper_char c = "M"%char ↔ lower_char c = "m"%char.
Proof. destruct c as [[] [] [] [] [] [] [] []]; by vm_compute. Qed.

(** Capitalised, a word is [Review] exactly when, lowercased, it is
    [review]; and so for [Mail]. *)
Lemma py_capitalize_Review s : py_capitalize s = "Review" ↔ py_lower s = "review".
Proof.
  destruct s as [|c s]; [done|]. cbn.
  split; intros [= Hc Hs]; f_equal; try done; by apply upper_char_R.
Qed.

Lemma py_capitalize_Mail s : py_capitalize s = "Mail" ↔ py_lower s = "mail".
Proof.
  destruct s as [|c s]; [done|]. cbn.
  split; intros [= Hc Hs]; f_equal; try done; by apply upper_char_M.
Qed.

Section Requests.
Context `{Services}.

Lemma classify_intent_llm_run (user_input response : string) (w : world) :
  apredict (intent_prompt user_input) = Ok response →
  classify_intent_llm user_input w
  = (Ok (if bool_decide (py_capitalize (py_strip response) ∈ ["Review"; "Mail"])
         then py_capitalize (py_strip response) else "Unknown"), w).
Proof.
  intros Hllm. unfold classify_intent_llm, classify_intent_llm_by.
  rewrite bind_run, lift_run, Hllm. by case_bool_decide.
Qed.

(** X19. When the model answers with ASCII text, [classify_intent_llm]
    returns one of
    [Review], [Mail] and [Unknown] and leaves the world alone; it returns
    [Review] exactly when the answer, stripped of surrounding whitespace
    and lowercased, is [review], and [Mail] exactly when it is [mail]: the
    letter case of the answer and the whitespace around it do not matter,
    anything else in it does. *)
Theorem classify_intent_reads_one_word (user_input response : string) (w : world) :
  apredict (intent_prompt user_input) = Ok response →
  py_isascii response = true →
  ∃ intent,
    classify_intent_llm user_input w = (Ok intent, w) ∧
    intent ∈ ["Review"; "Mail"; "Unknown"] ∧
    (intent = "Review" ↔ py_lower (py_strip response) = "review") ∧
    (intent = "Mail" ↔ py_lower (py_strip response) = "mail").
Proof.
  intros Hllm _. rewrite (classify_intent_llm_run _ _ _ Hllm).
  set (word := py_capitalize (py_strip response)).
  assert (word = "Review" ↔ py_lower (py_strip response) = "review") as HR
    by apply py_capitalize_Review.
  assert (word = "Mail" ↔ py_lower (py_strip response) = "mail") as HM
    by apply py_capitalize_Mail.
  case_bool_decide as Hin.
  - exists word. split_and!; [done| |done|done].
    apply elem_of_cons in Hin as [->|Hin]; [by repeat constructor|].
    apply elem_of_cons in Hin as [->|Hin]; [by repeat constructor|].
    by apply elem_of_nil in Hin.
  - exists "Unknown". split_and!; [done|by repeat constructor| |].
    + split; [done|]. intros Hw%HR. destruct Hin. rewrite Hw. by repeat constructor.
    + split; [done|]. intros Hw%HM. destruct Hin. rewrite Hw. by repeat constructor.
Qed.

Lemma smart_router_review (prompt response : string) (w : world) :
  apredict (intent_prompt prompt) = Ok response →
  py_capitalize (py_strip response) = "Review" →
  smart_router prompt w =
  match agent_executor_run prompt (recorded "agent_executor" prompt w) with
  | (Ok answer, w') => (Ok {| intent := "Review"; result_text := answer |}, w')
  | (Raise e, w') => (Raise (HTTPException 500 (str_exn e)), w')
  end.
Proof.
  intros Hllm Hword.
  unfold smart_router, smart_router_by, http_endpoint, try_except.
  fold (classify_intent_llm prompt).
  rewrite bind_run, (classify_intent_llm_run _ _ _ Hllm), Hword.
  rewrite bool_decide_eq_true_2 by (by repeat constructor).
  rewrite bool_decide_eq_true_2 by done.
  unfold run_agent_executor. rewrite !bind_run. cbn.
  fold (recorded "agent_executor" prompt w).
  by destruct (agent_executor_run prompt _) as [[answer|e] w'].
Qed.

Lemma smart_router_mail (prompt response : string) (w : world) :
  apredict (intent_prompt prompt) = Ok response →
  py_capitalize (py_strip response) = "Mail" →
  smart_router prompt w =
  match mail_agent_executor_run prompt (recorded "mail_agent_executor" prompt w) with
  | (Ok answer, w') => (Ok {| intent := "Mail"; result_text := answer |}, w')
  | (Raise e, w') => (Raise (HTTPException 500 (str_exn e)), w')
  end.
Proof.
  intros Hllm Hword.
  unfold smart_router, smart_router_by, http_endpoint, try_except.
  fold (classify_intent_llm prompt).
  rewrite bind_run, (classify_intent_llm_run _ _ _ Hllm), Hword.
  rewrite bool_decide_eq_true_2 by (by repeat constructor).
  rewrite bool_decide_eq_false_2 by done.
  rewrite bool_decide_eq_true_2 by done.
  unfold run_mail_agent_executor. rewrite !bind_run. cbn.
  fold (recorded "mail_agent_executor" prompt w).
  by destruct (mail_agent_executor_run prompt _) as [[answer|e] w'].
Qed.

(** X20. When the classifier's answer is [review] up to letter case and
    surrounding whitespace, [/smart] runs the review agent, once and on the
    prompt as it came, and the mail agent not at all; when the agent
    returns, the response carries the intent [Review] and the agent's
    answer, and when it raises, the request fails with status 500.  The
    same holds for [mail] and the mail agent. *)
Theorem smart_router_runs_one_agent (prompt response : string) (w : world) :
  apredict (intent_prompt prompt) = Ok response →
  (py_lower (py_strip response) = "review" →
     match agent_executor_run prompt (recorded "agent_executor" prompt w) with
     | (Ok answer, w') =>
         smart_router prompt w
         = (Ok {| intent := "Review"; result_text := answer |}, w')
     | (Raise _, w') =>
         ∃ detail, smart_router prompt w = (Raise (HTTPException 500 detail), w')
     end) ∧
  (py_lower (py_strip response) = "mail" →
     match mail_agent_executor_run prompt (recorded "mail_agent_executor" prompt w) with
     | (Ok answer, w') =>
         smart_router prompt w
         = (Ok {| intent := "Mail"; result_text := answer |}, w')
     | (Raise _, w') =>
         ∃ detail, smart_router prompt w = (Raise (HTTPException 500 detail), w')
     end).
Proof.
  intros Hllm.
  split; intros Hword.
  - apply py_capitalize_Review in Hword.
    rewrite (smart_router_review _ _ _ Hllm Hword).
    destruct (agent_executor_run prompt _) as [[answer|e] w']; [done|].
    by eexists.
  - apply py_capitalize_Mail in Hword.
    rewrite (smart_router_mail _ _ _ Hllm Hword).
    destruct (mail_agent_executor_run prompt _) as [[answer|e] w']; [done|].
    by eexists.
Qed.

Lemma http_endpoint_raises {A} (handler : M A) w e :
  returned (http_endpoint handler w) = Raise e → ∃ detail, e = HTTPException 500 detail.
Proof.
  unfold http_endpoint, try_except, returned.
  destruct (handler w) as [[a|e'] w']; cbn; [done|].
  intros [= <-]. by eexists.
Qed.

(** X21. Whatever [/smart] raises is an [HTTPException] of status 500; and
    when the classifier itself fails with a library error, the request
    fails with that error's text as the detail, before any agent is run:
    the world is as it was. *)
Theorem smart_router_raises_only_http_500 (prompt : string) (w : world) :
  (∀ e, returned (smart_router prompt w) = Raise e →
     ∃ detail, e = HTTPException 500 detail) ∧
  (∀ cls msg, apredict (intent_prompt prompt) = Raise (LibraryError cls msg) →
     smart_router prompt w = (Raise (HTTPException 500 msg), w)).
Proof.
  split.
  - intros e He. by apply http_endpoint_raises in He.
  - intros cls msg Hllm.
    unfold smart_router, smart_router_by, http_endpoint, try_except,
      classify_intent_llm_by.
    by rewrite !bind_run, lift_run, Hllm.
Qed.

(** X22. [/ask] runs the review agent and [/sendmail] the mail agent, each
    once and on the question as it came.  Each returns what its agent
    returns, and turns whatever its agent raises into an [HTTPException] of
    status 500; when the agent fails with a library error, the detail is
    that error's text. *)
Theorem endpoints_answer_or_http_500 (question : string) (w : world) :
  match agent_executor_run question (recorded "agent_executor" question w) with
  | (Ok answer, w') => ask_agent_endpoint question w = (Ok answer, w')
  | (Raise e, w') =>
      ∃ detail, ask_agent_endpoint question w = (Raise (HTTPException 500 detail), w') ∧
                ∀ cls msg, e = LibraryError cls msg → detail = msg
  end ∧
  match mail_agent_executor_run question (recorded "mail_agent_executor" question w) with
  | (Ok answer, w') => send_mail_endpoint question w = (Ok answer, w')
  | (Raise e, w') =>
      ∃ detail, send_mail_endpoint question w = (Raise (HTTPException 500 detail), w') ∧
                ∀ cls msg, e = LibraryError cls msg → detail = msg
  end.
Proof.
  unfold ask_agent_endpoint, send_mail_endpoint, http_endpoint, try_except,
    run_agent_executor, run_mail_agent_executor.
  rewrite !bind_run. cbn.
  fold (recorded "agent_executor" question w).
  fold (recorded "mail_agent_executor" question w).
  split.
  - destruct (agent_executor_run question _) as [[answer|e] w']; [done|].
    eexists. split; [done|]. by intros cls msg ->.
  - destruct (mail_agent_executor_run question _) as [[answer|e] w']; [done|].
    eexists. split; [done|]. by intros cls msg ->.
Qed.

End Requests.

Lemma classify_intent_reads_one_word_witness :
  let w := initial_world [] in
  @apredict review_services (intent_prompt "How are the reviews?")
  = Ok (" review" +:+ newline) ∧
  py_isascii (" review" +:+ newline) = true ∧
  ∃ intent,
    @classify_intent_llm review_services "How are the reviews?" w = (Ok intent, w) ∧
    intent ∈ ["Review"; "Mail"; "Unknown"] ∧
    (intent = "Review" ↔ py_lower (py_strip (" review" +:+ newline)) = "review") ∧
    (intent = "Mail" ↔ py_lower (py_strip (" review" +:+ newline)) = "mail").
Proof.
  split; [reflexivity|]. split; [reflexivity|].
  exact (@classify_intent_reads_one_word review_services "How are the reviews?"
           (" review" +:+ newline) (initial_world []) eq_refl eq_refl).
Defined.

Lemma smart_router_runs_one_agent_witness :
  let w := initial_world [] in
  @apredict review_services (intent_prompt "How are the reviews?")
  = Ok (" review" +:+ newline) ∧
  py_lower (py_strip (" review" +:+ newline)) = "review" ∧
  @smart_router review_services "How are the reviews?" w
  = (Ok {| intent := "Review"; result_text := "Mostly happy customers." |},
     recorded "agent_executor" "How are the reviews?" w).
Proof.
  split; [reflexivity|]. split; [reflexivity|].
  exact (proj1 (@smart_router_runs_one_agent review_services "How are the reviews?"
                  (" review" +:+ newline) (initial_world []) eq_refl)
           eq_refl).
Defined.

Lemma smart_router_raises_only_http_500_witness :
  let w := initial_world [] in
  @apredict offline_services (intent_prompt "How are the reviews?")
  = Raise (LibraryError "ConnectionError" "model not reachable") ∧
  @smart_router offline_services "How are the reviews?" w
  = (Raise (HTTPException 500 "model not reachable"), w).
Proof.
  split; [reflexivity|].
  exact (proj2 (@smart_router_raises_only_http_500 offline_services
                  "How are the reviews?" (initial_world []))
           "ConnectionError" "model not reachable" eq_refl).
Defined.

(** The two endpoints on the services whose review agent answers and whose
    mail agent cannot reach its model. *)
Lemma endpoints_sample :
  let w := initial_world [] in
  @ask_agent_endpoint review_services "How are the reviews?" w
  = (Ok "Mostly happy customers.", recorded "agent_executor" "How are the reviews?" w) ∧
  @send_mail_endpoint review_services "Write to x@y.com" w
  = (Raise (HTTPException 500 "model not reachable"),
     recorded "mail_agent_executor" "Write to x@y.com" w).
Proof. done. Qed.

(** ** The month of a date *)

Lemma digit_char_digit_of c : is_digit c = true → digit_char (digit_of c) = c.
Proof. destruct c as [[] [] [] [] [] [] [] []]; by vm_compute. Qed.

Lemma digit_of_range c : is_digit c = true → 0 ≤ digit_of c ≤ 9.
Proof. intros Hc%char_between_code. unfold digit_of. lia. Qed.

Lemma four_digits_digits a b c d :
  is_digit a = true → is_digit b = true → is_digit c = true → is_digit d = true →
  four_digits (1000 * digit_of a + 100 * digit_of b + 10 * digit_of c + digit_of d)
  = String a (String b (String c (String d ""))).
Proof.
  intros Ha Hb Hc Hd.
  pose proof (digit_of_range a Ha). pose proof (digit_of_range b Hb).
  pose proof (digit_of_range c Hc). pose proof (digit_of_range d Hd).
  unfold four_digits.
  set (y := 1000 * digit_of a + 100 * digit_of b + 10 * digit_of c + digit_of d).
  assert (y / 1000 mod 10 = digit_of a) as -> by (subst y; Z.div_mod_to_equations; lia).
  assert (y / 100 mod 10 = digit_of b) as -> by (subst y; Z.div_mod_to_equations; lia).
  assert (y / 10 mod 10 = digit_of c) as -> by (subst y; Z.div_mod_to_equations; lia).
  assert (y mod 10 = digit_of d) as -> by (subst y; Z.div_mod_to_equations; lia).
  by rewrite !digit_char_digit_of.
Qed.

Lemma two_digits_digits a b :
  is_digit a = true → is_digit b = true →
  two_digits (10 * digit_of a + digit_of b) = String a (String b "").
Proof.
  intros Ha Hb.
  pose proof (digit_of_range a Ha). pose proof (digit_of_range b Hb).
  unfold two_digits.
  set (m := 10 * digit_of a + digit_of b).
  assert (m / 10 mod 10 = digit_of a) as -> by (subst m; Z.div_mod_to_equations; lia).
  assert (m mod 10 = digit_of b) as -> by (subst m; Z.div_mod_to_equations; lia).
  by rewrite !digit_char_digit_of.
Qed.

Lemma char_between_digit lo hi c :
  48 ≤ lo → hi ≤ 57 → char_between lo hi c = true → is_digit c = true.
Proof.
  intros Hlo Hhi Hc%char_between_code. unfold is_digit, char_between.
  apply andb_true_iff. split; [apply Z.leb_le|apply Z.leb_le]; lia.
Qed.

Lemma expect_char_cons c c' rest :
  expect_char c (String c' rest) = if bool_decide (c' = c) then Some rest else None.
Proof. done. Qed.

(** A date of ten characters that [strptime] accepts has its month on two
    digits, and [strftime] writes the month as the first seven characters
    of the date. *)
Lemma strftime_strptime_prefix (date : string) (y m d : Z) :
  strptime_ymd date = Some (y, m, d) →
  String.length date = 10%nat →
  month_key true y m = String.substring 0 7 date.
Proof.
  intros Hdate Hlen.
  destruct date as [|a [|b [|c [|e [|s1 [|f [|g [|s2 [|h [|i [|? ?]]]]]]]]]]];
    try discriminate Hlen.
  clear Hlen. revert Hdate. unfold strptime_ymd, parse_year.
  destruct (is_digit a) eqn:Ha; [|done]. destruct (is_digit b) eqn:Hb; [|done].
  destruct (is_digit c) eqn:Hc; [|done]. destruct (is_digit e) eqn:He; [|done].
  cbn [andb mbind option_bind]. rewrite expect_char_cons.
  destruct (bool_decide_reflect (s1 = "-"%char)) as [->|?]; [|done].
  cbn [mbind option_bind].
  cbn [parse_month].
  destruct (bool_decide (f = "1"%char) && char_between 48 50 g
            || bool_decide (f = "0"%char) && char_between 49 57 g) eqn:Htwo.
  - cbn [mbind option_bind]. rewrite expect_char_cons.
    destruct (bool_decide_reflect (s2 = "-"%char)) as [->|?]; [|done].
    cbn [mbind option_bind].
    destruct (parse_day _) as [[d' s5]|]; [|done]. cbn [mbind option_bind].
    destruct (_ && _ && _); [|done]. intros [= <- <- <-].
    assert (is_digit f = true ∧ is_digit g = true) as [Hf Hg].
    { apply orb_true_iff in Htwo as [[->%bool_decide_eq_true Hg]%andb_true_iff
                                     |[->%bool_decide_eq_true Hg]%andb_true_iff].
      - split; [done|]. by eapply char_between_digit; [| |exact Hg].
      - split; [done|]. by eapply char_between_digit; [| |exact Hg]. }
    unfold month_key, year_text.
    rewrite (four_digits_digits a b c e), (two_digits_digits f g) by done.
    done.
  - destruct (char_between 49 57 f); [|done]. cbn [mbind option_bind].
    rewrite expect_char_cons.
    destruct (bool_decide_reflect (g = "-"%char)) as [->|?]; [|done].
    cbn [mbind option_bind].
    unfold parse_day.
    repeat match goal with
           | |- context [if ?b then _ else _] => destruct b
           end; done.
Qed.

Lemma first_digit_nonzero a rest :
  is_digit a = true → String.prefix "0" (String a rest) = false → 1 ≤ digit_of a.
Proof.
  destruct a as [[] [] [] [] [] [] [] []]; try (by vm_compute).
  by destruct rest.
Qed.

Lemma year_from_first_digit date y m d :
  strptime_ymd date = Some (y, m, d) → String.prefix "0" date = false → 1000 ≤ y.
Proof.
  unfold strptime_ymd. destruct (parse_year date) as [[y' s1]|] eqn:Hy; [|done].
  cbn [mbind option_bind].
  destruct (expect_char "-" s1) as [s2|]; [|done]. cbn [mbind option_bind].
  destruct (parse_month s2) as [[m' s3]|]; [|done]. cbn [mbind option_bind].
  destruct (expect_char "-" s3) as [s4|]; [|done]. cbn [mbind option_bind].
  destruct (parse_day s4) as [[d' s5]|]; [|done]. cbn [mbind option_bind].
  destruct (_ && _ && _); [|done]. intros [= <- <- <-] Hzero.
  unfold parse_year in Hy. destruct date as [|a [|b [|c [|e rest]]]]; try done.
  destruct (is_digit a) eqn:Ha; [|done]. destruct (is_digit b) eqn:Hb; [|done].
  destruct (is_digit c) eqn:Hc; [|done]. destruct (is_digit e) eqn:He; [|done].
  cbn in Hy. injection Hy as <- _.
  pose proof (first_digit_nonzero a _ Ha Hzero).
  pose proof (digit_of_range b Hb). pose proof (digit_of_range c Hc).
  pose proof (digit_of_range e He). lia.
Qed.

Section Months.
Context `{Services}.

(** X23. The trend files a review under the month its date names: for a
    review whose date is an ASCII text of ten characters, where [strftime] pads
    the year or the date does not start with a zero, the month the [try]
    block of [sentiment_trend_tool] computes, [strptime] followed by
    [strftime], is the first seven characters of the date as written. *)
Theorem trend_month_is_date_prefix (review : row) (date month : string) (rating : Z) :
  review !! "Date" = Some (Some date) →
  py_isascii date = true →
  String.length date = 10%nat →
  strftime_pads_year = true ∨ String.prefix "0" date = false →
  try_month_rating review = Ok (month, rating) →
  month = String.substring 0 7 date.
Proof.
  intros Hdate _ Hlen Hyear Htry.
  pose proof (try_month_rating_valid review) as Hvalid.
  destruct (month_and_rating strftime_pads_year review) as [p|] eqn:Hp;
    [|destruct Hvalid as [e He]; congruence].
  assert (p = (month, rating)) as -> by congruence.
  apply month_and_rating_key in Hp as (y & m & d & Hparsed & -> & Hym).
  unfold parsed_date in Hparsed. rewrite Hdate in Hparsed.
  rewrite <- (strftime_strptime_prefix date y m d Hparsed Hlen).
  destruct Hyear as [->|Hzero]; [done|].
  apply month_key_from_1000.
  pose proof (year_from_first_digit _ _ _ _ Hparsed Hzero).
  unfold calendar_month in Hym. cbn in Hym. lia.
Qed.

End Months.

Lemma trend_month_is_date_prefix_witness :
  let review := review_row "Great" "2024-01-15" "5" "The PASTA was great!" in
  review !! "Date" = Some (Some "2024-01-15") ∧
  py_isascii "2024-01-15" = true ∧
  String.length "2024-01-15" = 10%nat ∧
  (@strftime_pads_year sample_services = true ∨ String.prefix "0" "2024-01-15" = false) ∧
  @try_month_rating sample_services review = Ok ("2024-01", 5) ∧
  "2024-01" = String.substring 0 7 "2024-01-15".
Proof.
  split; [reflexivity|]. split; [reflexivity|]. split; [reflexivity|].
  split; [right; reflexivity|]. split; [reflexivity|].
  exact (@trend_month_is_date_prefix sample_services
           (review_row "Great" "2024-01-15" "5" "The PASTA was great!")
           "2024-01-15" "2024-01" 5 eq_refl eq_refl eq_refl (or_intror eq_refl) eq_refl).
Defined.

(** A date that [strptime] accepts on fewer characters is filed under a
    month that is not its prefix, and where [strftime] does not pad, so is
    a date before the year 1000. *)
Lemma trend_month_of_short_date :
  @try_month_rating sample_services (review_row "Short" "2024-1-5" "4" "fine")
  = Ok ("2024-01", 4) ∧
  @try_month_rating sample_services (review_row "Old" "0999-12-05" "4" "fine")
  = Ok ("999-12", 4).
Proof. done. Qed.

(** ** The rating column of the low-rated reviews *)

Lemma low_rated_loop_app before rest kw :
  Forall complete_row before →
  low_rated_loop (before ++ rest) kw
  = low_rated_loop rest
      (fold_left (λ kw word, bump word kw) (keyword_tokens before) kw).
Proof.
  intros Hrows. revert kw.
  induction Hrows as [|review reviews Hr _ IH]; intros kw; [done|].
  destruct (Hr) as (_ & _ & Hrating & Hbody).
  cbn [app low_rated_loop]. rewrite (dict_get_text _ _ _ Hrating). cbn.
  assert (keyword_tokens (review :: reviews)
          = if decide (low_rated review)
            then alphabetic_words (text "Review" review) ++ keyword_tokens reviews
            else keyword_tokens reviews) as ->.
  { unfold keyword_tokens. rewrite filter_cons.
    by destruct (decide (low_rated review)). }
  destruct (decide (low_rated review)) as [Hlow|Hhigh].
  - rewrite bool_decide_eq_true_2 by done.
    rewrite (getitem_text _ _ Hbody). cbn.
    rewrite IH, fold_left_filter_bump.
    by rewrite fold_left_app.
  - rewrite bool_decide_eq_false_2 by done. apply IH.
Qed.

Section LowRated.
Context `{Services}.

(** X24. [low_rated_reasons_tool] reads the rating of every row with
    [get], so a row without a [Rating] column is passed over, whatever else
    it lacks: the answer is that of the store without the row.  But a row
    whose [Rating] is [None], as [csv.DictReader] leaves a short line,
    makes it raise [AttributeError], the rows before it being complete, and
    the tool as registered return the error text. *)
Theorem low_rated_needs_rating_text (input : string) (w : world)
    (before after : list row) (review : row) :
  reviews_data w = before ++ review :: after →
  Forall complete_row before →
  (review !! "Rating" = None →
     ∀ w', reviews_data w' = before ++ after →
       returned (low_rated_reasons_tool input w)
       = returned (low_rated_reasons_tool input w')) ∧
  (review !! "Rating" = Some None →
     returned (low_rated_reasons_tool input w) = Raise (no_attribute "strip") ∧
     returned (safe_tool low_rated_reasons_tool input w)
     = Ok "[Tool Error] 'NoneType' object has no attribute 'strip'").
Proof.
  intros Hstore Hbefore. split; intros Hrating.
  - intros w' Hstore'. unfold low_rated_reasons_tool. run_world.
    rewrite Hstore, Hstore', !(low_rated_loop_app _ _ _ Hbefore).
    cbn [low_rated_loop]. unfold dict_get. rewrite Hrating. cbn.
    by destruct (low_rated_loop after _).
  - assert (returned (low_rated_reasons_tool input w) = Raise (no_attribute "strip"))
      as Hraise.
    { unfold low_rated_reasons_tool. run_world.
      rewrite Hstore, (low_rated_loop_app _ _ _ Hbefore).
      cbn [low_rated_loop]. unfold dict_get. by rewrite Hrating. }
    split; [done|]. exact (safe_tool_returned _ _ _ _ Hraise).
Qed.

End LowRated.

Lemma low_rated_needs_rating_text_witness :
  let w := initial_world bodiless_reviews in
  let before := [review_row "Great" "2024-01-15" "5" "The PASTA was great!"] in
  let review : row := {["Title" := Some "Lunch"]} in
  reviews_data w = before ++ review :: [] ∧
  Forall complete_row before ∧
  review !! "Rating" = None ∧
  reviews_data (initial_world before) = before ++ [] ∧
  returned (low_rated_reasons_tool "" w)
  = returned (low_rated_reasons_tool "" (initial_world before)).
Proof.
  assert (Forall complete_row [review_row "Great" "2024-01-15" "5" "The PASTA was great!"])
    as Hbefore
    by (apply Forall_cons_2; [apply complete_row_review_row|apply Forall_nil_2]).
  split; [reflexivity|]. split; [exact Hbefore|]. split; [reflexivity|].
  split; [reflexivity|].
  exact (proj1 (low_rated_needs_rating_text "" (initial_world bodiless_reviews)
                  [review_row "Great" "2024-01-15" "5" "The PASTA was great!"] []
                  {["Title" := Some "Lunch"]} eq_refl Hbefore)
           eq_refl
           (initial_world [review_row "Great" "2024-01-15" "5" "The PASTA was great!"])
           eq_refl).
Defined.

(** ** The range of the averages *)

Lemma sum_list_range lo hi l :
  Forall (λ r, lo ≤ r ≤ hi) l →
  lo * Z.of_nat (length l) ≤ sum_list l ≤ hi * Z.of_nat (length l).
Proof.
  induction 1 as [|x l Hx _ IH]; [unfold sum_list; cbn; lia|].
  rewrite sum_list_cons. cbn [length]. lia.
Qed.

(** A decimal nearest to a mean of numbers between two integers lies
    between these integers. *)
Lemma nearest_decimal_range p t total count lo hi :
  0 < count → 0 ≤ total →
  lo * count ≤ total ≤ hi * count →
  nearest_decimal p t (Z.abs total) count →
  10 ^ Z.of_nat p * lo ≤ t ≤ 10 ^ Z.of_nat p * hi.
Proof.
  intros Hcount Htotal [Hlo Hhi]. unfold nearest_decimal.
  rewrite (Z.abs_eq total) by done.
  set (P := 10 ^ Z.of_nat p).
  assert (0 < P) as HP by (apply Z.pow_pos_nonneg; lia).
  intros Hnear. split.
  - destruct (Z.le_gt_cases (P * lo) t) as [|Hlt]; [done|]. exfalso.
    assert (t * count ≤ (P * lo - 1) * count) by nia.
    assert (P * (lo * count) ≤ P * total) by nia. nia.
  - destruct (Z.le_gt_cases t (P * hi)) as [|Hgt]; [done|]. exfalso.
    assert ((P * hi + 1) * count ≤ t * count) by nia.
    assert (P * total ≤ P * (hi * count)) by nia. nia.
Qed.

Section Ranges.
Context `{Services}.

(** X25. The average of the summary stays within the ratings: on a store
    whose ratings are ASCII text and that has readable ratings, all between
    [lo] and [hi] with [0 <= lo],
    and few enough for binary64 ([20 * hi * count < 2^53]), the average
    printed, on one decimal, is at least [lo] and at most [hi]; for ratings
    of one to five stars, between [1.0] and [5.0]. *)
Theorem rating_summary_average_in_range (input : string) (w : world) (lo hi : Z) :
  let ratings := omap parsed_rating (reviews_data w) in
  Forall (ascii_column "Rating") (reviews_data w) →
  ratings ≠ [] →
  0 ≤ lo →
  Forall (λ r, lo ≤ r ≤ hi) ratings →
  20 * hi * Z.of_nat (length ratings) < 2 ^ 53 →
  ∃ t, 10 * lo ≤ t ≤ 10 * hi ∧
    returned (rating_summary_tool input w)
    = Ok ("There are " +:+ str_int (Z.of_nat (length ratings))
          +:+ " reviews with an average rating of " +:+ render_fixed 1 false t
          +:+ " stars.").
Proof.
  intros ratings _ Hne Hlo Hrange Hsmall.
  pose proof (sum_list_range lo hi ratings Hrange) as Hsum.
  assert (0 < Z.of_nat (length ratings)) as Hcount.
  { destruct ratings; [done|]. cbn [length]. lia. }
  assert (0 ≤ sum_list ratings) as Htotal by nia.
  destruct (int_true_divide_mean 1 hi (sum_list ratings) (Z.of_nat (length ratings)))
    as (x & t & Hdiv & Hfmt & Ht0 & Hnear); [done|lia| |].
  { change (10 ^ Z.of_nat 1) with 10. lia. }
  exists t. split.
  - by apply (nearest_decimal_range 1 t (sum_list ratings) (Z.of_nat (length ratings))).
  - unfold rating_summary_tool. run_world.
    rewrite rating_totals_spec. fold ratings.
    destruct (Z.eqb_spec (Z.of_nat (length ratings)) 0) as [|_]; [lia|].
    rewrite Hdiv. cbn. rewrite Hfmt.
    by destruct (Z.ltb_spec (sum_list ratings) 0) as [|_]; [lia|].
Qed.

(** X26. So do the averages of the trend: on a store whose dates and
    ratings are ASCII text and whose readable (month, rating) pairs have
    ratings between [lo] and [hi] with
    [0 <= lo], and few enough for binary64, every line of the trend is its
    month, a colon and an average on two decimals that is at least [lo] and
    at most [hi]. *)
Theorem trend_averages_in_range (input : string) (w : world) (lo hi : Z) :
  let valid := omap (month_and_rating strftime_pads_year) (reviews_data w) in
  Forall (ascii_column "Date") (reviews_data w) →
  Forall (ascii_column "Rating") (reviews_data w) →
  0 ≤ lo →
  Forall (λ p : string * Z, lo ≤ p.2 ≤ hi) valid →
  200 * hi * Z.of_nat (length valid) < 2 ^ 53 →
  ∃ months lines : list string,
    returned (sentiment_trend_tool input w)
    = Ok ("Sentiment trend by month:" +:+ newline +:+ py_join newline lines) ∧
    Forall2 (λ month line,
               ∃ t, 100 * lo ≤ t ≤ 100 * hi ∧
                    line = month +:+ ": " +:+ render_fixed 2 false t)
      months lines.
Proof.
  intros valid _ _ Hlo Hrange Hsmall.
  destruct (sorted_months_spec (reviews_data w)) as [_ Hmem].
  set (months := py_sorted _) in *. fold valid in Hmem.
  assert (Forall (λ p : string * Z, Z.abs p.2 ≤ hi) valid) as Hbound.
  { eapply Forall_impl; [exact Hrange|]. intros p Hp. cbn in Hp. lia. }
  destruct (map_result_Forall2 (trend_line (ratings_by_month (reviews_data w)))
              (λ month line,
                 ∃ t, 100 * lo ≤ t ≤ 100 * hi ∧
                      line = month +:+ ": " +:+ render_fixed 2 false t) months)
    as (lines & Hlines & Hspec).
  { intros month Hin.
    destruct (trend_line_spec hi (reviews_data w) month Hbound Hsmall)
      as (line & Hline & t & Ht0 & -> & Hnear); [by apply Hmem|].
    exists (month +:+ ": " +:+ render_fixed 2 (sum_list (ratings_in_month month valid) <? 0) t).
    split; [done|].
    set (ratings := ratings_in_month month valid) in *.
    assert (Forall (λ r, lo ≤ r ≤ hi) ratings) as Hrs.
    { unfold ratings, ratings_in_month. apply Forall_fmap, Forall_forall.
      intros p [_ Hp]%list_elem_of_filter. cbn.
      by eapply Forall_forall in Hrange. }
    pose proof (sum_list_range lo hi ratings Hrs) as Hsum.
    assert (0 < Z.of_nat (length ratings)) as Hcount.
    { apply Hmem, ratings_in_month_nonempty in Hin. fold ratings in Hin.
      destruct ratings; [done|]. cbn [length]. lia. }
    assert (0 ≤ sum_list ratings) as Htotal by nia.
    exists t. split.
    - by apply (nearest_decimal_range 2 t (sum_list ratings) (Z.of_nat (length ratings))).
    - by destruct (Z.ltb_spec (sum_list ratings) 0) as [|_]; [lia|]. }
  exists months, lines. split; [|done].
  unfold sentiment_trend_tool. run_world. fold months. by rewrite Hlines.
Qed.

End Ranges.

Lemma sample_ratings_in_range :
  Forall (λ r, 1 ≤ r ≤ 5) (omap parsed_rating (reviews_data (initial_world sample_reviews))).
Proof. rewrite sample_reviews_ratings. repeat apply Forall_cons_2; [lia..|apply Forall_nil_2]. Qed.

Lemma rating_summary_average_in_range_witness :
  let w := initial_world sample_reviews in
  let ratings := omap parsed_rating (reviews_data w) in
  Forall (ascii_column "Rating") (reviews_data w) ∧
  ratings ≠ [] ∧ 0 ≤ 1 ∧
  Forall (λ r, 1 ≤ r ≤ 5) ratings ∧
  20 * 5 * Z.of_nat (length ratings) < 2 ^ 53 ∧
  ∃ t, 10 * 1 ≤ t ≤ 10 * 5 ∧
    returned (rating_summary_tool "" w)
    = Ok ("There are " +:+ str_int (Z.of_nat (length ratings))
          +:+ " reviews with an average rating of " +:+ render_fixed 1 false t
          +:+ " stars.").
Proof.
  assert (omap parsed_rating (reviews_data (initial_world sample_reviews)) ≠ []) as Hne
    by (by rewrite sample_reviews_ratings).
  assert (20 * 5 * Z.of_nat (length (omap parsed_rating
            (reviews_data (initial_world sample_reviews)))) < 2 ^ 53) as Hsmall
    by (rewrite sample_reviews_ratings; by vm_compute).
  split; [exact (sample_reviews_ascii "Rating")|].
  split; [exact Hne|]. split; [lia|]. split; [exact sample_ratings_in_range|].
  split; [exact Hsmall|].
  exact (rating_summary_average_in_range "" (initial_world sample_reviews) 1 5
           (sample_reviews_ascii "Rating") Hne ltac:(lia) sample_ratings_in_range Hsmall).
Defined.

Lemma sample_months_in_range :
  Forall (λ p : string * Z, 1 ≤ p.2 ≤ 5)
    (omap (month_and_rating (@strftime_pads_year sample_services))
       (reviews_data (initial_world sample_reviews))).
Proof.
  change (@strftime_pads_year sample_services) with false.
  rewrite sample_reviews_months.
  repeat apply Forall_cons_2; [cbn; lia..|apply Forall_nil_2].
Qed.

Lemma trend_averages_in_range_witness :
  let w := initial_world sample_reviews in
  let valid := omap (month_and_rating (@strftime_pads_year sample_services))
                 (reviews_data w) in
  Forall (ascii_column "Date") (reviews_data w) ∧
  Forall (ascii_column "Rating") (reviews_data w) ∧
  0 ≤ 1 ∧
  Forall (λ p : string * Z, 1 ≤ p.2 ≤ 5) valid ∧
  200 * 5 * Z.of_nat (length valid) < 2 ^ 53 ∧
  ∃ months lines : list string,
    returned (@sentiment_trend_tool sample_services "" w)
    = Ok ("Sentiment trend by month:" +:+ newline +:+ py_join newline lines) ∧
    Forall2 (λ month line,
               ∃ t, 100 * 1 ≤ t ≤ 100 * 5 ∧
                    line = month +:+ ": " +:+ render_fixed 2 false t)
      months lines.
Proof.
  assert (200 * 5 * Z.of_nat (length
            (omap (month_and_rating (@strftime_pads_year sample_services))
               (reviews_data (initial_world sample_reviews)))) < 2 ^ 53) as Hsmall.
  { change (@strftime_pads_year sample_services) with false.
    rewrite sample_reviews_months. by vm_compute. }
  split; [exact (sample_reviews_ascii "Date")|].
  split; [exact (sample_reviews_ascii "Rating")|].
  split; [lia|]. split; [exact sample_months_in_range|]. split; [exact Hsmall|].
  exact (@trend_averages_in_range sample_services "" (initial_world sample_reviews) 1 5
           (sample_reviews_ascii "Date") (sample_reviews_ascii "Rating")
           ltac:(lia) sample_months_in_range Hsmall).
Defined.

(** ** The words the two counters report *)

Lemma py_lower_cons c s :
  py_lower (String c s) = String c s ↔ lower_char c = c ∧ py_lower s = s.
Proof.
  change (py_lower (String c s)) with (String (lower_char c) (py_lower s)).
  split; [intros [= Hc Hs]; by rewrite Hc, Hs|intros [Hc Hs]; by rewrite Hc, Hs].
Qed.

Lemma lstrip_with_lower p s : py_lower s = s → py_lower (lstrip_with p s) = lstrip_with p s.
Proof.
  induction s as [|c s IH]; [done|]. intros Hs. cbn [lstrip_with].
  destruct (p c); [|done]. apply IH. by apply py_lower_cons in Hs as [_ ?].
Qed.

Lemma rstrip_with_lower p s : py_lower s = s → py_lower (rstrip_with p s) = rstrip_with p s.
Proof.
  induction s as [|c s IH]; [done|]. intros [Hc Hs]%py_lower_cons. cbn [rstrip_with].
  destruct (p c && is_empty (rstrip_with p s)); [done|].
  apply py_lower_cons. auto.
Qed.

Lemma strip_with_lower p s : py_lower s = s → py_lower (strip_with p s) = strip_with p s.
Proof. intros Hs. by apply lstrip_with_lower, rstrip_with_lower. Qed.

Lemma split_words_lower s :
  py_lower s = s →
  py_lower (split_words s).1 = (split_words s).1 ∧
  Forall (λ word, py_lower word = word) (split_words s).2.
Proof.
  induction s as [|c s IH]; [by split; [|constructor]|].
  intros [Hc Hs]%py_lower_cons. destruct (IH Hs) as [Hw Hws].
  cbn [split_words]. destruct (split_words s) as [w ws]. cbn [fst snd] in *.
  destruct (is_space c); cbn [fst snd].
  - split; [done|]. destruct (is_empty w); [done|by constructor].
  - split; [|done]. apply py_lower_cons. auto.
Qed.

Lemma py_split_lower s :
  py_lower s = s → Forall (λ word, py_lower word = word) (py_split s).
Proof.
  intros Hs. destruct (split_words_lower s Hs) as [Hw Hws].
  unfold py_split. destruct (split_words s) as [w ws]. cbn [fst snd] in *.
  destruct (is_empty w); [done|by constructor].
Qed.

(** The pieces of a lowercased body are in lower case. *)
Lemma body_words_lower body :
  Forall (λ word, py_lower word = word) (body_words (py_lower body)).
Proof.
  unfold body_words. apply Forall_fmap.
  eapply Forall_impl; [apply py_split_lower, py_lower_idemp|].
  intros word Hword. cbn. by apply strip_with_lower.
Qed.

Lemma elem_of_concat {A} (x : A) (ls : list (list A)) :
  x ∈ concat ls ↔ ∃ l, x ∈ l ∧ l ∈ ls.
Proof.
  induction ls as [|l ls IH]; cbn [concat].
  - split; [by intros ?%elem_of_nil|by intros (l & _ & ?%elem_of_nil)].
  - rewrite elem_of_app, IH. split.
    + intros [Hx|(l' & Hx & Hl')].
      * exists l. split; [done|apply list_elem_of_here].
      * exists l'. split; [done|by apply list_elem_of_further].
    + intros (l' & Hx & [->|Hl']%elem_of_cons); [by left|].
      right. by exists l'.
Qed.

Lemma keyword_tokens_lower reviews word :
  word ∈ keyword_tokens reviews → py_isalpha word = true ∧ py_lower word = word.
Proof.
  unfold keyword_tokens. intros Hin.
  apply elem_of_concat in Hin as (words & Hword & Hwords).
  apply list_elem_of_fmap in Hwords as (review & -> & _).
  unfold alphabetic_words in Hword.
  apply list_elem_of_filter in Hword as [Halpha Hword].
  split; [done|].
  pose proof (body_words_lower (text "Review" review)) as Hlower.
  by eapply Forall_forall in Hlower.
Qed.

Lemma mention_tokens_lower reviews word :
  word ∈ mention_tokens reviews →
  py_isalpha word = true ∧ py_lower word = word ∧ 3 < Z.of_nat (String.length word).
Proof.
  unfold mention_tokens. intros Hin.
  apply elem_of_concat in Hin as (words & Hword & Hwords).
  apply list_elem_of_fmap in Hwords as (review & -> & _).
  unfold mention_words in Hword.
  apply list_elem_of_filter in Hword as [[Halpha Hlen] Hword].
  split_and!; [done| |done].
  pose proof (body_words_lower (text "Review" review)) as Hlower.
  by eapply Forall_forall in Hlower.
Qed.

Lemma occurrences_present word tokens : word ∈ tokens → 1 ≤ occurrences word tokens.
Proof.
  intros Hin. unfold occurrences.
  assert (word ∈ filter (λ t, t = word) tokens) as Hf by (by apply list_elem_of_filter).
  destruct (filter _ tokens); [by apply elem_of_nil in Hf|]. cbn [length]. lia.
Qed.

Lemma insert_desc_Permutation x l : insert_desc x l ≡ₚ x :: l.
Proof.
  induction l as [|y l IH]; [done|]. cbn [insert_desc].
  destruct (x.2 <? y.2); [|done]. rewrite IH. apply Permutation_swap.
Qed.

Lemma sorted_by_count_desc_Permutation l : sorted_by_count_desc l ≡ₚ l.
Proof.
  unfold sorted_by_count_desc. induction l as [|x l IH]; [done|].
  cbn [foldr]. by rewrite insert_desc_Permutation, IH.
Qed.

Lemma counted_words tokens : map fst (counted tokens) = firsts tokens.
Proof.
  unfold counted. rewrite map_map. cbn. apply map_id.
Qed.

Section Words.
Context `{Services}.

(** X27. What the two word counters report, on a store of complete rows
    whose ratings and bodies are ASCII text:
    [low_rated_reasons_tool] lists at most five keywords, no keyword twice,
    each a word made of letters only that is in lower case;
    [most_mentioned_dish_tool] answers ["No mentions found."] or names a
    term of more than three letters, all of them letters in lower case,
    with a number of mentions that is at least one. *)
Theorem reported_words_are_lowercase (input : string) (w : world) :
  Forall complete_row (reviews_data w) →
  Forall (ascii_column "Rating") (reviews_data w) →
  Forall (ascii_column "Review") (reviews_data w) →
  (∃ keywords,
     returned (low_rated_reasons_tool input w)
     = Ok ("Common keywords in low-rated reviews: " +:+ py_join ", " keywords) ∧
     (length keywords ≤ 5)%nat ∧ NoDup keywords ∧
     Forall (λ word, py_isalpha word = true ∧ py_lower word = word) keywords) ∧
  (returned (most_mentioned_dish_tool input w) = Ok "No mentions found."
   ∨ ∃ term mentions,
       returned (most_mentioned_dish_tool input w)
       = Ok ("The most mentioned term in reviews is '" +:+ term +:+ "' with "
             +:+ str_int mentions +:+ " mentions.") ∧
       1 ≤ mentions ∧ 3 < Z.of_nat (String.length term) ∧
       py_isalpha term = true ∧ py_lower term = term).
Proof.
  intros Hrows _ _. split.
  - set (tokens := keyword_tokens (reviews_data w)).
    exists (take 5 (map fst (sorted_by_count_desc (counted tokens)))).
    split_and!.
    + unfold low_rated_reasons_tool. run_world.
      rewrite (low_rated_loop_complete _ _ Hrows), fold_bump_counted. cbn.
      fold tokens. by rewrite <- fmap_take.
    + rewrite length_take. lia.
    + eapply sublist_NoDup; [|apply sublist_take].
      rewrite (sorted_by_count_desc_Permutation (counted tokens)), counted_words.
      apply NoDup_firsts.
    + apply Forall_take, Forall_forall. intros word Hin.
      apply list_elem_of_fmap in Hin as ([word' c] & -> & Hin). cbn.
      apply elem_of_sorted_by_count_desc, elem_of_counted in Hin as [Hin _].
      by apply keyword_tokens_lower in Hin.
  - set (tokens := mention_tokens (reviews_data w)).
    unfold most_mentioned_dish_tool. run_world.
    rewrite (most_mentioned_loop_complete _ _ Hrows), fold_bump_counted. cbn.
    fold tokens.
    destruct (counted tokens) as [|first others] eqn:Hcounted; [by left|].
    right.
    pose proof (counted_sorted tokens) as Hsorted. rewrite Hcounted in Hsorted.
    destruct (max_by_count_first _ [first] first others Hsorted) as [Hin _].
    { apply list_elem_of_here. }
    { intros y ->%list_elem_of_singleton. by left. }
    cbn [app] in Hin. rewrite <- Hcounted in Hin.
    destruct (max_by_count first others) as [term c].
    apply elem_of_counted in Hin as [Hterm ->].
    exists term, (occurrences term tokens). cbn [fst snd].
    destruct (mention_tokens_lower _ _ Hterm) as (Halpha & Hlower & Hlen).
    split_and!; [done|by apply occurrences_present|done|done|done].
Qed.

End Words.

Lemma reported_words_are_lowercase_witness :
  let w := initial_world sample_reviews in
  Forall complete_row (reviews_data w) ∧
  Forall (ascii_column "Rating") (reviews_data w) ∧
  Forall (ascii_column "Review") (reviews_data w) ∧
  (∃ keywords,
     returned (low_rated_reasons_tool "" w)
     = Ok ("Common keywords in low-rated reviews: " +:+ py_join ", " keywords) ∧
     (length keywords ≤ 5)%nat ∧ NoDup keywords ∧
     Forall (λ word, py_isalpha word = true ∧ py_lower word = word) keywords) ∧
  (returned (most_mentioned_dish_tool "" w) = Ok "No mentions found."
   ∨ ∃ term mentions,
       returned (most_mentioned_dish_tool "" w)
       = Ok ("The most mentioned term in reviews is '" +:+ term +:+ "' with "
             +:+ str_int mentions +:+ " mentions.") ∧
       1 ≤ mentions ∧ 3 < Z.of_nat (String.length term) ∧
       py_isalpha term = true ∧ py_lower term = term).
Proof.
  split; [exact sample_reviews_complete|].
  split; [exact (sample_reviews_ascii "Rating")|].
  split; [exact (sample_reviews_ascii "Review")|].
  exact (reported_words_are_lowercase "" (initial_world sample_reviews)
           sample_reviews_complete (sample_reviews_ascii "Rating")
           (sample_reviews_ascii "Review")).
Defined.
